(** * Render service keep-alive and monitoring: a shallow embedding

    The Python sources [keep_alive.py], [monitoring.py], [reporting.py] and
    [main.py] are embedded as Rocq functions in a state-and-exception monad
    over a [World] that holds the process state (the monitor's log list, the
    manager's down-notified attribute, the report loop's last report date),
    the file system, the trace of observable events, and the oracles through
    which the environment answers (clock, HTTP, SMTP, disk).

    Conventions.
    - A naive [datetime] and a [time.time()] reading are both an instant in
      microseconds ([Z]); comparison of naive datetimes is comparison of
      instants.
    - A Python [int] is a [Z]. A Python [float] is an IEEE 754 binary64
      number and is modelled by its exact value, a rational ([Qc]): every
      float operation of the sources is the exact operation followed by
      rounding to the nearest number with a 53-bit significand, ties to the
      even one ([binary64]). The exponent range is not modelled: the floats
      of the sources are quotients of integers, their products with 100 and
      two-decimal roundings of these, which stay clear of the subnormal and
      the overflow range for integers below 2^1000.
    - Markup text of the e-mail bodies is abstracted to a document tree
      ([Html]); which branch builds the document, and when building raises,
      follows the source.
    - [loguru] logging has no effect on the modelled state and is omitted. *)

From Stdlib Require Import Ascii String QArith Qcanon Qpower Lqa SpecFloat.
From stdpp Require Import base numbers list strings gmap pretty.

Local Open Scope string_scope.
Local Open Scope Z_scope.

(** ** Python values shared by the modules *)

(** Truthiness of an optional string ([None] and [""] are falsy). *)
Definition truthy_str (s : option string) : bool :=
  match s with
  | Some s => negb (String.eqb s "")
  | None => false
  end.

(** Truthiness of an optional integer ([None] and [0] are falsy). *)
Definition truthy_int (v : option Z) : bool :=
  match v with
  | Some n => negb (n =? 0)
  | None => false
  end.

(** [str.upper], on the ASCII letters. *)
Definition upper_ascii (c : ascii) : ascii :=
  let n := nat_of_ascii c in
  if ((97 <=? n) && (n <=? 122))%nat then ascii_of_nat (n - 32) else c.

Fixpoint upper (s : string) : string :=
  match s with
  | EmptyString => EmptyString
  | String c s' => String (upper_ascii c) (upper s')
  end.

(** [str.lower], on the ASCII letters. *)
Definition lower_ascii (c : ascii) : ascii :=
  let n := nat_of_ascii c in
  if ((65 <=? n) && (n <=? 90))%nat then ascii_of_nat (n + 32) else c.

Fixpoint lower (s : string) : string :=
  match s with
  | EmptyString => EmptyString
  | String c s' => String (lower_ascii c) (lower s')
  end.

(** [s.rstrip('/')]. *)
Fixpoint rstrip_slash (s : string) : string :=
  match s with
  | EmptyString => EmptyString
  | String c s' =>
      match rstrip_slash s' with
      | EmptyString => if Ascii.eqb c "/" then EmptyString else String c EmptyString
      | r => String c r
      end
  end.

(** [needle in hay] for strings. *)
Fixpoint contains (needle hay : string) : bool :=
  String.prefix needle hay ||
  match hay with
  | EmptyString => false
  | String _ hay' => contains needle hay'
  end.

(** Microseconds in a second, a minute, an hour and a day of a naive datetime. *)
Definition usec : Z := 1000000.
Definition usec_per_day : Z := 86400 * usec.

Definition dt_date (t : Z) : Z := t `div` usec_per_day.
Definition dt_hour (t : Z) : Z := (t `mod` usec_per_day) `div` (3600 * usec).
Definition dt_minute (t : Z) : Z := (t `mod` (3600 * usec)) `div` (60 * usec).
(** [t - datetime.timedelta(days=1)] *)
Definition minus_one_day (t : Z) : Z := t - usec_per_day.
(** The second-resolution stamp that [strftime("%Y-%m-%d_%H-%M-%S")] prints. *)
Definition dt_seconds (t : Z) : Z := t `div` usec.

(** ** Records exchanged between the modules *)

(** The dict built by [RenderKeepAlive.ping_endpoint]. *)
Record ProbeResult := {
  endpoint : string;
  method : string;
  url : string;
  status : string;
  response_time_ms : option Z;
  status_code : option Z;
  error : option string;
  timestamp : Z
}.

(** The dict built by [ServiceMonitor.log_ping]. *)
Record LogEntry := {
  log_timestamp : Z;
  log_endpoint : string;
  log_method : string;
  log_status : string;
  log_response_time_ms : option Z;
  log_status_code : option Z;
  log_error : option string
}.

Record Incident := {
  inc_timestamp : Z;
  inc_endpoint : string;
  inc_method : string;
  inc_error : option string
}.

(** The dict built by [ServiceMonitor.generate_report]. *)
Record Report := {
  report_date : Z;
  start_time : option Z;
  end_time : option Z;
  total_checks : Z;
  uptime_count : Z;
  downtime_count : Z;
  uptime_percentage : Qc;
  average_response_time_ms : option Qc;
  downtime_incidents : list Incident
}.

(** The keys of an alert dict besides the four that every caller sets. *)
Inductive AlertDetails :=
| DowntimeDetails (failed_endpoints : list ProbeResult)
                  (total_endpoints_checked failed_count : Z)
| RecoveryDetails (recovery_endpoints : list ProbeResult) (message : string)
| MessageOnly (message : string).

Record Alert := {
  alert_type : string;
  alert_timestamp : Z;
  alert_service_name : string;
  alert_service_url : string;
  alert_details : AlertDetails
}.

(** [alert_report.get("failed_endpoints", [])] *)
Definition get_failed_endpoints (a : Alert) : list ProbeResult :=
  match alert_details a with
  | DowntimeDetails f _ _ => f
  | _ => []
  end.

(** The rendered e-mail bodies. *)
Inductive Html :=
| HtmlReport (service_name : string) (period_start period_end generated : Z)
             (percentage : Qc) (total up down : Z) (average : option Qc)
             (tier colour : string) (incidents : list Incident)
             (base_url : string)
| HtmlDowntime (service_name : string) (alert_time : Z) (service_url : string)
               (rows : list (string * string * option string))
| HtmlRecovery (service_name : string) (recovery_time : Z) (service_url : string).

Inductive Subject :=
| SubjDailyReport (service_name : string)
| SubjDown (service_name : string)
| SubjRecovery (service_name : string)
| SubjServiceAlert (service_name : string).

Record Email := {
  mail_subject : Subject;
  mail_from : string;
  mail_to : list string;
  mail_priority : option string;
  mail_body : Html
}.

(** What a file on disk holds: nothing, one of the JSON documents or the
    markup the sources write, or bytes that are not UTF-8 text (the sources
    never write such a file; one may be there when the process starts). *)
Inductive FileData :=
| FEmpty
| FJsonLogs (logs : list LogEntry)
| FJsonReport (r : Report)
| FJsonAlert (a : Alert)
| FHtml (h : Html)
| FUndecodable.

(** ** The environment and the monad *)

(** The exceptions the sources catch. All derive from [Exception]. *)
Inductive PyExn :=
| RequestsTimeout
| RequestsConnectionError (msg : string)
| RequestsRequestException (msg : string)
| UnboundLocalError
| TypeError
| ValueError
| OSError
| SMTPException
| OtherException (msg : string).

(** How one HTTP request ends. *)
Inductive HttpOutcome :=
| Response (code : Z)
| Raises (e : PyExn).

(** What a run leaves in the trace: the requests, file operations, SMTP
    sessions and sleeps, and the calls of the reporter's four sending methods
    ([send_alert], [send_alert_email], [send_report], [send_report_email]),
    recorded at their entry so that the order of calls can be stated. *)
Inductive Event :=
| EvHttp (verb url : string) (timeout : Z)
| EvOpenWrite (path : string) (ok : bool)
| EvWrite (path : string) (data : FileData)
| EvSmtp (m : Email) (ok : bool)
| EvSleep (seconds : Z)
| EvSendAlert (a : Alert)
| EvSendAlertEmail (a : Alert)
| EvSendReport (r : Report)
| EvSendReportEmail (r : Report).

Record World := {
  (** oracles: the k-th consultation of each gets the k-th answer *)
  w_clock : nat → Z;
  w_http : nat → HttpOutcome;
  w_smtp : nat → bool;
  w_disk : nat → bool;
  w_nclock : nat;
  w_nhttp : nat;
  w_nsmtp : nat;
  w_ndisk : nat;
  (** the persistence layer and the observable history, oldest event first *)
  w_fs : gmap string FileData;
  w_trace : list Event;
  (** [ServiceMonitor.logs] *)
  w_logs : list LogEntry;
  (** [hasattr(manager, '_service_down_notified')] *)
  w_down_notified : bool;
  (** the local [last_report_date] of [check_reporting_schedule] *)
  w_last_report_date : option Z
}.

Definition M (A : Type) : Type := World → (PyExn + A) * World.

Definition ret {A} (a : A) : M A := λ w, (inr a, w).

Definition bind {A B} (c : M A) (k : A → M B) : M B :=
  λ w, match c w with
       | (inr a, w') => k a w'
       | (inl e, w') => (inl e, w')
       end.

Definition raise {A} (e : PyExn) : M A := λ w, (inl e, w).

(** [try: c  except Exception as e: h e] *)
Definition try_except {A} (c : M A) (h : PyExn → M A) : M A :=
  λ w, match c w with
       | (inr a, w') => (inr a, w')
       | (inl e, w') => h e w'
       end.

Declare Scope py_scope.
Delimit Scope py_scope with py.
Notation "x <- c ;; k" := (bind c (λ x, k))
  (at level 100, c at next level, right associativity) : py_scope.
Notation "c ;; k" := (bind c (λ _, k))
  (at level 100, right associativity) : py_scope.
Local Open Scope py_scope.

Definition emit (e : Event) : M unit :=
  λ w, (inr tt,
        {| w_clock := w_clock w; w_http := w_http w; w_smtp := w_smtp w;
           w_disk := w_disk w; w_nclock := w_nclock w; w_nhttp := w_nhttp w;
           w_nsmtp := w_nsmtp w; w_ndisk := w_ndisk w; w_fs := w_fs w;
           w_trace := (w_trace w ++ [e])%list; w_logs := w_logs w;
           w_down_notified := w_down_notified w;
           w_last_report_date := w_last_report_date w |}).

(** [time.time()] and [datetime.datetime.now()]. *)
Definition now : M Z :=
  λ w, (inr (w_clock w (w_nclock w)),
        {| w_clock := w_clock w; w_http := w_http w; w_smtp := w_smtp w;
           w_disk := w_disk w; w_nclock := S (w_nclock w); w_nhttp := w_nhttp w;
           w_nsmtp := w_nsmtp w; w_ndisk := w_ndisk w; w_fs := w_fs w;
           w_trace := w_trace w; w_logs := w_logs w;
           w_down_notified := w_down_notified w;
           w_last_report_date := w_last_report_date w |}).

(** [time.sleep(seconds)]; a negative length raises [ValueError]. *)
Definition sleep (seconds : Z) : M unit :=
  if seconds <? 0 then raise ValueError else emit (EvSleep seconds).

(** [requests.get(url, timeout=t)] / [requests.head(url, timeout=t)]:
    the status code of the response, or an exception. *)
Definition http_request (verb url : string) (timeout : Z) : M Z :=
  λ w, let w' :=
         {| w_clock := w_clock w; w_http := w_http w; w_smtp := w_smtp w;
            w_disk := w_disk w; w_nclock := w_nclock w;
            w_nhttp := S (w_nhttp w);
            w_nsmtp := w_nsmtp w; w_ndisk := w_ndisk w; w_fs := w_fs w;
            w_trace := (w_trace w ++ [EvHttp verb url timeout])%list;
            w_logs := w_logs w;
            w_down_notified := w_down_notified w;
            w_last_report_date := w_last_report_date w |} in
       match w_http w (w_nhttp w) with
       | Response code => (inr code, w')
       | Raises e => (inl e, w')
       end.

(** One disk operation that may fail: [os.makedirs(.., exist_ok=True)]. *)
Definition disk_op : M unit :=
  λ w, let w' :=
         {| w_clock := w_clock w; w_http := w_http w; w_smtp := w_smtp w;
            w_disk := w_disk w; w_nclock := w_nclock w; w_nhttp := w_nhttp w;
            w_nsmtp := w_nsmtp w; w_ndisk := S (w_ndisk w); w_fs := w_fs w;
            w_trace := w_trace w; w_logs := w_logs w;
            w_down_notified := w_down_notified w;
            w_last_report_date := w_last_report_date w |} in
       if w_disk w (w_ndisk w) then (inr tt, w') else (inl OSError, w').

Definition set_file (path : string) (data : FileData) : M unit :=
  λ w, (inr tt,
        {| w_clock := w_clock w; w_http := w_http w; w_smtp := w_smtp w;
           w_disk := w_disk w; w_nclock := w_nclock w; w_nhttp := w_nhttp w;
           w_nsmtp := w_nsmtp w; w_ndisk := w_ndisk w;
           w_fs := <[path := data]> (w_fs w);
           w_trace := w_trace w; w_logs := w_logs w;
           w_down_notified := w_down_notified w;
           w_last_report_date := w_last_report_date w |}).

(** [open(path, "w")]: on success the file exists and is empty. *)
Definition open_w (path : string) : M unit :=
  try_except (disk_op ;; emit (EvOpenWrite path true) ;; set_file path FEmpty)
             (λ e, emit (EvOpenWrite path false) ;; raise e).

(** [f.write(..)] / [json.dump(.., f)] on a file opened for writing. *)
Definition write (path : string) (data : FileData) : M unit :=
  emit (EvWrite path data) ;; set_file path data.

(** One SMTP session: connect, [starttls], [login], [send_message]. *)
Definition smtp_session (m : Email) : M unit :=
  λ w, let ok := w_smtp w (w_nsmtp w) in
       let w' :=
         {| w_clock := w_clock w; w_http := w_http w; w_smtp := w_smtp w;
            w_disk := w_disk w; w_nclock := w_nclock w; w_nhttp := w_nhttp w;
            w_nsmtp := S (w_nsmtp w); w_ndisk := w_ndisk w; w_fs := w_fs w;
            w_trace := (w_trace w ++ [EvSmtp m ok])%list; w_logs := w_logs w;
            w_down_notified := w_down_notified w;
            w_last_report_date := w_last_report_date w |} in
       if ok then (inr tt, w') else (inl SMTPException, w').

Definition get_logs_attr : M (list LogEntry) := λ w, (inr (w_logs w), w).

Definition set_logs_attr (l : list LogEntry) : M unit :=
  λ w, (inr tt,
        {| w_clock := w_clock w; w_http := w_http w; w_smtp := w_smtp w;
           w_disk := w_disk w; w_nclock := w_nclock w; w_nhttp := w_nhttp w;
           w_nsmtp := w_nsmtp w; w_ndisk := w_ndisk w; w_fs := w_fs w;
           w_trace := w_trace w; w_logs := l;
           w_down_notified := w_down_notified w;
           w_last_report_date := w_last_report_date w |}).

Definition has_down_notified : M bool := λ w, (inr (w_down_notified w), w).

Definition set_down_notified (b : bool) : M unit :=
  λ w, (inr tt,
        {| w_clock := w_clock w; w_http := w_http w; w_smtp := w_smtp w;
           w_disk := w_disk w; w_nclock := w_nclock w; w_nhttp := w_nhttp w;
           w_nsmtp := w_nsmtp w; w_ndisk := w_ndisk w; w_fs := w_fs w;
           w_trace := w_trace w; w_logs := w_logs w;
           w_down_notified := b;
           w_last_report_date := w_last_report_date w |}).

Definition get_last_report_date : M (option Z) :=
  λ w, (inr (w_last_report_date w), w).

Definition set_last_report_date (d : option Z) : M unit :=
  λ w, (inr tt,
        {| w_clock := w_clock w; w_http := w_http w; w_smtp := w_smtp w;
           w_disk := w_disk w; w_nclock := w_nclock w; w_nhttp := w_nhttp w;
           w_nsmtp := w_nsmtp w; w_ndisk := w_ndisk w; w_fs := w_fs w;
           w_trace := w_trace w; w_logs := w_logs w;
           w_down_notified := w_down_notified w;
           w_last_report_date := d |}).

(** [for x in l: body x] *)
Fixpoint for_each {A} (l : list A) (body : A → M unit) : M unit :=
  match l with
  | [] => ret tt
  | x :: l' => body x ;; for_each l' body
  end.

(** ** keep_alive.py *)

Record RenderKeepAlive := {
  ka_base_url : string;
  ka_endpoints : list string;
  ka_methods : list string;
  ka_timeout : Z
}.

(** [RenderKeepAlive.__init__] *)
Definition RenderKeepAlive_init (base_url : string)
    (endpoints methods : option (list string)) (timeout : Z) : RenderKeepAlive :=
  {| ka_base_url := if String.eqb base_url "" then "" else rstrip_slash base_url;
     ka_endpoints := match endpoints with
                     | Some (e :: es) => e :: es
                     | _ => ["/ping"; "/api/health"]
                     end;
     ka_methods := match methods with
                   | Some (m :: ms) => m :: ms
                   | _ => ["GET"; "HEAD"]
                   end;
     ka_timeout := timeout |}.

Definition set_error (r : ProbeResult) (e : string) : ProbeResult :=
  {| endpoint := endpoint r; method := method r; url := url r;
     status := status r; response_time_ms := response_time_ms r;
     status_code := status_code r; error := Some e; timestamp := timestamp r |}.

(** [RenderKeepAlive.ping_endpoint] *)
Definition ping_endpoint (self : RenderKeepAlive) (endpoint0 method0 : string)
  : M ProbeResult :=
  let url0 := ka_base_url self +:+ endpoint0 in
  start <- now ;;
  stamp <- now ;;
  let result :=
    {| endpoint := endpoint0; method := method0; url := url0;
       status := "DOWN"; response_time_ms := None; status_code := None;
       error := None; timestamp := stamp |} in
  try_except
    (code <- (if String.eqb (upper method0) "GET"
             then http_request "GET" url0 (ka_timeout self)
             else if String.eqb (upper method0) "HEAD"
             then http_request "HEAD" url0 (ka_timeout self)
             else http_request "GET" url0 (ka_timeout self)) ;;
     finish <- now ;;
     (* int((time.time() - start_time) * 1000) truncates towards zero *)
     let elapsed_ms := (finish - start) `quot` 1000 in
     if code <? 400
     then ret {| endpoint := endpoint0; method := method0; url := url0;
                 status := "UP"; response_time_ms := Some elapsed_ms;
                 status_code := Some code; error := None;
                 timestamp := stamp |}
     else ret {| endpoint := endpoint0; method := method0; url := url0;
                 status := "DOWN"; response_time_ms := Some elapsed_ms;
                 status_code := Some code;
                 error := Some ("HTTP " +:+ pretty code);
                 timestamp := stamp |})
    (λ e,
       match e with
       | RequestsTimeout =>
           ret {| endpoint := endpoint0; method := method0; url := url0;
                  status := "DOWN";
                  response_time_ms := Some (ka_timeout self * 1000);
                  status_code := None;
                  error := Some ("Request timeout after "
                                 +:+ pretty (ka_timeout self) +:+ "s");
                  timestamp := stamp |}
       | RequestsConnectionError msg =>
           ret (set_error result ("Connection error: " +:+ msg))
       | RequestsRequestException msg =>
           ret (set_error result ("Request error: " +:+ msg))
       | OtherException msg =>
           ret (set_error result ("Unexpected error: " +:+ msg))
       | _ => ret (set_error result "Unexpected error: ")
       end).

(** The inner [for method in self.methods] of [ping_all_endpoints]. *)
Fixpoint ping_methods (self : RenderKeepAlive) (endpoint0 : string)
    (methods : list string) : M (list ProbeResult) :=
  match methods with
  | [] => ret []
  | m :: ms =>
      r <- ping_endpoint self endpoint0 m ;;
      rs <- ping_methods self endpoint0 ms ;;
      ret (r :: rs)
  end.

Fixpoint ping_endpoints (self : RenderKeepAlive) (endpoints : list string)
  : M (list ProbeResult) :=
  match endpoints with
  | [] => ret []
  | e :: es =>
      rs <- ping_methods self e (ka_methods self) ;;
      rest <- ping_endpoints self es ;;
      ret (rs ++ rest)%list
  end.

(** [RenderKeepAlive.ping_all_endpoints] *)
Definition ping_all_endpoints (self : RenderKeepAlive) : M (list ProbeResult) :=
  ping_endpoints self (ka_endpoints self).

(** [any(result["status"] == "UP" for result in results)] *)
Definition any_up (results : list ProbeResult) : bool :=
  existsb (λ result, String.eqb (status result) "UP") results.

(** [RenderKeepAlive.is_service_healthy] *)
Definition is_service_healthy (results : list ProbeResult) : bool :=
  any_up results.

(** ** monitoring.py *)

Record ServiceMonitor := {
  log_file : string
}.

(** [ServiceMonitor._save_logs] *)
Definition _save_logs (self : ServiceMonitor) : M unit :=
  try_except
    (logs <- get_logs_attr ;;
     open_w (log_file self) ;;
     write (log_file self) (FJsonLogs logs))
    (λ _, ret tt).

(** [ServiceMonitor.log_ping] *)
Definition log_ping (self : ServiceMonitor) (endpoint0 method0 status0 : string)
    (response_time_ms0 : option Z) (error0 : option string)
    (status_code0 : option Z) : M LogEntry :=
  stamp <- now ;;
  let log_entry :=
    {| log_timestamp := stamp; log_endpoint := endpoint0;
       log_method := method0; log_status := status0;
       log_response_time_ms := response_time_ms0;
       log_status_code := status_code0; log_error := error0 |} in
  logs <- get_logs_attr ;;
  set_logs_attr (logs ++ [log_entry])%list ;;
  _save_logs self ;;
  ret log_entry.

(** The [for log in self.logs] loop of [get_logs], with its two [continue]s. *)
Fixpoint get_logs_loop (start_time end_time : option Z) (logs : list LogEntry)
  : list LogEntry :=
  match logs with
  | [] => []
  | log :: rest =>
      let log_time := log_timestamp log in
      if match start_time with Some s => log_time <? s | None => false end
      then get_logs_loop start_time end_time rest
      else if match end_time with Some e => log_time >? e | None => false end
      then get_logs_loop start_time end_time rest
      else log :: get_logs_loop start_time end_time rest
  end.

(** The window query on a given log list. *)
Definition window (logs : list LogEntry) (start_time end_time : option Z)
  : list LogEntry :=
  match start_time, end_time with
  | None, None => logs
  | _, _ => get_logs_loop start_time end_time logs
  end.

(** [ServiceMonitor.get_logs] *)
Definition get_logs (self : ServiceMonitor) (start_time end_time : option Z)
  : M (list LogEntry) :=
  logs <- get_logs_attr ;;
  ret (window logs start_time end_time).

Definition is_up (log : LogEntry) : bool := String.eqb (log_status log) "UP".
Definition is_down (log : LogEntry) : bool := String.eqb (log_status log) "DOWN".

(** [sum(1 for log in logs if log["status"] == "UP")] *)
Fixpoint count_up (logs : list LogEntry) : Z :=
  match logs with
  | [] => 0
  | log :: rest => if is_up log then 1 + count_up rest else count_up rest
  end.

(** The loop that collects [downtime_incidents]. *)
Fixpoint collect_incidents (logs : list LogEntry) : list Incident :=
  match logs with
  | [] => []
  | log :: rest =>
      if is_down log
      then {| inc_timestamp := log_timestamp log;
              inc_endpoint := log_endpoint log;
              inc_method := log_method log;
              inc_error := log_error log |} :: collect_incidents rest
      else collect_incidents rest
  end.

(** [log["status"] == "UP" and log.get("response_time_ms")] *)
Definition is_successful_ping (log : LogEntry) : bool :=
  is_up log && truthy_int (log_response_time_ms log).

(** [[log for log in logs if ...]] *)
Definition successful_pings (logs : list LogEntry) : list LogEntry :=
  List.filter is_successful_ping logs.

(** [sum(log["response_time_ms"] for log in successful_pings)] *)
Fixpoint sum_response_time (pings : list LogEntry) : Z :=
  match pings with
  | [] => 0
  | log :: rest => default 0 (log_response_time_ms log) + sum_response_time rest
  end.

(** Nearest integer, ties to the even one. *)
Definition round_half_even (x : Q) : Z :=
  let n := Qnum x in
  let d := Z.pos (Qden x) in
  let q := n `div` d in
  let r := n `mod` d in
  match 2 * r ?= d with
  | Lt => q
  | Gt => q + 1
  | Eq => if Z.even q then q else q + 1
  end.

(** ** Python floats: IEEE 754 binary64, round to nearest, ties to even *)

Definition pow2 (e : Z) : Q := (2 ^ e)%Q.

(** The binade of a positive rational: the [b] with [2^b <= x < 2^(b+1)]. *)
Definition binade (x : Q) : Z :=
  let d := Z.log2 (Qnum x) - Z.log2 (Z.pos (Qden x)) in
  if Qle_bool (pow2 d) x then d else d - 1.

(** The nearest number with a 53-bit significand to a positive rational:
    the significand is [x / 2^e] rounded half-even, for the exponent [e] that
    puts it between [2^52] and [2^53]. *)
Definition nearest53 (x : Q) : Q :=
  let e := binade x - 52 in
  (inject_Z (round_half_even (x * pow2 (- e))) * pow2 e)%Q.

(** The binary64 number that a float operation with exact result [x]
    returns. *)
Definition binary64 (x : Qc) : Qc :=
  if bool_decide (Qc_of_Z 0 < x)%Qc then Q2Qc (nearest53 x)
  else if bool_decide (x < Qc_of_Z 0)%Qc
       then (- Q2Qc (nearest53 (- x)%Qc))%Qc
       else Qc_of_Z 0.

(** [a / b] on two [int]s, for [b] other than 0: the correctly rounded
    quotient. The sources divide by the length of a list that is not
    empty. *)
Definition true_div (a b : Z) : Qc := binary64 (Qc_of_Z a / Qc_of_Z b)%Qc.

(** [x * y] on floats. *)
Definition float_mul (x y : Qc) : Qc := binary64 (x * y)%Qc.

(** [round(x, 2)] on a float: the exact value of [x] is rounded half-even to
    two decimals, and the float nearest to that decimal is returned. *)
Definition round2 (x : Qc) : Qc :=
  binary64 (Qc_of_Z (round_half_even (x * Qc_of_Z 100)%Qc) / Qc_of_Z 100)%Qc.

(** [avg_response_time] before rounding: [None] or the quotient
    [sum(...) / len(successful_pings)]. *)
Definition avg_response_time (logs : list LogEntry) : option Qc :=
  match successful_pings logs with
  | [] => None
  | p :: ps =>
      Some (true_div (sum_response_time (p :: ps))
                     (Z.of_nat (length (p :: ps))))
  end.

(** [round(avg_response_time, 2) if avg_response_time else None] *)
Definition average_field (avg : option Qc) : option Qc :=
  match avg with
  | Some a => if bool_decide (a = Qc_of_Z 0) then None else Some (round2 a)
  | None => None
  end.

(** [(uptime_count / total_checks) * 100 if total_checks > 0 else 0] *)
Definition percentage (uptime total : Z) : Qc :=
  if total >? 0
  then float_mul (true_div uptime total) (Qc_of_Z 100)
  else Qc_of_Z 0.

(** [ServiceMonitor.generate_report] *)
Definition generate_report (self : ServiceMonitor)
    (start_time0 end_time0 : option Z) : M (option Report) :=
  logs <- get_logs self start_time0 end_time0 ;;
  match logs with
  | [] => ret None
  | _ :: _ =>
      let total := Z.of_nat (length logs) in
      let up := count_up logs in
      let down := total - up in
      let incidents := collect_incidents logs in
      let avg := avg_response_time logs in
      stamp <- now ;;
      ret (Some {| report_date := stamp;
                   start_time := start_time0;
                   end_time := end_time0;
                   total_checks := total;
                   uptime_count := up;
                   downtime_count := down;
                   uptime_percentage := percentage up total;
                   average_response_time_ms := average_field avg;
                   downtime_incidents := incidents |})
  end.

(** [ServiceMonitor.clear_logs] *)
Definition clear_logs (self : ServiceMonitor) : M unit :=
  set_logs_attr [] ;;
  _save_logs self.

(** ** reporting.py *)

(** The attributes [ServiceReporter.__init__] resolves from the config file
    and the process environment. *)
Record ServiceReporter := {
  smtp_server : option string;
  smtp_port : Z;
  smtp_username : option string;
  smtp_password : option string;
  sender_email : option string;
  recipient_emails : list string;
  rep_service_name : string;
  (** [self.config.get("base_url", "Not configured")] *)
  rep_base_url : string
}.

(** The two guards that open [send_report_email] and [send_alert_email]. *)
Definition smtp_config_incomplete (self : ServiceReporter) : bool :=
  negb (truthy_str (smtp_server self))
  || negb (truthy_str (smtp_username self))
  || negb (truthy_str (smtp_password self)).

Definition addresses_missing (self : ServiceReporter) : bool :=
  negb (truthy_str (sender_email self))
  || match recipient_emails self with [] => true | _ => false end.

(** The tier and colour chosen from the uptime percentage. *)
Definition tier_of (pct : Qc) : string * string :=
  if bool_decide (Qc_of_Z 99 ≤ pct)%Qc then ("Excellent", "#4CAF50")
  else if bool_decide (Qc_of_Z 95 ≤ pct)%Qc then ("Good", "#FFC107")
  else if bool_decide (Qc_of_Z 90 ≤ pct)%Qc then ("Fair", "#FF9800")
  else ("Poor", "#F44336").

(** [ServiceReporter.format_report_email]. A report dict is never empty, so
    the first guard does not fire. [datetime.fromisoformat(None)] raises
    [TypeError] when the report carries no window bound. *)
Definition format_report_email (self : ServiceReporter) (report : Report)
  : M Html :=
  match start_time report with
  | None => raise TypeError
  | Some period_start =>
      match end_time report with
      | None => raise TypeError
      | Some period_end =>
          let '(tier, colour) := tier_of (uptime_percentage report) in
          generated <- now ;;
          let average :=
            match average_response_time_ms report with
            | Some a => if bool_decide (a = Qc_of_Z 0) then None else Some a
            | None => None
            end in
          ret (HtmlReport (rep_service_name self) period_start period_end
                 generated (uptime_percentage report) (total_checks report)
                 (uptime_count report) (downtime_count report) average
                 tier colour (downtime_incidents report) (rep_base_url self))
      end
  end.

(** [ServiceReporter.send_report_email] *)
Definition send_report_email (self : ServiceReporter) (report : Report)
  : M bool :=
  emit (EvSendReportEmail report) ;;
  if smtp_config_incomplete self then ret false
  else if addresses_missing self then ret false
  else
    try_except
      (html_content <- format_report_email self report ;;
       smtp_session
         {| mail_subject := SubjDailyReport (rep_service_name self);
            mail_from := default "" (sender_email self);
            mail_to := recipient_emails self;
            mail_priority := None;
            mail_body := html_content |} ;;
       ret true)
      (λ _, ret false).

(** [ServiceReporter.format_alert_email]: [email_body] is bound only in the
    DOWNTIME and the RECOVERY branch; for any other type the closing
    [email_body += ...] raises [UnboundLocalError]. *)
Definition format_alert_email (self : ServiceReporter) (a : Alert) : M Html :=
  if String.eqb (alert_type a) "DOWNTIME" then
    ret (HtmlDowntime (alert_service_name a) (alert_timestamp a)
           (alert_service_url a)
           (map (λ r, (endpoint r, method r, error r))
                (get_failed_endpoints a)))
  else if String.eqb (alert_type a) "RECOVERY" then
    ret (HtmlRecovery (alert_service_name a) (alert_timestamp a)
           (alert_service_url a))
  else raise UnboundLocalError.

(** [ServiceReporter.send_alert_email] *)
Definition send_alert_email (self : ServiceReporter) (a : Alert) : M bool :=
  emit (EvSendAlertEmail a) ;;
  if smtp_config_incomplete self then ret false
  else if addresses_missing self then ret false
  else
    try_except
      (let '(subject, priority) :=
         if String.eqb (alert_type a) "DOWNTIME"
         then (SubjDown (alert_service_name a), "urgent")
         else if String.eqb (alert_type a) "RECOVERY"
         then (SubjRecovery (alert_service_name a), "normal")
         else (SubjServiceAlert (alert_service_name a), "normal") in
       html_content <- format_alert_email self a ;;
       smtp_session
         {| mail_subject := subject;
            mail_from := default "" (sender_email self);
            mail_to := recipient_emails self;
            mail_priority :=
              Some (if String.eqb priority "urgent" then "1" else "3");
            mail_body := html_content |} ;;
       ret true)
      (λ _, ret false).

Fixpoint drop_str (n : nat) (s : string) : string :=
  match n, s with
  | O, _ => s
  | S n', String _ s' => drop_str n' s'
  | S _, EmptyString => EmptyString
  end.

(** [s.replace(old, new)] for a non-empty [old]. *)
Fixpoint replace_go (fuel : nat) (old new s : string) : string :=
  match fuel with
  | O => s
  | S fuel' =>
      if String.prefix old s
      then new +:+ replace_go fuel' old new (drop_str (String.length old) s)
      else match s with
           | EmptyString => EmptyString
           | String c s' => String c (replace_go fuel' old new s')
           end
  end.

Definition replace (old new s : string) : string :=
  replace_go (S (String.length s)) old new s.

(** The stamp [strftime("%Y-%m-%d_%H-%M-%S")] puts in a backup file name:
    the calendar rendering is abstracted to the decimal count of seconds,
    which keeps its resolution of one second. *)
Definition strftime_stamp (t : Z) : string := pretty (dt_seconds t).

Definition alert_backup_file (a : Alert) (stamp : Z) : string :=
  "logs/alert_backups" +:+ "/" +:+
  ("alert_" +:+ lower (alert_type a) +:+ "_" +:+ strftime_stamp stamp +:+ ".json").

Definition report_backup_file (stamp : Z) : string :=
  "logs/report_backups" +:+ "/" +:+
  ("report_backup_" +:+ strftime_stamp stamp +:+ ".json").

(** [ServiceReporter._save_alert_backup] *)
Definition _save_alert_backup (self : ServiceReporter) (a : Alert) : M unit :=
  try_except
    (disk_op ;;
     stamp <- now ;;
     let backup_file := alert_backup_file a stamp in
     open_w backup_file ;;
     write backup_file (FJsonAlert a) ;;
     let html_file := replace ".json" ".html" backup_file in
     open_w html_file ;;
     html <- format_alert_email self a ;;
     write html_file (FHtml html))
    (λ _, ret tt).

(** [ServiceReporter.send_alert] *)
Definition send_alert (self : ServiceReporter) (a : Alert) : M bool :=
  emit (EvSendAlert a) ;;
  _save_alert_backup self a ;;
  send_alert_email self a.

(** [ServiceReporter._save_report_backup] *)
Definition _save_report_backup (self : ServiceReporter) (report : Report)
  : M unit :=
  try_except
    (disk_op ;;
     stamp <- now ;;
     let backup_file := report_backup_file stamp in
     open_w backup_file ;;
     write backup_file (FJsonReport report) ;;
     let html_file := replace ".json" ".html" backup_file in
     open_w html_file ;;
     html <- format_report_email self report ;;
     write html_file (FHtml html))
    (λ _, ret tt).

(** [range(n)] *)
Definition range (n : Z) : list Z := map Z.of_nat (seq 0 (Z.to_nat n)).

(** The [for attempt in range(retry_count)] loop of [send_report]; falling
    off its end returns [False]. *)
Fixpoint send_report_loop (self : ServiceReporter) (report : Report)
    (retry_count retry_delay : Z) (attempts : list Z) : M bool :=
  match attempts with
  | [] => ret false
  | attempt :: rest =>
      sent <- send_report_email self report ;;
      if sent : bool then ret true
      else
        (if attempt <? retry_count - 1 then sleep retry_delay else ret tt) ;;
        send_report_loop self report retry_count retry_delay rest
  end.

(** [ServiceReporter.send_report] *)
Definition send_report (self : ServiceReporter) (report : Report)
    (retry_count retry_delay : Z) : M bool :=
  emit (EvSendReport report) ;;
  _save_report_backup self report ;;
  send_report_loop self report retry_count retry_delay (range retry_count).

(** The defaults of [send_report]'s keyword arguments. *)
Definition default_retry_count : Z := 3.
Definition default_retry_delay : Z := 300.

(** ** main.py *)

(** The keys of [config.json] that [RenderServiceManager] reads; a missing
    key is [None]. *)
Record Config := {
  cfg_service_name : option string;
  cfg_base_url : option string;
  (** [config["reporting"]["schedule"]] *)
  cfg_schedule : option string;
  (** [config["reporting"]["reset_logs_after_send"]] *)
  cfg_reset_logs_after_send : option bool;
  cfg_endpoints : option (list string);
  cfg_http_methods : option (list string);
  cfg_timeout_seconds : option Z;
  cfg_interval_seconds : option Z
}.

(** An empty [config.json], or none at all. *)
Definition empty_config : Config :=
  {| cfg_service_name := None; cfg_base_url := None; cfg_schedule := None;
     cfg_reset_logs_after_send := None; cfg_endpoints := None;
     cfg_http_methods := None; cfg_timeout_seconds := None;
     cfg_interval_seconds := None |}.

(** The two variables [__init__] reads with [os.getenv]. *)
Record OsEnviron := {
  env_SERVICE_NAME : option string;
  env_BASE_URL : option string
}.

Record RenderServiceManager := {
  config : Config;
  service_name : string;
  base_url : string;
  reporting_schedule : string;
  reset_logs_after_send : bool;
  keep_alive : RenderKeepAlive;
  monitor : ServiceMonitor;
  reporter : ServiceReporter
}.

(** [RenderServiceManager.__init__]; the reporter is built from the same
    config path by [ServiceReporter.__init__] and is passed in resolved. *)
Definition RenderServiceManager_init (cfg : Config) (environ : OsEnviron)
    (reporter0 : ServiceReporter) : RenderServiceManager :=
  let base_url0 :=
    default (default "" (env_BASE_URL environ)) (cfg_base_url cfg) in
  {| config := cfg;
     service_name :=
       default (default "Render Service" (env_SERVICE_NAME environ))
               (cfg_service_name cfg);
     base_url := base_url0;
     reporting_schedule := default "00:00" (cfg_schedule cfg);
     reset_logs_after_send := default true (cfg_reset_logs_after_send cfg);
     keep_alive :=
       RenderKeepAlive_init base_url0
         (Some (default ["/ping"; "/api/health"] (cfg_endpoints cfg)))
         (Some (default ["GET"; "HEAD"] (cfg_http_methods cfg)))
         (default 10 (cfg_timeout_seconds cfg));
     monitor := {| log_file := "logs/uptime_logs.json" |};
     reporter := reporter0 |}.

Definition result_is_down (r : ProbeResult) : bool := String.eqb (status r) "DOWN".
Definition result_is_up (r : ProbeResult) : bool := String.eqb (status r) "UP".

(** [RenderServiceManager._send_immediate_downtime_alert] *)
Definition _send_immediate_downtime_alert (self : RenderServiceManager)
    (results : list ProbeResult) : M unit :=
  try_except
    (let failed_endpoints := List.filter result_is_down results in
     stamp <- now ;;
     let alert_report :=
       {| alert_type := "DOWNTIME";
          alert_timestamp := stamp;
          alert_service_name := service_name self;
          alert_service_url := base_url self;
          alert_details :=
            DowntimeDetails failed_endpoints
              (Z.of_nat (length results))
              (Z.of_nat (length failed_endpoints)) |} in
     success <- send_alert (reporter self) alert_report ;;
     ret tt)
    (λ _, ret tt).

(** [RenderServiceManager._send_service_recovery_alert] *)
Definition _send_service_recovery_alert (self : RenderServiceManager)
    (results : list ProbeResult) : M unit :=
  try_except
    (stamp <- now ;;
     let recovery_report :=
       {| alert_type := "RECOVERY";
          alert_timestamp := stamp;
          alert_service_name := service_name self;
          alert_service_url := base_url self;
          alert_details :=
            RecoveryDetails (List.filter result_is_up results)
              "Service has recovered and is responding normally" |} in
     success <- send_alert (reporter self) recovery_report ;;
     ret tt)
    (λ _, ret tt).

(** [RenderServiceManager.ping_service] *)
Definition ping_service (self : RenderServiceManager) : M (list ProbeResult) :=
  results <- ping_all_endpoints (keep_alive self) ;;
  let healthy := any_up results in
  notified <- has_down_notified ;;
  (if negb healthy && negb notified then
     _send_immediate_downtime_alert self results ;;
     set_down_notified true
   else if healthy && notified then
     _send_service_recovery_alert self results ;;
     set_down_notified false
   else ret tt) ;;
  for_each results
    (λ result,
       log_ping (monitor self) (endpoint result) (method result)
         (status result) (response_time_ms result) (error result)
         (status_code result) ;;
       ret tt) ;;
  ret results.

(** [is_midnight and last_report_date != current_date] *)
Definition should_send_report (now0 : Z) (last_report_date : option Z) : bool :=
  let current_date := dt_date now0 in
  let is_midnight := (dt_hour now0 =? 0) && (dt_minute now0 =? 0) in
  is_midnight && negb (bool_decide (last_report_date = Some current_date)).

(** The [try] block of [check_reporting_schedule] with its handler: build the
    report over the past 24 hours, send it, record the date. *)
Definition midnight_report (self : RenderServiceManager) (now0 : Z) : M unit :=
  let current_date := dt_date now0 in
  let end_time0 := now0 in
  let start_time0 := minus_one_day end_time0 in
  try_except
    (report <- generate_report (monitor self)
                 (Some start_time0) (Some end_time0) ;;
     match report with
     | Some report =>
         sent <- send_report (reporter self) report
                   default_retry_count default_retry_delay ;;
         if sent : bool then
           set_last_report_date (Some current_date) ;;
           if reset_logs_after_send self
           then clear_logs (monitor self)
           else ret tt
         else ret tt
     | None => set_last_report_date (Some current_date)
     end)
    (λ _, ret tt).

(** One pass through the [while True] of
    [RenderServiceManager.check_reporting_schedule]. *)
Definition check_reporting_schedule_tick (self : RenderServiceManager)
  : M unit :=
  now0 <- now ;;
  last_report_date <- get_last_report_date ;;
  if should_send_report now0 last_report_date then
    midnight_report self now0 ;;
    sleep 120
  else
    sleep 30.

(** [n] passes through the loop. *)
Fixpoint check_reporting_schedule (self : RenderServiceManager) (n : nat)
  : M unit :=
  match n with
  | O => ret tt
  | S n' =>
      check_reporting_schedule_tick self ;;
      check_reporting_schedule self n'
  end.

(** ** Observers and sample worlds used in the statements *)

(** A world with the given oracles in which nothing has happened yet: the
    state of a freshly started process with no log file. *)
Definition fresh_world (clock : nat → Z) (http : nat → HttpOutcome)
    (smtp disk : nat → bool) : World :=
  {| w_clock := clock; w_http := http; w_smtp := smtp; w_disk := disk;
     w_nclock := 0; w_nhttp := 0; w_nsmtp := 0; w_ndisk := 0;
     w_fs := ∅; w_trace := []; w_logs := [];
     w_down_notified := false; w_last_report_date := None |}.

(** A log entry as [log_ping] stores it for a probe result. *)
Definition entry_at (t : Z) (status0 : string) (ms : option Z) : LogEntry :=
  {| log_timestamp := t; log_endpoint := "/ping"; log_method := "GET";
     log_status := status0; log_response_time_ms := ms;
     log_status_code := None; log_error := None |}.

(** The latencies recorded on the UP records of a log list. *)
Definition up_latencies (logs : list LogEntry) : list Z :=
  omap (λ log, if is_up log then log_response_time_ms log else None) logs.

Definition sum_Z (l : list Z) : Z := foldr Z.add 0 l.

(** The mean of a list of integers, as a rational. *)
Definition mean (l : list Z) : Qc :=
  (Qc_of_Z (sum_Z l) / Qc_of_Z (Z.of_nat (length l)))%Qc.

(** The [monitor] every manager is built with. *)
Definition default_monitor : ServiceMonitor :=
  {| log_file := "logs/uptime_logs.json" |}.

(** A world whose monitor holds the given log list. *)
Definition world_with_logs (logs : list LogEntry) : World :=
  {| w_clock := λ _, 0; w_http := λ _, Response 200;
     w_smtp := λ _, true; w_disk := λ _, true;
     w_nclock := 0; w_nhttp := 0; w_nsmtp := 0; w_ndisk := 0;
     w_fs := ∅; w_trace := []; w_logs := logs;
     w_down_notified := false; w_last_report_date := None |}.

(** ** Reading a run: events added, state kept *)

(** Classes of events. *)
Definition is_http_event (e : Event) : bool :=
  match e with EvHttp _ _ _ => true | _ => false end.
Definition is_file_event (e : Event) : bool :=
  match e with EvOpenWrite _ _ | EvWrite _ _ => true | _ => false end.
Definition is_smtp_event (e : Event) : bool :=
  match e with EvSmtp _ _ => true | _ => false end.
Definition is_sleep_event (e : Event) : bool :=
  match e with EvSleep _ => true | _ => false end.
Definition is_send_alert (e : Event) : bool :=
  match e with EvSendAlert _ => true | _ => false end.
Definition is_send_alert_email (e : Event) : bool :=
  match e with EvSendAlertEmail _ => true | _ => false end.
Definition is_send_report (e : Event) : bool :=
  match e with EvSendReport _ => true | _ => false end.
Definition is_send_report_email (e : Event) : bool :=
  match e with EvSendReportEmail _ => true | _ => false end.

(** [q] admits every event that [p] admits. *)
Definition admits (p q : Event → bool) : Prop :=
  ∀ e, p e = true → q e = true.

(** [w'] is reached from [w] by adding events of class [p] only, under the
    same oracles, without touching the manager's down-notified attribute or
    the report loop's last report date. *)
Record extends (p : Event → bool) (w w' : World) : Prop := {
  ext_trace : ∃ evs, w_trace w' = (w_trace w ++ evs)%list
                     ∧ forallb p evs = true;
  ext_clock : w_clock w' = w_clock w;
  ext_http : w_http w' = w_http w;
  ext_smtp : w_smtp w' = w_smtp w;
  ext_disk : w_disk w' = w_disk w;
  ext_nsmtp : (w_nsmtp w ≤ w_nsmtp w')%nat;
  ext_down_notified : w_down_notified w' = w_down_notified w;
  ext_last_report_date : w_last_report_date w' = w_last_report_date w
}.

(** Every run of [c] extends the world it starts from, whether it returns or
    raises. *)
Definition respects (p : Event → bool) {A} (c : M A) : Prop :=
  ∀ w, extends p w (c w).2.

(** [c] never raises. *)
Definition returns {A} (c : M A) : Prop :=
  ∀ w, ∃ a, (c w).1 = inr a.

(** The alert types of the [send_alert] calls in a list of events. *)
Definition alert_of (e : Event) : option string :=
  match e with
  | EvSendAlert a => Some (alert_type a)
  | _ => None
  end.

Definition alert_types (evs : list Event) : list string := omap alert_of evs.

(** The events a run from [w] to [w'] added. *)
Definition events_since (w w' : World) : list Event :=
  drop (length (w_trace w)) (w_trace w').

(** A successful SMTP session that carried the daily report. *)
Definition is_report_delivered (e : Event) : bool :=
  match e with
  | EvSmtp m true =>
      match mail_subject m with
      | SubjDailyReport _ => true
      | _ => false
      end
  | _ => false
  end.

Definition reports_delivered (evs : list Event) : nat :=
  length (List.filter is_report_delivered evs).

(** The delivery attempts and the sleeps among a list of events. *)
Definition delivery_steps (evs : list Event) : list Event :=
  List.filter (λ e, is_send_report_email e || is_sleep_event e) evs.

(** [n] delivery attempts with a sleep of [delay] between consecutive ones. *)
Fixpoint retry_pattern (report : Report) (delay : Z) (n : nat) : list Event :=
  match n with
  | O => []
  | S O => [EvSendReportEmail report]
  | S n' => EvSendReportEmail report :: EvSleep delay
            :: retry_pattern report delay n'
  end.

(** What one probe cycle shows: the health it observed ([None] if the cycle
    raised), the alerts it emitted, the down-notified attribute it left. *)
Record CycleView := {
  observed_healthy : option bool;
  alerts_emitted : list string;
  notified_after : bool
}.

(** [n] consecutive calls of [ping_service], each seen as a [CycleView]. *)
Fixpoint run_cycles (self : RenderServiceManager) (n : nat) (w : World)
  : list CycleView * World :=
  match n with
  | O => ([], w)
  | S n' =>
      let '(res, w1) := ping_service self w in
      let view :=
        {| observed_healthy :=
             match res with
             | inr results => Some (is_service_healthy results)
             | inl _ => None
             end;
           alerts_emitted := alert_types (events_since w w1);
           notified_after := w_down_notified w1 |} in
      let '(views, w2) := run_cycles self n' w1 in
      (view :: views, w2)
  end.

(** Every event but a [send_alert] call. *)
Definition not_send_alert (e : Event) : bool := negb (is_send_alert e).

(** The run from [w] to [w'] called [send_alert] exactly once, with an alert
    of type [ty], and left the manager's attributes and the oracles as they
    were. *)
Definition emits_alert (ty : string) (w w' : World) : Prop :=
  ∃ a evs,
    w_trace w' = (w_trace w ++ EvSendAlert a :: evs)%list
    ∧ alert_type a = ty
    ∧ forallb not_send_alert evs = true
    ∧ w_down_notified w' = w_down_notified w
    ∧ w_last_report_date w' = w_last_report_date w
    ∧ w_smtp w' = w_smtp w.

(** The run from [w] to [w'] made [send_alert] calls of exactly the types
    [alerts], in this order, under the same SMTP oracle. *)
Definition alerts_between (alerts : list string) (w w' : World) : Prop :=
  ∃ evs,
    w_trace w' = (w_trace w ++ evs)%list
    ∧ alert_types evs = alerts
    ∧ w_smtp w' = w_smtp w.

(** The alerts the transition table prescribes for an observation. *)
Definition expected_alerts (healthy notified : bool) : list string :=
  if negb healthy && negb notified then ["DOWNTIME"]
  else if healthy && notified then ["RECOVERY"]
  else [].

(** A reporter with a complete SMTP configuration, and the manager built
    around it from an empty [config.json]: two endpoints, two methods, so
    four requests per probe cycle. *)
Definition sample_reporter : ServiceReporter :=
  {| smtp_server := Some "smtp.gmail.com"; smtp_port := 587;
     smtp_username := Some "monitor"; smtp_password := Some "secret";
     sender_email := Some "monitor@example.com";
     recipient_emails := ["admin@example.org"];
     rep_service_name := "Render Service";
     rep_base_url := "https://example.onrender.com" |}.

Definition sample_manager : RenderServiceManager :=
  RenderServiceManager_init empty_config
    {| env_SERVICE_NAME := None;
       env_BASE_URL := Some "https://example.onrender.com/" |}
    sample_reporter.

(** Every request of the first three cycles times out, then all succeed. *)
Definition outage_then_recovery (k : nat) : HttpOutcome :=
  if (k <? 12)%nat then Raises RequestsTimeout else Response 200.

(** Two cycles of time-outs, one healthy cycle, then HTTP 503 for good. *)
Definition outage_recovery_outage (k : nat) : HttpOutcome :=
  if (k <? 8)%nat then Raises RequestsTimeout
  else if (k <? 12)%nat then Response 200
  else Response 503.

(** The run from [w] to [w'] made exactly the delivery attempts and sleeps
    [steps], in this order, under the same SMTP oracle. *)
Definition steps_between (steps : list Event) (w w' : World) : Prop :=
  ∃ evs,
    w_trace w' = (w_trace w ++ evs)%list
    ∧ delivery_steps evs = steps
    ∧ w_smtp w' = w_smtp w.

(** The number of [send_report_email] calls among a list of events. *)
Definition delivery_attempts (evs : list Event) : nat :=
  length (List.filter is_send_report_email evs).

(** A rendered document written to a file. *)
Definition is_html_write (e : Event) : bool :=
  match e with
  | EvWrite _ (FHtml _) => true
  | _ => false
  end.

(** The alert that the [/alert] endpoint of [api/index.py] hands to
    [send_alert]. *)
Definition test_alert : Alert :=
  {| alert_type := "TEST";
     alert_timestamp := 0;
     alert_service_name := "Campus Connect Backend";
     alert_service_url := "https://campusconnect-v2.onrender.com";
     alert_details :=
       MessageOnly "This is a test alert to verify email functionality" |}.

(** A world in which the disk and the SMTP server always work. *)
Definition working_world : World :=
  fresh_world (λ _, 0) (λ _, Response 200) (λ _, true) (λ _, true).

(** The run from [w] to [w'] delivered the daily report [n] times and did
    not touch the report loop's last report date. *)
Definition delivered_between (n : nat) (w w' : World) : Prop :=
  ∃ evs,
    w_trace w' = (w_trace w ++ evs)%list
    ∧ reports_delivered evs = n
    ∧ w_last_report_date w' = w_last_report_date w.

(** The instant the next pass of the report loop reads as [now]. *)
Definition tick_time (w : World) : Z := w_clock w (w_nclock w).

(** "HH:MM" of an instant, as a schedule string of [config.json] gives it. *)
Definition two_digits (n : Z) : string :=
  if n <? 10 then "0" +:+ pretty n else pretty n.

Definition hhmm (t : Z) : string :=
  two_digits (dt_hour t) +:+ ":" +:+ two_digits (dt_minute t).

(** Whether a pass through the loop called [send_report]. *)
Definition calls_send_report (evs : list Event) : bool :=
  existsb is_send_report evs.

(** The instants the next [n] passes of the report loop read as [now]. *)
Fixpoint tick_times (self : RenderServiceManager) (n : nat) (w : World)
  : list Z :=
  match n with
  | O => []
  | S n' =>
      tick_time w
      :: tick_times self n' (check_reporting_schedule_tick self w).2
  end.

(** 06:30 on day 0, and a manager whose [config.json] asks for the report at
    that time. *)
Definition half_past_six : Z := (6 * 3600 + 30 * 60) * usec.

Definition manager_scheduled_0630 : RenderServiceManager :=
  RenderServiceManager_init
    {| cfg_service_name := None; cfg_base_url := None;
       cfg_schedule := Some "06:30";
       cfg_reset_logs_after_send := None; cfg_endpoints := None;
       cfg_http_methods := None; cfg_timeout_seconds := None;
       cfg_interval_seconds := None |}
    {| env_SERVICE_NAME := None;
       env_BASE_URL := Some "https://example.onrender.com/" |}
    sample_reporter.

(** A world with one UP record in the log, in which the clock always reads
    [t] and the disk and the SMTP server work. *)
Definition world_at (t : Z) : World :=
  {| w_clock := λ _, t; w_http := λ _, Response 200;
     w_smtp := λ _, true; w_disk := λ _, true;
     w_nclock := 0; w_nhttp := 0; w_nsmtp := 0; w_ndisk := 0;
     w_fs := ∅; w_trace := [];
     w_logs := [entry_at (t - 1000 * usec) "UP" (Some 50)];
     w_down_notified := false; w_last_report_date := None |}.

(** ** Further functions of the sources *)




(** The verb [ping_endpoint] ends up using for a configured method. *)
Definition verb_of (method0 : string) : string :=
  if String.eqb (upper method0) "HEAD" then "HEAD" else "GET".

(** The request [ping_endpoint] issues for an endpoint and a method. *)
Definition request_of (self : RenderKeepAlive) (em : string * string) : Event :=
  EvHttp (verb_of em.2) (ka_base_url self +:+ em.1) (ka_timeout self).

(** [[(e, m) for e in endpoints for m in methods]] *)
Definition endpoint_method_pairs (self : RenderKeepAlive)
  : list (string * string) :=
  list_prod (ka_endpoints self) (ka_methods self).

(** Every run of [c] leaves the observation [f] of the world as it was. *)
Definition preserves {X A} (f : World → X) (c : M A) : Prop :=
  ∀ w, f (c w).2 = f w.

(** The log entry [ping_service] stores for a probe result at instant [t]. *)
Definition entry_of_result (t : Z) (r : ProbeResult) : LogEntry :=
  {| log_timestamp := t; log_endpoint := endpoint r; log_method := method r;
     log_status := status r; log_response_time_ms := response_time_ms r;
     log_status_code := status_code r; log_error := error r |}.

(** A log entry without its timestamp. *)
Definition entry_fields (l : LogEntry)
  : string * string * string * option Z * option Z * option string :=
  (log_endpoint l, log_method l, log_status l, log_response_time_ms l,
   log_status_code l, log_error l).

Definition result_fields (r : ProbeResult)
  : string * string * string * option Z * option Z * option string :=
  (endpoint r, method r, status r, response_time_ms r, status_code r, error r).

(** The SMTP sessions among a list of events. *)
Definition smtp_sessions (evs : list Event) : list Event :=
  List.filter is_smtp_event evs.

(** What every result built by [ping_endpoint] satisfies. *)
Definition probe_result_ok (r : ProbeResult) : Prop :=
  (status r = "UP" ∨ status r = "DOWN")
  ∧ (status r = "UP" ↔ error r = None).

(** [n] slashes, and the last character of a string. *)
Fixpoint slashes (n : nat) : string :=
  match n with
  | O => ""
  | S n' => String "/" (slashes n')
  end.

Fixpoint last_char (s : string) : option ascii :=
  match s with
  | EmptyString => None
  | String c EmptyString => Some c
  | String _ s' => last_char s'
  end.

(** The incident [generate_report] lists for a DOWN record. *)
Definition incident_of (log : LogEntry) : Incident :=
  {| inc_timestamp := log_timestamp log; inc_endpoint := log_endpoint log;
     inc_method := log_method log; inc_error := log_error log |}.

(** The attempts and sleeps of a [send_report] whose first [k] attempts fail
    and whose next one succeeds. *)
Fixpoint success_pattern (report : Report) (delay : Z) (k : nat) : list Event :=
  match k with
  | O => [EvSendReportEmail report]
  | S k' => EvSendReportEmail report :: EvSleep delay
            :: success_pattern report delay k'
  end.

(** The reporter can try a delivery: credentials and addresses are set. *)
Definition can_deliver (self : ServiceReporter) : bool :=
  negb (smtp_config_incomplete self) && negb (addresses_missing self).

(** The value of a finite float of the Standard Library's specification of
    IEEE 754 arithmetic ([SpecFloat]), and the binary64 float of a positive
    integer there; used to compare [binary64] with that specification. *)
Definition SF2Q (f : spec_float) : Q :=
  match f with
  | S754_finite s m e =>
      ((if s then -1 else 1) * inject_Z (Z.pos m) * pow2 e)%Q
  | _ => 0%Q
  end.

Definition SF_of_pos (n : positive) : spec_float :=
  binary_normalize 53 1024 (Z.pos n) 0 false.

(** The largest float below 1 and the largest float below 100. *)
Definition below_1 : Qc := (Qc_of_Z 1 - Q2Qc (pow2 (-53)))%Qc.
Definition below_100 : Qc := (Qc_of_Z 100 - Q2Qc (pow2 (-46)))%Qc.

(** A timestamp lies in the window: not before the start, if one is given,
    and not after the end, if one is given. *)
Definition in_window (s e : option Z) (t : Z) : bool :=
  match s with Some s0 => s0 <=? t | None => true end
  && match e with Some e0 => t <=? e0 | None => true end.

(** * Properties *)

(** ** The prober *)

Lemma eqb_string_true (s t : string) : String.eqb s t = true ↔ s = t.
Proof. apply String.eqb_eq. Qed.

Lemma prefix_app (s t : string) : String.prefix s (s +:+ t) = true.
Proof.
  induction s as [|c s IH]; simpl.
  - by destruct t.
  - destruct (ascii_dec c c); [exact IH | congruence].
Qed.

Lemma prefix_refl (s : string) : String.prefix s s = true.
Proof.
  induction s as [|c s IH]; simpl; [reflexivity|].
  destruct (ascii_dec c c); [exact IH | congruence].
Qed.

Lemma contains_of_prefix (needle hay : string) :
  String.prefix needle hay = true → contains needle hay = true.
Proof. intros H. destruct hay; simpl in *; rewrite H; reflexivity. Qed.

Lemma contains_app_r (needle pre : string) :
  contains needle (pre +:+ needle) = true.
Proof.
  induction pre as [|c pre IH].
  - apply contains_of_prefix, prefix_refl.
  - change (String c pre +:+ needle) with (String c (pre +:+ needle)).
    simpl. rewrite IH. apply orb_true_r.
Qed.

(** C3. [is_service_healthy] is true exactly when some result has status UP,
    and it is false on the empty list. *)
Theorem is_service_healthy_iff_some_up (results : list ProbeResult) :
  (is_service_healthy results = true ↔
   ∃ r, r ∈ results ∧ status r = "UP")
  ∧ is_service_healthy [] = false.
Proof.
  split; [|reflexivity].
  unfold is_service_healthy, any_up. rewrite existsb_exists.
  split.
  - intros (r & Hin & Hup). exists r. split.
    + by apply list_elem_of_In.
    + by apply eqb_string_true.
  - intros (r & Hin & Hup). exists r. split.
    + by apply list_elem_of_In.
    + by apply eqb_string_true.
Qed.

(** C2. [ping_endpoint] always returns a result. When the request is answered
    with status code [c], the result is UP exactly when [c < 400]; when
    [c >= 400] it is DOWN and its error text contains the code. When the
    request raises (timeout or any other exception) the result is DOWN. *)
Theorem ping_endpoint_classification
    (self : RenderKeepAlive) (endpoint0 method0 : string) (w : World) :
  ∃ r w', ping_endpoint self endpoint0 method0 w = (inr r, w') ∧
    match w_http w (w_nhttp w) with
    | Response c =>
        (status r = "UP" ↔ c < 400) ∧
        (c >= 400 →
         status r = "DOWN" ∧
         ∃ e, error r = Some e ∧ contains (pretty c) e = true)
    | Raises _ => status r = "DOWN"
    end.
Proof.
  unfold ping_endpoint, bind, try_except, now, http_request; simpl.
  destruct (w_http w (w_nhttp w)) as [c|e] eqn:Hhttp.
  - destruct (String.eqb (upper method0) "GET");
      [|destruct (String.eqb (upper method0) "HEAD")];
      simpl; rewrite Hhttp; simpl;
      destruct (Z.ltb_spec c 400); simpl; eexists _, _; (split; [reflexivity|]);
      simpl; (split; [split; [done || lia | done || lia] |]);
      intros; try lia; (split; [done|]); eexists; (split; [reflexivity|]);
      apply contains_app_r.
  - destruct (String.eqb (upper method0) "GET");
      [|destruct (String.eqb (upper method0) "HEAD")];
      simpl; rewrite Hhttp; simpl; destruct e; simpl; eauto.
Qed.

(** ** The log store and the report builder *)

Lemma get_logs_window (self : ServiceMonitor) (s e : option Z) (w : World) :
  get_logs self s e w = (inr (window (w_logs w) s e), w).
Proof. reflexivity. Qed.

Lemma get_logs_loop_filter (s e : option Z) (logs : list LogEntry) :
  get_logs_loop s e logs =
  List.filter (λ log,
      negb match s with Some s => log_timestamp log <? s | None => false end
      && negb match e with Some e => log_timestamp log >? e | None => false end)
    logs.
Proof.
  induction logs as [|log rest IH]; simpl; [reflexivity|].
  rewrite IH.
  destruct (match s with Some s0 => _ | None => _ end); simpl; [reflexivity|].
  destruct (match e with Some e0 => _ | None => _ end); reflexivity.
Qed.

Lemma elem_of_get_logs_loop (s e : option Z) (logs : list LogEntry)
    (x : LogEntry) :
  x ∈ get_logs_loop s e logs ↔
  x ∈ logs
  ∧ match s with Some s => s ≤ log_timestamp x | None => True end
  ∧ match e with Some e => log_timestamp x ≤ e | None => True end.
Proof.
  rewrite get_logs_loop_filter, !list_elem_of_In, filter_In.
  rewrite andb_true_iff, !negb_true_iff.
  destruct s as [s|], e as [e|]; rewrite ?Z.ltb_ge, ?Z.gtb_ltb, ?Z.ltb_ge;
    intuition.
Qed.

Lemma count_up_filter (logs : list LogEntry) :
  count_up logs =
  Z.of_nat (length (List.filter
                      (λ log, bool_decide (log_status log = "UP")) logs)).
Proof.
  induction logs as [|log rest IH]; simpl; [reflexivity|].
  unfold is_up. destruct (String.eqb_spec (log_status log) "UP") as [Heq|Hne].
  - rewrite bool_decide_eq_true_2 by done. simpl length. lia.
  - rewrite bool_decide_eq_false_2 by done. exact IH.
Qed.

Lemma generate_report_result (self : ServiceMonitor) (s e : option Z)
    (w : World) :
  (generate_report self s e w).1 =
  match window (w_logs w) s e with
  | [] => inr None
  | logs =>
      inr (Some {| report_date := w_clock w (w_nclock w);
                   start_time := s; end_time := e;
                   total_checks := Z.of_nat (length logs);
                   uptime_count := count_up logs;
                   downtime_count := Z.of_nat (length logs) - count_up logs;
                   uptime_percentage :=
                     percentage (count_up logs) (Z.of_nat (length logs));
                   average_response_time_ms :=
                     average_field (avg_response_time logs);
                   downtime_incidents := collect_incidents logs |})
  end.
Proof.
  unfold generate_report, bind. rewrite get_logs_window.
  destruct (window (w_logs w) s e); reflexivity.
Qed.

(** ** Binary64 rounding

    What the statements on floats use: rounding is monotone, stays within a
    relative error of [2^-53], and keeps the sign. *)

Lemma round_half_even_mono (x y : Q) :
  (x <= y)%Q → round_half_even x ≤ round_half_even y.
Proof.
  unfold Qle, round_half_even. destruct x as [n1 d1], y as [n2 d2].
  cbn [Qnum Qden]. intros Hle.
  pose proof (Z.div_mod n1 (Z.pos d1) ltac:(lia)) as E1.
  pose proof (Z.div_mod n2 (Z.pos d2) ltac:(lia)) as E2.
  pose proof (Z.mod_pos_bound n1 (Z.pos d1) ltac:(lia)) as B1.
  pose proof (Z.mod_pos_bound n2 (Z.pos d2) ltac:(lia)) as B2.
  set (q1 := n1 `div` Z.pos d1) in *. set (r1 := n1 `mod` Z.pos d1) in *.
  set (q2 := n2 `div` Z.pos d2) in *. set (r2 := n2 `mod` Z.pos d2) in *.
  set (D1 := Z.pos d1) in *. set (D2 := Z.pos d2) in *.
  assert (HD1 : 0 < D1) by (subst D1; lia).
  assert (HD2 : 0 < D2) by (subst D2; lia).
  clearbody q1 r1 q2 r2 D1 D2. subst n1 n2.
  assert (Hq : q1 ≤ q2).
  { destruct (Z_le_gt_dec q1 q2) as [|Hgt]; [done|exfalso].
    assert (0 ≤ D1 * D2 * (q1 - q2 - 1))
      by (apply Z.mul_nonneg_nonneg; lia).
    assert (r2 * D1 < D2 * D1) by (apply Z.mul_lt_mono_pos_r; lia).
    assert (0 ≤ r1 * D2) by (apply Z.mul_nonneg_nonneg; lia).
    lia. }
  destruct (Z.eq_dec q1 q2) as [Heq|Hne].
  - assert (Hr : r1 * D2 ≤ r2 * D1) by (rewrite Heq in Hle; lia).
    rewrite <- Heq.
    destruct (Z.compare_spec (2 * r1) D1), (Z.compare_spec (2 * r2) D2);
      try destruct (Z.even q1); try lia; nia.
  - assert (q1 + 1 ≤ q2) by lia.
    destruct (Z.compare_spec (2 * r1) D1), (Z.compare_spec (2 * r2) D2);
      try destruct (Z.even q1); try destruct (Z.even q2); lia.
Qed.

Lemma round_half_even_Z (k : Z) : round_half_even (inject_Z k) = k.
Proof.
  unfold round_half_even, inject_Z. cbn [Qnum Qden].
  rewrite Z.div_1_r, Z.mod_1_r. reflexivity.
Qed.

Lemma round_half_even_ge (k : Z) (x : Q) :
  (inject_Z k <= x)%Q → k ≤ round_half_even x.
Proof.
  intros H. rewrite <- (round_half_even_Z k) at 1.
  by apply round_half_even_mono.
Qed.

Lemma round_half_even_le (k : Z) (x : Q) :
  (x <= inject_Z k)%Q → round_half_even x ≤ k.
Proof.
  intros H. rewrite <- (round_half_even_Z k) at 1.
  by apply round_half_even_mono.
Qed.

Lemma pow2_pos (e : Z) : (0 < pow2 e)%Q.
Proof. by apply Qpower_0_lt. Qed.

Lemma pow2_add (a b : Z) : (pow2 (a + b) == pow2 a * pow2 b)%Q.
Proof. by apply Qpower_plus. Qed.

Lemma pow2_succ (a : Z) : (pow2 (a + 1) == 2 * pow2 a)%Q.
Proof. rewrite pow2_add. change (pow2 1) with 2%Q. ring. Qed.

Lemma pow2_le (a b : Z) : a ≤ b → (pow2 a <= pow2 b)%Q.
Proof. intros H. by apply Qpower_le_compat_l. Qed.

Lemma pow2_Z (a : Z) : 0 ≤ a → (inject_Z (2 ^ a) == pow2 a)%Q.
Proof. intros H. by apply Zpower_Qpower. Qed.

Lemma Z_log2_Q (n : Z) :
  0 < n →
  (pow2 (Z.log2 n) <= inject_Z n)%Q ∧ (inject_Z n < 2 * pow2 (Z.log2 n))%Q.
Proof.
  intros Hn. destruct (Z.log2_spec n Hn) as [L U].
  pose proof (Z.log2_nonneg n) as Hnn.
  rewrite <- pow2_succ, <- !pow2_Z by lia.
  rewrite <- Zle_Qle, <- Zlt_Qlt. split; [exact L|]. by rewrite <- Z.add_1_r in U.
Qed.

Lemma binade_spec (x : Q) :
  (0 < x)%Q → (pow2 (binade x) <= x)%Q ∧ (x < 2 * pow2 (binade x))%Q.
Proof.
  intros Hx. unfold binade.
  set (a := Z.log2 (Qnum x)). set (b := Z.log2 (Z.pos (Qden x))).
  assert (Hn : 0 < Qnum x).
  { unfold Qlt in Hx. cbn in Hx. lia. }
  destruct (Z_log2_Q (Qnum x) Hn) as [LA UA].
  destruct (Z_log2_Q (Z.pos (Qden x)) ltac:(lia)) as [LB UB].
  fold a in LA, UA. fold b in LB, UB.
  assert (E : (x * inject_Z (Z.pos (Qden x)) == inject_Z (Qnum x))%Q).
  { destruct x as [n d]. cbn [Qnum Qden]. rewrite (Qmake_Qdiv n d). field.
    intros H. apply (Qeq_eq_bool) in H. discriminate. }
  assert (ET : (pow2 (a - b) * pow2 b == pow2 a)%Q).
  { rewrite <- pow2_add. by replace (a - b + b) with a by lia. }
  pose proof (pow2_pos a) as PA. pose proof (pow2_pos b) as PB.
  pose proof (pow2_pos (a - b)) as PT.
  assert (ET1 : (2 * pow2 (a - b - 1) == pow2 (a - b))%Q).
  { rewrite <- pow2_succ. by replace (a - b - 1 + 1) with (a - b) by lia. }
  set (N := inject_Z (Qnum x)) in *. set (D := inject_Z (Z.pos (Qden x))) in *.
  set (T := pow2 (a - b)) in *. set (T1 := pow2 (a - b - 1)) in *.
  set (A := pow2 a) in *. set (B := pow2 b) in *.
  assert (L : (T1 <= x)%Q) by (clearbody N D T T1 A B; nra).
  assert (U : (x < 2 * T)%Q) by (clearbody N D T T1 A B; nra).
  subst T T1.
  destruct (Qle_bool (pow2 (a - b)) x) eqn:Hb.
  - apply Qle_bool_iff in Hb. split; [exact Hb|exact U].
  - assert (¬ (pow2 (a - b) <= x)%Q) by (rewrite <- Qle_bool_iff; congruence).
    split; [exact L|]. rewrite ET1. by apply Qnot_le_lt.
Qed.

Lemma binade_mono (x y : Q) :
  (0 < x)%Q → (x <= y)%Q → binade x ≤ binade y.
Proof.
  intros Hx Hxy.
  destruct (binade_spec x Hx) as [Lx _].
  destruct (binade_spec y (Qlt_le_trans _ _ _ Hx Hxy)) as [_ Uy].
  rewrite <- pow2_succ in Uy.
  assert (H : (pow2 (binade x) < pow2 (binade y + 1))%Q).
  { eapply Qle_lt_trans; [exact Lx|]. eapply Qle_lt_trans; [exact Hxy|exact Uy]. }
  apply Qpower_lt_compat_l_inv in H; [lia|reflexivity].
Qed.

Lemma significand_range (x : Q) :
  (0 < x)%Q →
  let e := binade x - 52 in
  2 ^ 52 ≤ round_half_even (x * pow2 (- e)) ≤ 2 ^ 53.
Proof.
  intros Hx e. destruct (binade_spec x Hx) as [L U].
  pose proof (pow2_pos (- e)) as Pe.
  assert (E : (pow2 (binade x) * pow2 (- e) == pow2 52)%Q).
  { rewrite <- pow2_add. by replace (binade x + - e) with 52 by lia. }
  split.
  - apply round_half_even_ge. rewrite pow2_Z by lia. rewrite <- E.
    apply Qmult_le_compat_r; [exact L|by apply Qlt_le_weak].
  - apply round_half_even_le. rewrite pow2_Z by lia.
    replace 53 with (52 + 1) by lia. rewrite pow2_succ, <- E.
    apply Qlt_le_weak. rewrite Qmult_assoc.
    by apply Qmult_lt_compat_r.
Qed.

Lemma nearest53_mono (x y : Q) :
  (0 < x)%Q → (x <= y)%Q → (nearest53 x <= nearest53 y)%Q.
Proof.
  intros Hx Hxy. assert (Hy : (0 < y)%Q) by (eapply Qlt_le_trans; eauto).
  pose proof (binade_mono x y Hx Hxy) as Hb.
  pose proof (significand_range x Hx) as [_ Ux].
  pose proof (significand_range y Hy) as [Ly _].
  unfold nearest53. cbv zeta in *.
  set (ex := binade x - 52) in *. set (ey := binade y - 52) in *.
  destruct (Z.eq_dec ex ey) as [->|Hne].
  - apply Qmult_le_compat_r; [|apply Qlt_le_weak, pow2_pos].
    rewrite <- Zle_Qle. apply round_half_even_mono.
    apply Qmult_le_compat_r; [exact Hxy|apply Qlt_le_weak, pow2_pos].
  - apply (Qle_trans _ (pow2 (ex + 53))).
    + rewrite Z.add_comm, pow2_add, <- (pow2_Z 53) by lia.
      apply Qmult_le_compat_r; [|apply Qlt_le_weak, pow2_pos].
      by rewrite <- Zle_Qle.
    + apply (Qle_trans _ (pow2 (ey + 52))); [apply pow2_le; lia|].
      rewrite Z.add_comm, pow2_add, <- (pow2_Z 52) by lia.
      apply Qmult_le_compat_r; [|apply Qlt_le_weak, pow2_pos].
      by rewrite <- Zle_Qle.
Qed.

Lemma nearest53_pos (x : Q) : (0 < x)%Q → (0 < nearest53 x)%Q.
Proof.
  intros Hx. pose proof (significand_range x Hx) as [L _].
  unfold nearest53. apply Qmult_lt_0_compat; [|apply pow2_pos].
  cbv zeta in L. change 0%Q with (inject_Z 0). rewrite <- Zlt_Qlt. lia.
Qed.

Lemma binary64_pos (x : Qc) :
  (Qc_of_Z 0 < x)%Qc → binary64 x = Q2Qc (nearest53 x).
Proof. intros H. unfold binary64. by rewrite bool_decide_eq_true_2. Qed.

Lemma binary64_0 : binary64 (Qc_of_Z 0) = Qc_of_Z 0.
Proof. reflexivity. Qed.

Lemma binary64_pos_lt (x : Qc) :
  (Qc_of_Z 0 < x)%Qc → (Qc_of_Z 0 < binary64 x)%Qc.
Proof.
  intros Hx. rewrite binary64_pos by done.
  unfold Qclt. cbn [this Q2Qc]. rewrite Qred_correct.
  by apply nearest53_pos.
Qed.

Lemma binary64_nonneg (x : Qc) :
  (Qc_of_Z 0 ≤ x)%Qc → (Qc_of_Z 0 ≤ binary64 x)%Qc.
Proof.
  intros Hx. destruct (Qcle_lt_or_eq _ _ Hx) as [Hlt|<-]; [|done].
  rewrite binary64_pos by done.
  unfold Qcle. cbn [this Q2Qc]. rewrite !Qred_correct.
  apply Qlt_le_weak, nearest53_pos. exact Hlt.
Qed.

Lemma binary64_mono (x y : Qc) :
  (Qc_of_Z 0 ≤ x)%Qc → (x ≤ y)%Qc → (binary64 x ≤ binary64 y)%Qc.
Proof.
  intros Hx Hxy. destruct (Qcle_lt_or_eq _ _ Hx) as [Hlt|<-].
  - rewrite !binary64_pos by (done || by eapply Qclt_le_trans).
    unfold Qcle. cbn [this Q2Qc]. rewrite !Qred_correct.
    apply nearest53_mono; [exact Hlt|exact Hxy].
  - rewrite binary64_0. by apply binary64_nonneg.
Qed.

Lemma round_half_even_near (x : Q) :
  (inject_Z (round_half_even x) - x <= 1 # 2)%Q
  ∧ (x - inject_Z (round_half_even x) <= 1 # 2)%Q.
Proof.
  destruct x as [n d]. unfold round_half_even. cbn [Qnum Qden].
  pose proof (Z.div_mod n (Z.pos d) ltac:(lia)) as E.
  pose proof (Z.mod_pos_bound n (Z.pos d) ltac:(lia)) as B.
  set (q := n `div` Z.pos d) in *. set (r := n `mod` Z.pos d) in *.
  clearbody q r.
  unfold Qle, Qminus, Qplus, Qopp, inject_Z. cbn [Qnum Qden].
  rewrite ?Pos2Z.inj_mul, ?Pos.mul_1_l, ?Pos.mul_1_r.
  destruct (Z.compare_spec (2 * r) (Z.pos d)); [destruct (Z.even q)|..];
    split; lia.
Qed.

Lemma nearest53_error (x : Q) :
  (0 < x)%Q →
  (nearest53 x - x <= x * pow2 (-53))%Q ∧ (x - nearest53 x <= x * pow2 (-53))%Q.
Proof.
  intros Hx. destruct (binade_spec x Hx) as [L _]. unfold nearest53.
  set (e := binade x - 52).
  destruct (round_half_even_near (x * pow2 (- e))) as [N1 N2].
  set (m := inject_Z (round_half_even (x * pow2 (- e)))) in *.
  assert (Es : (x * pow2 (- e) * pow2 e == x)%Q).
  { rewrite <- Qmult_assoc, <- pow2_add. replace (- e + e) with 0 by lia.
    change (pow2 0) with 1%Q. ring. }
  assert (Eh : ((1 # 2) * pow2 e == pow2 (binade x) * pow2 (-53))%Q).
  { rewrite <- pow2_add. replace (binade x + -53) with (e + -1) by lia.
    rewrite pow2_add. change (pow2 (-1)) with (1 # 2)%Q. ring. }
  pose proof (pow2_pos e) as Pe. pose proof (pow2_pos (-53)) as Pu.
  set (s := (x * pow2 (- e))%Q) in *. set (P := pow2 e) in *.
  set (B := pow2 (binade x)) in *. set (u := pow2 (-53)) in *.
  clearbody m s P B u. split; nra.
Qed.

Ltac to_Q :=
  unfold Qcle, Qclt, Qcdiv, Qcminus in *;
  unfold Qcinv, Qcplus, Qcopp, Qcmult, Qc_of_Z, Q2Qc in *;
  cbn [this] in *; rewrite ?Qred_correct in *.

Lemma binary64_error (x : Qc) :
  (Qc_of_Z 0 ≤ x)%Qc →
  (binary64 x - x ≤ x * Q2Qc (pow2 (-53)))%Qc
  ∧ (x - binary64 x ≤ x * Q2Qc (pow2 (-53)))%Qc.
Proof.
  intros Hx. destruct (Qcle_lt_or_eq _ _ Hx) as [Hlt|<-]; [|done].
  rewrite binary64_pos by done.
  destruct (nearest53_error x Hlt) as [E1 E2].
  to_Q. split; assumption.
Qed.

Lemma Qc_of_Z_nonneg (n : Z) : 0 ≤ n → (Qc_of_Z 0 ≤ Qc_of_Z n)%Qc.
Proof. intros H. by apply (proj1 (Z2Qc_inj_le 0 n)). Qed.

Lemma ratio_range (u n : Z) :
  0 ≤ u ≤ n → 0 < n →
  (Qc_of_Z 0 ≤ Qc_of_Z u / Qc_of_Z n)%Qc ∧ (Qc_of_Z u / Qc_of_Z n ≤ Qc_of_Z 1)%Qc.
Proof.
  intros [H0 Hle] Hn.
  assert (Hinv : (0 < / Qc_of_Z n)%Qc).
  { apply Qcinv_pos. rewrite <- Z2Qc_inj_0. by apply (proj1 (Z2Qc_inj_lt 0 n)). }
  split.
  - unfold Qcdiv. apply Qcmult_nonneg_nonneg; [by apply Qc_of_Z_nonneg|].
    by apply Qclt_le_weak.
  - unfold Qcdiv. replace (Qc_of_Z 1) with 1%Qc by (by apply Qc_is_canon).
    rewrite <- (Qcmult_inv_r (Qc_of_Z n)).
    + apply Qcmult_le_mono_nonneg_r; [by apply Qclt_le_weak|].
      by apply (proj1 (Z2Qc_inj_le u n)).
    + apply not_eq_sym, Qclt_not_eq. rewrite <- Z2Qc_inj_0.
      by apply (proj1 (Z2Qc_inj_lt 0 n)).
Qed.

Lemma eps_bound :
  (Qc_of_Z 100 * Q2Qc (pow2 (-53)) * (Qc_of_Z 2 + Q2Qc (pow2 (-53)))
   ≤ Q2Qc (pow2 (-45)))%Qc.
Proof. by vm_compute. Qed.

Lemma percentage_accuracy (u n : Z) :
  0 ≤ u ≤ n → 0 < n →
  let exact := (Qc_of_Z 100 * Qc_of_Z u / Qc_of_Z n)%Qc in
  (percentage u n - exact ≤ Q2Qc (pow2 (-45)))%Qc
  ∧ (exact - percentage u n ≤ Q2Qc (pow2 (-45)))%Qc.
Proof.
  intros Hu Hn. cbv zeta. unfold percentage, float_mul, true_div.
  destruct (Z.gtb_spec n 0); [|lia].
  destruct (ratio_range u n Hu Hn) as [Q0 Q1].
  replace (Qc_of_Z 100 * Qc_of_Z u / Qc_of_Z n)%Qc
    with (Qc_of_Z u / Qc_of_Z n * Qc_of_Z 100)%Qc by (unfold Qcdiv; ring).
  set (q := (Qc_of_Z u / Qc_of_Z n)%Qc) in *.
  pose proof (binary64_nonneg q Q0) as F0.
  destruct (binary64_error q Q0) as [A1 A2].
  set (f := binary64 q) in *.
  assert (P0 : (Qc_of_Z 0 ≤ f * Qc_of_Z 100)%Qc).
  { apply Qcmult_nonneg_nonneg; [exact F0|by apply Qc_of_Z_nonneg]. }
  destruct (binary64_error (f * Qc_of_Z 100)%Qc P0) as [B1 B2].
  set (p := binary64 (f * Qc_of_Z 100)%Qc) in *.
  pose proof eps_bound as HE.
  assert (HU : (Qc_of_Z 0 < Q2Qc (pow2 (-53)))%Qc) by reflexivity.
  set (U := Q2Qc (pow2 (-53))) in *. set (E := Q2Qc (pow2 (-45))) in *.
  clearbody q f p U E.
  destruct q as [q ?], f as [f ?], p as [p ?], U as [U ?], E as [E ?].
  to_Q.
  change (inject_Z 0) with 0%Q in *. change (inject_Z 1) with 1%Q in *.
  change (inject_Z 2) with 2%Q in *. change (inject_Z 100) with 100%Q in *.
  assert (Hf : (f <= q * (1 + U))%Q) by lra.
  assert (Hq : (100 * q * U * (2 + U) <= 100 * U * (2 + U))%Q) by nra.
  assert (Hfu : (f * U <= q * (1 + U) * U)%Q) by nra.
  split; lra.
Qed.

Lemma binary64_1 : binary64 (Qc_of_Z 1) = Qc_of_Z 1.
Proof. by apply Qc_is_canon. Qed.

Lemma binary64_100 : binary64 (Qc_of_Z 100) = Qc_of_Z 100.
Proof. by apply Qc_is_canon. Qed.

Lemma percentage_range (up total : Z) :
  0 ≤ up ≤ total → (Qc_of_Z 0 ≤ percentage up total ≤ Qc_of_Z 100)%Qc.
Proof.
  intros Hup. unfold percentage, float_mul, true_div.
  destruct (Z.gtb_spec total 0) as [Hpos|Hnpos].
  - destruct (ratio_range up total Hup Hpos) as [Q0 Q1].
    pose proof (binary64_nonneg _ Q0) as F0.
    pose proof (binary64_mono _ _ Q0 Q1) as F1. rewrite binary64_1 in F1.
    set (f := binary64 (Qc_of_Z up / Qc_of_Z total)%Qc) in *.
    assert (P0 : (Qc_of_Z 0 ≤ f * Qc_of_Z 100)%Qc).
    { apply Qcmult_nonneg_nonneg; [exact F0|by apply Qc_of_Z_nonneg]. }
    split; [by apply binary64_nonneg|].
    apply (Qcle_trans _ (binary64 (Qc_of_Z 100)));
      [|rewrite binary64_100; apply Qcle_refl].
    apply binary64_mono; [exact P0|].
    replace (Qc_of_Z 100) with (Qc_of_Z 1 * Qc_of_Z 100)%Qc at 2
      by (by apply Qc_is_canon).
    apply Qcmult_le_mono_nonneg_r; [by apply Qc_of_Z_nonneg|exact F1].
  - split; [apply Qcle_refl|by apply Qc_of_Z_nonneg].
Qed.

Lemma percentage_all_up (n : Z) : 0 < n → percentage n n = Qc_of_Z 100.
Proof.
  intros Hn. unfold percentage, float_mul, true_div.
  destruct (Z.gtb_spec n 0); [|lia].
  replace (Qc_of_Z n / Qc_of_Z n)%Qc with (Qc_of_Z 1).
  - rewrite binary64_1.
    replace (Qc_of_Z 1 * Qc_of_Z 100)%Qc with (Qc_of_Z 100)
      by (by apply Qc_is_canon).
    apply binary64_100.
  - unfold Qcdiv. rewrite Qcmult_inv_r; [by apply Qc_is_canon|].
    apply not_eq_sym, Qclt_not_eq. rewrite <- Z2Qc_inj_0.
    by apply (proj1 (Z2Qc_inj_lt 0 n)).
Qed.

Lemma percentage_some_down (up total : Z) :
  0 ≤ up < total → total ≤ 2 ^ 53 →
  (percentage up total ≤ below_100)%Qc.
Proof.
  intros [H0 Hlt] Hbig. unfold percentage, float_mul, true_div.
  destruct (Z.gtb_spec total 0); [|lia].
  destruct (ratio_range up total ltac:(lia) ltac:(lia)) as [Q0 _].
  assert (Q1 : (Qc_of_Z up / Qc_of_Z total ≤ below_1)%Qc).
  { unfold below_1. clear Q0.
    assert (Hn : (0 < inject_Z total)%Q) by (rewrite <- (Zlt_Qlt 0); lia).
    assert (Hu : (inject_Z up + 1 <= inject_Z total)%Q).
    { change 1%Q with (inject_Z 1).
      rewrite <- (inject_Z_plus up 1), <- Zle_Qle. lia. }
    assert (Hb : (inject_Z total <= inject_Z (2 ^ 53))%Q)
      by (by rewrite <- Zle_Qle).
    to_Q. change (inject_Z 1) with 1%Q.
    change (pow2 (-53)) with (/ inject_Z (2 ^ 53))%Q.
    set (T := inject_Z total) in *. set (U := inject_Z up) in *.
    set (B := inject_Z (2 ^ 53)) in *.
    assert (HB : (0 < B)%Q) by reflexivity.
    clearbody T U B.
    apply Qle_shift_div_r; [exact Hn|].
    assert (E : ((1 + - / B) * T == T - T / B)%Q) by (field; lra).
    rewrite E.
    assert (T / B <= 1)%Q by (apply Qle_shift_div_r; lra).
    lra. }
  pose proof (binary64_nonneg _ Q0) as F0.
  pose proof (binary64_mono _ _ Q0 Q1) as F1.
  replace (binary64 below_1) with below_1 in F1 by (by apply Qc_is_canon).
  set (f := binary64 (Qc_of_Z up / Qc_of_Z total)%Qc) in *.
  assert (P0 : (Qc_of_Z 0 ≤ f * Qc_of_Z 100)%Qc).
  { apply Qcmult_nonneg_nonneg; [exact F0|by apply Qc_of_Z_nonneg]. }
  replace below_100 with (binary64 (below_1 * Qc_of_Z 100)%Qc)
    by (by apply Qc_is_canon).
  apply binary64_mono; [exact P0|].
  apply Qcmult_le_mono_nonneg_r; [by apply Qc_of_Z_nonneg|exact F1].
Qed.

Lemma below_100_lt : (below_100 < Qc_of_Z 100)%Qc.
Proof. reflexivity. Qed.

Lemma count_up_range (logs : list LogEntry) :
  0 ≤ count_up logs ≤ Z.of_nat (length logs).
Proof.
  induction logs as [|log rest IH]; cbn [count_up length]; [lia|].
  destruct (is_up log); lia.
Qed.

(** On the quotients and products met in this file, [binary64] returns the
    float that the Standard Library's specification of IEEE 754 division
    and multiplication returns. *)
Lemma binary64_matches_SpecFloat :
  (∀ a b, (a, b) ∈ [(7, 25); (43, 40); (301, 3); (1, 3); (107, 100);
                    (10033, 100); (2, 3); (99, 100)]%positive →
     this (true_div (Z.pos a) (Z.pos b))
     = Qred (SF2Q (SFdiv 53 1024 (SF_of_pos a) (SF_of_pos b))))
  ∧ (∀ a b, (a, b) ∈ [(7, 25); (1, 3); (2, 3); (99, 100)]%positive →
       this (percentage (Z.pos a) (Z.pos b))
       = Qred (SF2Q (SFmul 53 1024
                       (SFdiv 53 1024 (SF_of_pos a) (SF_of_pos b))
                       (SF_of_pos 100)))).
Proof.
  split; intros a b Hab; repeat (apply elem_of_cons in Hab as [[= -> ->]|Hab];
    [by vm_compute|]); by apply elem_of_nil in Hab.
Qed.

(** C4 (as stated, refuted). The stored percentage is the float that
    [(uptime_count / total_checks) * 100] evaluates to, not [100 * U / N]:
    for 25 records of which 7 are UP the quotient float lies just above
    0.28 and the field is [28 + 2^-48] (printed 28.000000000000004), not 28. *)
Lemma percentage_not_exact :
  let logs := (replicate 7 (entry_at 1 "UP" (Some 50))
               ++ replicate 18 (entry_at 2 "DOWN" None))%list in
  ∃ r, (generate_report default_monitor None None (world_with_logs logs)).1
       = inr (Some r)
     ∧ total_checks r = 25
     ∧ uptime_count r = 7
     ∧ this (uptime_percentage r) = (28 + pow2 (-48))%Q
     ∧ uptime_percentage r ≠ (Qc_of_Z 100 * Qc_of_Z 7 / Qc_of_Z 25)%Qc.
Proof.
  intros logs. eexists. split; [reflexivity|].
  split; [reflexivity|]. split; [reflexivity|]. split.
  - vm_compute. reflexivity.
  - intros Heq. apply (f_equal this) in Heq. vm_compute in Heq. discriminate.
Qed.

(** C4 (amended). When the window query yields [N] records of which [U] are
    UP, [generate_report] returns [None] if [N = 0]; otherwise it returns a
    report with [total_checks = N], [uptime_count = U],
    [downtime_count = N - U] (so the two counts add up to the total) and
    with [uptime_percentage] the float value of [(U / N) * 100]: the
    correctly rounded quotient, multiplied by 100 and rounded again. That
    float is within [2^-45] of [100 * U / N]. *)
Theorem generate_report_counts (self : ServiceMonitor) (s e : option Z)
    (w : World) :
  let logs := window (w_logs w) s e in
  let N := Z.of_nat (length logs) in
  let U := Z.of_nat (length (List.filter
                               (λ log, bool_decide (log_status log = "UP"))
                               logs)) in
  let exact := (Qc_of_Z 100 * Qc_of_Z U / Qc_of_Z N)%Qc in
  match (generate_report self s e w).1 with
  | inr None => N = 0
  | inr (Some r) =>
      N ≠ 0
      ∧ total_checks r = N
      ∧ uptime_count r = U
      ∧ downtime_count r = N - U
      ∧ uptime_count r + downtime_count r = total_checks r
      ∧ uptime_percentage r = float_mul (true_div U N) (Qc_of_Z 100)
      ∧ (uptime_percentage r - exact ≤ Q2Qc (pow2 (-45)))%Qc
      ∧ (exact - uptime_percentage r ≤ Q2Qc (pow2 (-45)))%Qc
  | inl _ => False
  end.
Proof.
  intros logs N U exact. rewrite generate_report_result. fold logs.
  subst exact N U. rewrite <- count_up_filter.
  destruct logs as [|l0 rest] eqn:Hlogs; [reflexivity|]. rewrite <- Hlogs.
  cbn [total_checks uptime_count downtime_count uptime_percentage].
  set (n := Z.of_nat (length logs)).
  assert (0 < n) by (subst n; rewrite Hlogs; simpl length; lia).
  pose proof (count_up_range logs) as Hu. fold n in Hu.
  split; [lia|]. split; [done|]. split; [done|]. split; [done|].
  split; [lia|]. split.
  - unfold percentage. by destruct (Z.gtb_spec n 0); [|lia].
  - by apply percentage_accuracy.
Qed.

(** C6 (as stated, refuted). A record stamped exactly [end] is returned by the
    window query and is counted by the report built over [start, end]. *)
Lemma window_end_record_included :
  let x := entry_at 10 "UP" (Some 50) in
  let w := world_with_logs [x] in
  log_timestamp x = 10
  ∧ (get_logs default_monitor (Some 0) (Some 10) w).1 = inr [x]
  ∧ ∃ r, (generate_report default_monitor (Some 0) (Some 10) w).1
         = inr (Some r)
         ∧ total_checks r = 1.
Proof.
  simpl. split; [reflexivity|]. split; [reflexivity|].
  eexists. split; [reflexivity|reflexivity].
Qed.

(** C6 (amended). The window is closed at both ends: the query returns
    exactly the stored records with [start <= timestamp <= end], so a stored
    record stamped [end] (with [start <= end]) is returned, and the report
    counts exactly the returned records. *)
Theorem window_closed_interval (self : ServiceMonitor) (s e : Z) (w : World)
    (x : LogEntry) :
  (x ∈ window (w_logs w) (Some s) (Some e) ↔
   x ∈ w_logs w ∧ s ≤ log_timestamp x ≤ e)
  ∧ (get_logs self (Some s) (Some e) w).1
    = inr (window (w_logs w) (Some s) (Some e))
  ∧ match (generate_report self (Some s) (Some e) w).1 with
    | inr (Some r) =>
        total_checks r
        = Z.of_nat (length (window (w_logs w) (Some s) (Some e)))
    | inr None => window (w_logs w) (Some s) (Some e) = []
    | inl _ => False
    end.
Proof.
  split; [|split].
  - unfold window. rewrite elem_of_get_logs_loop. tauto.
  - reflexivity.
  - rewrite generate_report_result.
    destruct (window (w_logs w) (Some s) (Some e)); reflexivity.
Qed.

Lemma successful_pings_latencies (logs : list LogEntry) :
  (∀ v, v ∈ up_latencies logs → 0 < v) →
  sum_response_time (successful_pings logs) = sum_Z (up_latencies logs)
  ∧ length (successful_pings logs) = length (up_latencies logs).
Proof.
  unfold successful_pings, up_latencies.
  induction logs as [|log rest IH]; intros Hpos; [done|].
  assert (Hhead : ∀ v, is_up log = true → log_response_time_ms log = Some v
                       → 0 < v).
  { intros v Hup Hv. apply Hpos. simpl. rewrite Hup, Hv. left. }
  destruct IH as [IH1 IH2].
  { intros u Hu. apply Hpos. simpl.
    destruct (if is_up log then log_response_time_ms log else None);
      [by right | done]. }
  simpl.
  destruct (is_up log) eqn:Hup;
    [destruct (log_response_time_ms log) as [v|] eqn:Hv|].
  - specialize (Hhead v eq_refl eq_refl).
    assert (is_successful_ping log = true) as ->.
    { unfold is_successful_ping. rewrite Hup, Hv. simpl.
      destruct (Z.eqb_spec v 0); [lia|done]. }
    simpl. rewrite Hv. unfold sum_Z in *. simpl.
    split; f_equal; assumption.
  - assert (is_successful_ping log = false) as ->.
    { unfold is_successful_ping. by rewrite Hup, Hv. }
    split; assumption.
  - assert (is_successful_ping log = false) as ->.
    { unfold is_successful_ping. by rewrite Hup. }
    split; assumption.
Qed.

Lemma sum_Z_pos (l : list Z) :
  l ≠ [] → (∀ v, v ∈ l → 0 < v) → 0 < sum_Z l.
Proof.
  induction l as [|a l IH]; [done|]. intros _ Hpos. unfold sum_Z in *. simpl.
  assert (0 < a) by (apply Hpos; left).
  destruct l as [|b l]; [simpl; lia|].
  assert (0 < foldr Z.add 0 (b :: l)).
  { apply IH; [done|]. intros v Hv. apply Hpos. by right. }
  lia.
Qed.

Lemma Qc_of_Z_pos (n : Z) : 0 < n → (0 < Qc_of_Z n)%Qc.
Proof.
  intros H. rewrite <- Z2Qc_inj_0. by apply (proj1 (Z2Qc_inj_lt 0 n)).
Qed.

Lemma mean_pos (l : list Z) :
  l ≠ [] → (∀ v, v ∈ l → 0 < v) → (Qc_of_Z 0 < mean l)%Qc.
Proof.
  intros Hne Hpos. unfold mean, Qcdiv. rewrite Z2Qc_inj_0.
  apply Qcmult_pos_pos.
  - apply Qc_of_Z_pos. by apply sum_Z_pos.
  - apply Qcinv_pos, Qc_of_Z_pos.
    destruct l; [done|]. simpl length. lia.
Qed.

(** C5 (as stated, refuted). The field does not hold the mean: for the UP
    latencies 100, 100 and 101 it holds the float nearest to 100.33, not
    301/3. *)
Lemma average_is_rounded :
  let logs := [entry_at 1 "UP" (Some 100); entry_at 2 "UP" (Some 100);
               entry_at 3 "UP" (Some 101)] in
  ∃ r, (generate_report default_monitor None None (world_with_logs logs)).1
       = inr (Some r)
     ∧ up_latencies logs = [100; 100; 101]
     ∧ average_response_time_ms r
       = Some (binary64 (Qc_of_Z 10033 / Qc_of_Z 100)%Qc)
     ∧ average_response_time_ms r ≠ Some (mean [100; 100; 101]).
Proof.
  intros logs. eexists. split; [reflexivity|]. split; [reflexivity|].
  cbn [average_response_time_ms].
  assert (Hfield : average_field (avg_response_time logs)
                   = Some (binary64 (Qc_of_Z 10033 / Qc_of_Z 100)%Qc)).
  { unfold average_field, avg_response_time. subst logs.
    cbn [successful_pings List.filter is_successful_ping is_up entry_at
         log_status log_response_time_ms String.eqb Ascii.eqb Bool.eqb
         truthy_int Z.eqb negb andb].
    rewrite bool_decide_eq_false_2.
    - apply (f_equal Some), Qc_is_canon. by vm_compute.
    - intros Heq. apply (f_equal this) in Heq. vm_compute in Heq. discriminate. }
  split.
  - change (average_field (avg_response_time logs)
            = Some (binary64 (Qc_of_Z 10033 / Qc_of_Z 100)%Qc)). exact Hfield.
  - change (average_field (avg_response_time logs)
            ≠ Some (mean [100; 100; 101])).
    rewrite Hfield. intros Heq.
    apply (f_equal (λ o, match o with Some q => this q | None => 0%Q end))
      in Heq.
    vm_compute in Heq. discriminate.
Qed.

(** What is rounded to two decimals is the quotient float, not the mean: for
    39 latencies of 1 ms and one of 4 ms the mean is 1.075, which half-even
    rounding would take to 1.08; the quotient float lies just below 1.075
    and the field holds the float nearest to 1.07. *)
Lemma average_rounds_the_quotient_float :
  let logs := (replicate 39 (entry_at 1 "UP" (Some 1))
               ++ [entry_at 2 "UP" (Some 4)])%list in
  ∃ r, (generate_report default_monitor None None (world_with_logs logs)).1
       = inr (Some r)
     ∧ mean (up_latencies logs) = (Qc_of_Z 1075 / Qc_of_Z 1000)%Qc
     ∧ round_half_even (mean (up_latencies logs) * Qc_of_Z 100)%Qc = 108
     ∧ average_response_time_ms r
       = Some (binary64 (Qc_of_Z 107 / Qc_of_Z 100)%Qc).
Proof.
  intros logs. eexists. split; [reflexivity|].
  split; [apply Qc_is_canon; by vm_compute|]. split; [by vm_compute|].
  change (average_field (avg_response_time logs)
          = Some (binary64 (Qc_of_Z 107 / Qc_of_Z 100)%Qc)).
  assert (Havg : avg_response_time logs = Some (true_div 43 40))
    by reflexivity.
  rewrite Havg. unfold average_field.
  rewrite bool_decide_eq_false_2.
  - apply (f_equal Some), Qc_is_canon. by vm_compute.
  - intros Heq. apply (f_equal this) in Heq. vm_compute in Heq. discriminate.
Qed.

(** The other way the field departs from the mean over the UP records with a
    recorded latency: a latency of 0 ms is tested for truth and is left out. *)
Lemma average_skips_zero_latency :
  let logs := [entry_at 1 "UP" (Some 0); entry_at 2 "UP" (Some 100)] in
  ∃ r, (generate_report default_monitor None None (world_with_logs logs)).1
       = inr (Some r)
     ∧ up_latencies logs = [0; 100]
     ∧ average_response_time_ms r = Some (Qc_of_Z 100).
Proof.
  intros logs. eexists. split; [reflexivity|]. split; [reflexivity|].
  change (average_field (avg_response_time logs) = Some (Qc_of_Z 100)).
  unfold average_field, avg_response_time. subst logs.
  cbn [successful_pings List.filter is_successful_ping is_up entry_at
       log_status log_response_time_ms String.eqb Ascii.eqb Bool.eqb
       truthy_int Z.eqb negb andb].
  rewrite bool_decide_eq_false_2.
  - apply (f_equal Some), Qc_is_canon. by vm_compute.
  - intros Heq. apply (f_equal this) in Heq. vm_compute in Heq. discriminate.
Qed.

(** C5 (amended). When every latency recorded on an UP record of the window
    is positive, [average_response_time_ms] is computed from exactly those
    latencies: it is [round(S / K, 2)] in float arithmetic, for their sum [S]
    and their number [K], that is the correctly rounded quotient (the float
    nearest to the mean), rounded half-even to two decimals on its exact
    value, as the float nearest to that decimal. DOWN records and records
    without a latency do not enter it, and it is [None] when no UP record of
    the window has a latency. *)
Theorem average_response_time_rounded_mean (self : ServiceMonitor)
    (s e : option Z) (w : World) :
  (∀ v, v ∈ up_latencies (window (w_logs w) s e) → 0 < v) →
  match (generate_report self s e w).1 with
  | inr (Some r) =>
      average_response_time_ms r =
      match up_latencies (window (w_logs w) s e) with
      | [] => None
      | l => Some (round2 (binary64 (mean l)))
      end
  | inr None => window (w_logs w) s e = []
  | inl _ => False
  end.
Proof.
  rewrite generate_report_result.
  destruct (window (w_logs w) s e) as [|l0 rest]; intros Hpos; [reflexivity|].
  cbn [average_response_time_ms].
  destruct (successful_pings_latencies _ Hpos) as [Hsum Hlen].
  unfold avg_response_time.
  destruct (up_latencies (l0 :: rest)) as [|v vs] eqn:Hlat.
  - destruct (successful_pings (l0 :: rest)); [reflexivity|discriminate].
  - destruct (successful_pings (l0 :: rest)) as [|p ps] eqn:Hsp;
      [discriminate|].
    unfold average_field, true_div. rewrite Hsum, Hlen.
    change (Qc_of_Z (sum_Z (v :: vs))
            / Qc_of_Z (Z.of_nat (length (v :: vs))))%Qc with (mean (v :: vs)).
    rewrite bool_decide_eq_false_2; [reflexivity|].
    apply not_eq_sym, Qclt_not_eq, binary64_pos_lt.
    apply mean_pos; [done|exact Hpos].
Qed.

Lemma average_response_time_rounded_mean_witness :
  (∀ v, v ∈ up_latencies
              (window (w_logs (world_with_logs
                                 [entry_at 1 "UP" (Some 40);
                                  entry_at 2 "DOWN" (Some 10000);
                                  entry_at 3 "UP" None;
                                  entry_at 4 "UP" (Some 60)])) None None)
        → 0 < v)
  ∧ match (generate_report default_monitor None None
             (world_with_logs [entry_at 1 "UP" (Some 40);
                               entry_at 2 "DOWN" (Some 10000);
                               entry_at 3 "UP" None;
                               entry_at 4 "UP" (Some 60)])).1 with
    | inr (Some r) =>
        average_response_time_ms r
        = Some (round2 (binary64 (mean [40; 60])))
    | _ => False
    end.
Proof.
  assert (Hpos : ∀ v, v ∈ up_latencies
              (window (w_logs (world_with_logs
                                 [entry_at 1 "UP" (Some 40);
                                  entry_at 2 "DOWN" (Some 10000);
                                  entry_at 3 "UP" None;
                                  entry_at 4 "UP" (Some 60)])) None None)
        → 0 < v).
  { intros v Hv. vm_compute in Hv.
    apply list_elem_of_In in Hv. simpl in Hv. lia. }
  split; [exact Hpos|].
  exact (average_response_time_rounded_mean default_monitor None None _ Hpos).
Defined.

(** ** Rules for reading runs *)

Lemma run_pair {A} (c : M A) (w : World) : c w = ((c w).1, (c w).2).
Proof. by destruct (c w). Qed.

Lemma bind_inr {A B} (c : M A) (k : A → M B) (w w1 : World) (a : A) :
  c w = (inr a, w1) → bind c k w = k a w1.
Proof. intros H. unfold bind. by rewrite H. Qed.

Lemma try_inr {A} (c : M A) (h : PyExn → M A) (w w1 : World) (a : A) :
  c w = (inr a, w1) → try_except c h w = (inr a, w1).
Proof. intros H. unfold try_except. by rewrite H. Qed.

Lemma extends_refl (p : Event → bool) (w : World) : extends p w w.
Proof.
  split; try done. exists []. by rewrite app_nil_r.
Qed.

Lemma extends_trans (p : Event → bool) (w1 w2 w3 : World) :
  extends p w1 w2 → extends p w2 w3 → extends p w1 w3.
Proof.
  intros [[e1 [T1 F1]] C1 H1 S1 D1 N1 B1 L1] [[e2 [T2 F2]] C2 H2 S2 D2 N2 B2 L2].
  split; try congruence; try lia.
  exists (e1 ++ e2)%list. split.
  - by rewrite T2, T1, app_assoc.
  - by rewrite forallb_app, F1, F2.
Qed.

Lemma extends_events_since (p : Event → bool) (w w' : World) :
  extends p w w' →
  w_trace w' = (w_trace w ++ events_since w w')%list
  ∧ forallb p (events_since w w') = true.
Proof.
  intros [[evs [T F]] _ _ _ _ _ _ _]. unfold events_since.
  rewrite T, drop_app_length. done.
Qed.

Section Rules.
Context (p : Event → bool).

Lemma respects_ret {A} (a : A) : respects p (ret a).
Proof. intros w. apply extends_refl. Qed.

Lemma respects_raise {A} (e : PyExn) : respects p (raise (A:=A) e).
Proof. intros w. apply extends_refl. Qed.

Lemma respects_bind {A B} (c : M A) (k : A → M B) :
  respects p c → (∀ a, respects p (k a)) → respects p (bind c k).
Proof.
  intros Hc Hk w. specialize (Hc w). unfold bind.
  destruct (c w) as [[e|a] w1]; [exact Hc|].
  eapply extends_trans; [exact Hc | apply Hk].
Qed.

Lemma respects_try {A} (c : M A) (h : PyExn → M A) :
  respects p c → (∀ e, respects p (h e)) → respects p (try_except c h).
Proof.
  intros Hc Hh w. specialize (Hc w). unfold try_except.
  destruct (c w) as [[e|a] w1]; [|exact Hc].
  eapply extends_trans; [exact Hc | apply Hh].
Qed.

Lemma respects_emit (e : Event) : p e = true → respects p (emit e).
Proof.
  intros He w. split; try done. exists [e]. split; [done|].
  simpl. by rewrite He.
Qed.

Lemma respects_now : respects p now.
Proof. intros w. split; try done. exists []. by rewrite app_nil_r. Qed.

Lemma respects_sleep (s : Z) : p (EvSleep s) = true → respects p (sleep s).
Proof.
  intros He. unfold sleep. destruct (s <? 0).
  - apply respects_raise.
  - by apply respects_emit.
Qed.

Lemma respects_http_request (verb url0 : string) (t : Z) :
  admits is_http_event p → respects p (http_request verb url0 t).
Proof.
  intros Hp w. unfold http_request.
  destruct (w_http w (w_nhttp w)); (split; try done);
    exists [EvHttp verb url0 t]; (split; [done|]); simpl;
    by rewrite (Hp (EvHttp verb url0 t) eq_refl).
Qed.

Lemma respects_disk_op : respects p disk_op.
Proof.
  intros w. unfold disk_op.
  destruct (w_disk w (w_ndisk w)); (split; try done);
    exists []; by rewrite app_nil_r.
Qed.

Lemma respects_set_file (path : string) (d : FileData) :
  respects p (set_file path d).
Proof. intros w. split; try done. exists []. by rewrite app_nil_r. Qed.

Lemma respects_open_w (path : string) :
  admits is_file_event p → respects p (open_w path).
Proof.
  intros Hp. unfold open_w.
  apply respects_try.
  - apply respects_bind; [apply respects_disk_op|intros _].
    apply respects_bind; [|intros _; apply respects_set_file].
    apply respects_emit. by apply Hp.
  - intros e. apply respects_bind; [|intros _; apply respects_raise].
    apply respects_emit. by apply Hp.
Qed.

Lemma respects_write (path : string) (d : FileData) :
  admits is_file_event p → respects p (write path d).
Proof.
  intros Hp. unfold write.
  apply respects_bind; [|intros _; apply respects_set_file].
  apply respects_emit. by apply Hp.
Qed.

Lemma respects_smtp_session (m : Email) :
  admits is_smtp_event p → respects p (smtp_session m).
Proof.
  intros Hp w. unfold smtp_session.
  destruct (w_smtp w (w_nsmtp w)) eqn:Hok; (split; try done; simpl; try lia);
    eexists [_]; (split; [done|]); simpl; by rewrite Hp.
Qed.

Lemma respects_get_logs_attr : respects p get_logs_attr.
Proof. intros w. apply extends_refl. Qed.

Lemma respects_set_logs_attr (l : list LogEntry) :
  respects p (set_logs_attr l).
Proof. intros w. split; try done. exists []. by rewrite app_nil_r. Qed.

Lemma respects_has_down_notified : respects p has_down_notified.
Proof. intros w. apply extends_refl. Qed.

Lemma respects_get_last_report_date : respects p get_last_report_date.
Proof. intros w. apply extends_refl. Qed.

Lemma respects_for_each {A} (l : list A) (body : A → M unit) :
  (∀ x, respects p (body x)) → respects p (for_each l body).
Proof.
  intros Hb. induction l as [|x l IH]; simpl.
  - apply respects_ret.
  - apply respects_bind; [apply Hb | intros _; exact IH].
Qed.
End Rules.

Lemma returns_ret {A} (a : A) : returns (ret a).
Proof. intros w. by exists a. Qed.

Lemma returns_bind {A B} (c : M A) (k : A → M B) :
  returns c → (∀ a, returns (k a)) → returns (bind c k).
Proof.
  intros Hc Hk w. destruct (Hc w) as [a Ha]. unfold bind.
  destruct (c w) as [[e|a'] w1]; simpl in Ha; [discriminate|].
  apply Hk.
Qed.

Lemma returns_try {A} (c : M A) (h : PyExn → M A) :
  (∀ e, returns (h e)) → returns (try_except c h).
Proof.
  intros Hh w. unfold try_except.
  destruct (c w) as [[e|a] w1]; [apply Hh | by exists a].
Qed.

Lemma returns_emit (e : Event) : returns (emit e).
Proof. intros w. by exists tt. Qed.

Lemma returns_now : returns now.
Proof. intros w. by eexists. Qed.

Lemma returns_for_each {A} (l : list A) (body : A → M unit) :
  (∀ x, returns (body x)) → returns (for_each l body).
Proof.
  intros Hb. induction l as [|x l IH]; simpl.
  - apply returns_ret.
  - apply returns_bind; [apply Hb | intros _; exact IH].
Qed.

(** One step of a frame proof: a rule of the monad, a primitive, or a case
    split on what the code branches on. *)
Ltac frame_step :=
  lazymatch goal with
  | |- respects _ (ret _) => apply respects_ret
  | |- respects _ (raise _) => apply respects_raise
  | |- respects _ now => apply respects_now
  | |- respects _ disk_op => apply respects_disk_op
  | |- respects _ (set_file _ _) => apply respects_set_file
  | |- respects _ get_logs_attr => apply respects_get_logs_attr
  | |- respects _ (set_logs_attr _) => apply respects_set_logs_attr
  | |- respects _ has_down_notified => apply respects_has_down_notified
  | |- respects _ get_last_report_date => apply respects_get_last_report_date
  | |- respects _ (open_w _) => apply respects_open_w; assumption
  | |- respects _ (write _ _) => apply respects_write; assumption
  | |- respects _ (http_request _ _ _) =>
      apply respects_http_request; assumption
  | |- respects _ (smtp_session _) => apply respects_smtp_session; assumption
  | |- respects _ (bind _ _) => apply respects_bind; [|intros ?]
  | |- respects _ (try_except _ _) => apply respects_try; [|intros ?]
  | |- respects _ (for_each _ _) => apply respects_for_each; intros ?
  | |- respects _ (if ?b then _ else _) => destruct b
  | |- respects _ (match ?x with _ => _ end) => destruct x
  | |- respects _ (let _ := _ in _) => cbv zeta
  end.

Ltac frame := repeat frame_step.

Ltac returns_step :=
  lazymatch goal with
  | |- returns (ret _) => apply returns_ret
  | |- returns now => apply returns_now
  | |- returns (emit _) => apply returns_emit
  | |- returns (try_except _ _) => apply returns_try; intros ?
  | |- returns (bind _ _) => apply returns_bind; [|intros ?]
  | |- returns (for_each _ _) => apply returns_for_each; intros ?
  | |- returns (if ?b then _ else _) => destruct b
  | |- returns (match ?x with _ => _ end) => destruct x
  | |- returns (let _ := _ in _) => cbv zeta
  end.

Ltac total := repeat returns_step.

(** ** Frames of the prober and of the log store *)

Section Frames.
Context (p : Event → bool).

Lemma respects_ping_endpoint (self : RenderKeepAlive) (e m : string) :
  admits is_http_event p → respects p (ping_endpoint self e m).
Proof. intros Hp. unfold ping_endpoint. frame. Qed.

Lemma respects_ping_methods (self : RenderKeepAlive) (e : string)
    (ms : list string) :
  admits is_http_event p → respects p (ping_methods self e ms).
Proof.
  intros Hp. induction ms as [|m ms IH]; cbn [ping_methods]; frame.
  - by apply respects_ping_endpoint.
  - exact IH.
Qed.

Lemma respects_ping_all_endpoints (self : RenderKeepAlive) :
  admits is_http_event p → respects p (ping_all_endpoints self).
Proof.
  intros Hp. unfold ping_all_endpoints.
  induction (ka_endpoints self) as [|e es IH]; cbn [ping_endpoints]; frame.
  - by apply respects_ping_methods.
  - exact IH.
Qed.

Lemma respects_save_logs (self : ServiceMonitor) :
  admits is_file_event p → respects p (_save_logs self).
Proof. intros Hp. unfold _save_logs. frame. Qed.

Lemma respects_log_ping (self : ServiceMonitor) (e m s : string)
    (ms : option Z) (err : option string) (code : option Z) :
  admits is_file_event p → respects p (log_ping self e m s ms err code).
Proof.
  intros Hp. unfold log_ping. frame. by apply respects_save_logs.
Qed.

Lemma respects_generate_report (self : ServiceMonitor) (s e : option Z) :
  respects p (generate_report self s e).
Proof. unfold generate_report, get_logs. frame. Qed.

Lemma respects_clear_logs (self : ServiceMonitor) :
  admits is_file_event p → respects p (clear_logs self).
Proof.
  intros Hp. unfold clear_logs. frame. by apply respects_save_logs.
Qed.

Lemma respects_format_report_email (self : ServiceReporter) (r : Report) :
  respects p (format_report_email self r).
Proof. unfold format_report_email. frame. Qed.

Lemma respects_format_alert_email (self : ServiceReporter) (a : Alert) :
  respects p (format_alert_email self a).
Proof. unfold format_alert_email. frame. Qed.

Lemma respects_send_report_email (self : ServiceReporter) (r : Report) :
  admits is_smtp_event p → admits is_send_report_email p →
  respects p (send_report_email self r).
Proof.
  intros Hs Hc. unfold send_report_email. frame.
  - by apply respects_emit, Hc.
  - apply respects_format_report_email.
Qed.

Lemma respects_send_alert_email (self : ServiceReporter) (a : Alert) :
  admits is_smtp_event p → admits is_send_alert_email p →
  respects p (send_alert_email self a).
Proof.
  intros Hs Hc. unfold send_alert_email. frame;
    try (by apply respects_emit, Hc); apply respects_format_alert_email.
Qed.

Lemma respects_save_alert_backup (self : ServiceReporter) (a : Alert) :
  admits is_file_event p → respects p (_save_alert_backup self a).
Proof.
  intros Hp. unfold _save_alert_backup. frame.
  apply respects_format_alert_email.
Qed.

Lemma respects_save_report_backup (self : ServiceReporter) (r : Report) :
  admits is_file_event p → respects p (_save_report_backup self r).
Proof.
  intros Hp. unfold _save_report_backup. frame.
  apply respects_format_report_email.
Qed.
End Frames.

Lemma returns_ping_endpoint (self : RenderKeepAlive) (e m : string) :
  returns (ping_endpoint self e m).
Proof. unfold ping_endpoint. total. Qed.

Lemma returns_ping_all_endpoints (self : RenderKeepAlive) :
  returns (ping_all_endpoints self).
Proof.
  unfold ping_all_endpoints.
  induction (ka_endpoints self) as [|e es IH]; cbn [ping_endpoints]; total;
    [|exact IH].
  induction (ka_methods self) as [|m ms IHm]; cbn [ping_methods]; total;
    [|exact IHm].
  apply returns_ping_endpoint.
Qed.

Lemma returns_save_logs (self : ServiceMonitor) : returns (_save_logs self).
Proof. unfold _save_logs. total. Qed.

Lemma returns_log_ping (self : ServiceMonitor) (e m s : string)
    (ms : option Z) (err : option string) (code : option Z) :
  returns (log_ping self e m s ms err code).
Proof.
  unfold log_ping. total; try apply returns_save_logs; intros w; by eexists.
Qed.

Lemma returns_send_report_email (self : ServiceReporter) (r : Report) :
  returns (send_report_email self r).
Proof. unfold send_report_email. total. Qed.

Lemma returns_send_alert_email (self : ServiceReporter) (a : Alert) :
  returns (send_alert_email self a).
Proof. unfold send_alert_email. total. Qed.

Lemma returns_save_alert_backup (self : ServiceReporter) (a : Alert) :
  returns (_save_alert_backup self a).
Proof. unfold _save_alert_backup. total. Qed.

Lemma returns_save_report_backup (self : ServiceReporter) (r : Report) :
  returns (_save_report_backup self r).
Proof. unfold _save_report_backup. total. Qed.

(** ** The probe cycle and its alerts *)

Lemma alert_types_quiet (evs : list Event) :
  forallb not_send_alert evs = true → alert_types evs = [].
Proof.
  induction evs as [|e evs IH]; [done|]. simpl.
  intros [He Hevs]%andb_true_iff. destruct e; try discriminate; by apply IH.
Qed.

Lemma alert_types_app (l1 l2 : list Event) :
  alert_types (l1 ++ l2) = (alert_types l1 ++ alert_types l2)%list.
Proof. unfold alert_types. apply omap_app. Qed.

Lemma events_since_app (w w' : World) (evs : list Event) :
  w_trace w' = (w_trace w ++ evs)%list → events_since w w' = evs.
Proof. intros H. unfold events_since. by rewrite H, drop_app_length. Qed.

Lemma send_alert_emits (self : ServiceReporter) (a : Alert) (w : World) :
  (∃ b, (send_alert self a w).1 = inr b)
  ∧ emits_alert (alert_type a) w (send_alert self a w).2.
Proof.
  unfold send_alert.
  set (rest := bind (_save_alert_backup self a)
                    (λ _, send_alert_email self a)).
  assert (Hrest : respects not_send_alert rest).
  { apply respects_bind; [|intros _].
    - apply respects_save_alert_backup. by intros [].
    - apply respects_send_alert_email; by intros []. }
  assert (Hret : returns rest).
  { apply returns_bind; [apply returns_save_alert_backup|intros _].
    apply returns_send_alert_email. }
  change (bind (emit (EvSendAlert a)) (λ _ : unit, rest) w)
    with (rest (emit (EvSendAlert a) w).2).
  set (w0 := (emit (EvSendAlert a) w).2).
  destruct (Hret w0) as [b Hb].
  destruct (Hrest w0) as [[evs [T F]] C H S D N B L].
  split; [by exists b|].
  exists a, evs. rewrite T, B, L, S. subst w0. simpl.
  by rewrite <- app_assoc.
Qed.

Lemma try_send_alert_emits (self : ServiceReporter) (a : Alert) (w : World) :
  let c := try_except (bind (send_alert self a) (λ _, ret tt))
                      (λ _, ret tt) in
  (c w).1 = inr tt ∧ emits_alert (alert_type a) w (c w).2.
Proof.
  intros c. subst c. unfold try_except, bind.
  destruct (send_alert_emits self a w) as [[b Hb] He].
  destruct (send_alert self a w) as [[e|b'] w1]; simpl in *; done.
Qed.

Lemma emits_alert_after_now (ty : string) (w w' : World) :
  emits_alert ty (now w).2 w' → emits_alert ty w w'.
Proof.
  intros (a & evs & T & Ha & F & B & L & S). by exists a, evs.
Qed.

Lemma downtime_alert_emits (self : RenderServiceManager)
    (results : list ProbeResult) (w : World) :
  (_send_immediate_downtime_alert self results w).1 = inr tt
  ∧ emits_alert "DOWNTIME" w (_send_immediate_downtime_alert self results w).2.
Proof.
  pose (failed := List.filter result_is_down results).
  pose (a := {| alert_type := "DOWNTIME";
                alert_timestamp := w_clock w (w_nclock w);
                alert_service_name := service_name self;
                alert_service_url := base_url self;
                alert_details :=
                  DowntimeDetails failed (Z.of_nat (length results))
                    (Z.of_nat (length failed)) |}).
  change (_send_immediate_downtime_alert self results w)
    with (try_except (bind (send_alert (reporter self) a) (λ _, ret tt))
                     (λ _, ret tt) (now w).2).
  destruct (try_send_alert_emits (reporter self) a (now w).2) as [Hr He].
  split; [exact Hr|]. by apply emits_alert_after_now.
Qed.

Lemma recovery_alert_emits (self : RenderServiceManager)
    (results : list ProbeResult) (w : World) :
  (_send_service_recovery_alert self results w).1 = inr tt
  ∧ emits_alert "RECOVERY" w (_send_service_recovery_alert self results w).2.
Proof.
  pose (a := {| alert_type := "RECOVERY";
                alert_timestamp := w_clock w (w_nclock w);
                alert_service_name := service_name self;
                alert_service_url := base_url self;
                alert_details :=
                  RecoveryDetails (List.filter result_is_up results)
                    "Service has recovered and is responding normally" |}).
  change (_send_service_recovery_alert self results w)
    with (try_except (bind (send_alert (reporter self) a) (λ _, ret tt))
                     (λ _, ret tt) (now w).2).
  destruct (try_send_alert_emits (reporter self) a (now w).2) as [Hr He].
  split; [exact Hr|]. by apply emits_alert_after_now.
Qed.

Lemma bind_run {A B} (c : M A) (k : A → M B) (w : World) (a : A) :
  (c w).1 = inr a → bind c k w = k a (c w).2.
Proof. intros H. apply bind_inr. rewrite (run_pair c w) at 1. by rewrite H. Qed.

Lemma alerts_between_quiet (w w' : World) :
  extends not_send_alert w w' → alerts_between [] w w'.
Proof.
  intros [[evs [T F]] _ _ S _ _ _ _]. exists evs.
  by rewrite alert_types_quiet.
Qed.

Lemma alerts_between_emits (ty : string) (w w' : World) :
  emits_alert ty w w' → alerts_between [ty] w w'.
Proof.
  intros (a & evs & T & Ha & F & B & L & S). exists (EvSendAlert a :: evs).
  split; [done|]. split; [|done].
  unfold alert_types. simpl. fold (alert_types evs).
  by rewrite alert_types_quiet, Ha.
Qed.

Lemma alerts_between_trans (l1 l2 : list string) (w w1 w2 : World) :
  alerts_between l1 w w1 → alerts_between l2 w1 w2 →
  alerts_between (l1 ++ l2) w w2.
Proof.
  intros (e1 & T1 & A1 & S1) (e2 & T2 & A2 & S2). exists (e1 ++ e2)%list.
  rewrite T2, T1, alert_types_app, A1, A2, app_assoc. split; [done|].
  split; [done|congruence].
Qed.

Lemma alerts_between_events (l : list string) (w w' : World) :
  alerts_between l w w' → alert_types (events_since w w') = l.
Proof. intros (evs & T & A & _). by rewrite (events_since_app _ _ _ T). Qed.

(** The loop of [ping_service] that logs the results. *)
Lemma log_results_quiet (self : ServiceMonitor) (results : list ProbeResult)
    (w : World) :
  let c := for_each results
             (λ result,
                log_ping self (endpoint result) (method result)
                  (status result) (response_time_ms result) (error result)
                  (status_code result) ;;
                ret tt) in
  (c w).1 = inr tt ∧ extends not_send_alert w (c w).2.
Proof.
  intros c. split.
  - assert (Hret : returns c).
    { subst c. total. apply returns_log_ping. }
    destruct (Hret w) as [[] H]. exact H.
  - subst c. revert w. change (respects not_send_alert
      (for_each results
         (λ result,
            log_ping self (endpoint result) (method result)
              (status result) (response_time_ms result) (error result)
              (status_code result) ;;
            ret tt))).
    frame. apply respects_log_ping. by intros [].
Qed.

(** One probe cycle: [ping_service] returns the probe results, leaves the
    down-notified attribute equal to "not healthy", and calls [send_alert]
    as the transition table says. *)
Lemma ping_service_step (self : RenderServiceManager) (w : World) :
  ∃ results,
    (ping_service self w).1 = inr results
    ∧ w_down_notified (ping_service self w).2 = negb (any_up results)
    ∧ alerts_between (expected_alerts (any_up results) (w_down_notified w))
        w (ping_service self w).2.
Proof.
  destruct (returns_ping_all_endpoints (keep_alive self) w) as [results Hres].
  assert (E1 : extends not_send_alert w
                 (ping_all_endpoints (keep_alive self) w).2).
  { apply respects_ping_all_endpoints. by intros []. }
  exists results. unfold ping_service.
  rewrite (bind_run _ _ _ _ Hres).
  set (w1 := (ping_all_endpoints (keep_alive self) w).2) in *.
  assert (B1 : w_down_notified w1 = w_down_notified w)
    by apply (ext_down_notified _ _ _ E1).
  apply alerts_between_quiet in E1.
  cbv zeta. rewrite (bind_run has_down_notified _ w1 (w_down_notified w1))
    by reflexivity.
  change (has_down_notified w1).2 with w1.
  rewrite B1. unfold expected_alerts.
  destruct (any_up results) eqn:Hup, (w_down_notified w) eqn:Hflag;
    cbn [negb andb].
  - (* healthy, notified: recovery *)
    destruct (recovery_alert_emits self results w1) as [Hr He].
    rewrite (bind_run _ _ w1 tt).
    2:{ rewrite (bind_run _ _ w1 tt Hr). reflexivity. }
    rewrite (bind_run _ _ w1 tt Hr).
    set (w2 := (_send_service_recovery_alert self results w1).2) in *.
    set (w3 := (set_down_notified false w2).2).
    destruct (log_results_quiet (monitor self) results w3) as [Hl El].
    set (L := for_each results _) in *.
    rewrite (bind_run L _ w3 tt Hl). unfold ret. cbn [fst snd].
    split; [done|]. split.
    + by rewrite (ext_down_notified _ _ _ El).
    + change ["RECOVERY"] with (([] ++ ["RECOVERY"]) ++ [] : list string)%list.
      eapply alerts_between_trans; [|apply alerts_between_quiet, El].
      eapply alerts_between_trans; [exact E1|].
      apply alerts_between_emits in He.
      destruct He as (evs & T & A & S). by exists evs.
  - (* healthy, not notified *)
    rewrite (bind_run _ _ w1 tt) by reflexivity.
    change (ret tt w1).2 with w1.
    destruct (log_results_quiet (monitor self) results w1) as [Hl El].
    set (L := for_each results _) in *.
    rewrite (bind_run L _ w1 tt Hl). unfold ret. cbn [fst snd].
    split; [done|]. split.
    + by rewrite (ext_down_notified _ _ _ El).
    + change (@nil string) with ([] ++ [] : list string)%list.
      eapply alerts_between_trans; [exact E1|].
      apply alerts_between_quiet, El.
  - (* unhealthy, already notified: suppressed *)
    rewrite (bind_run _ _ w1 tt) by reflexivity.
    change (ret tt w1).2 with w1.
    destruct (log_results_quiet (monitor self) results w1) as [Hl El].
    set (L := for_each results _) in *.
    rewrite (bind_run L _ w1 tt Hl). unfold ret. cbn [fst snd].
    split; [done|]. split.
    + by rewrite (ext_down_notified _ _ _ El).
    + change (@nil string) with ([] ++ [] : list string)%list.
      eapply alerts_between_trans; [exact E1|].
      apply alerts_between_quiet, El.
  - (* unhealthy, not notified: downtime *)
    destruct (downtime_alert_emits self results w1) as [Hr He].
    rewrite (bind_run _ _ w1 tt).
    2:{ rewrite (bind_run _ _ w1 tt Hr). reflexivity. }
    rewrite (bind_run _ _ w1 tt Hr).
    set (w2 := (_send_immediate_downtime_alert self results w1).2) in *.
    set (w3 := (set_down_notified true w2).2).
    destruct (log_results_quiet (monitor self) results w3) as [Hl El].
    set (L := for_each results _) in *.
    rewrite (bind_run L _ w3 tt Hl). unfold ret. cbn [fst snd].
    split; [done|]. split.
    + by rewrite (ext_down_notified _ _ _ El).
    + change ["DOWNTIME"] with (([] ++ ["DOWNTIME"]) ++ [] : list string)%list.
      eapply alerts_between_trans; [|apply alerts_between_quiet, El].
      eapply alerts_between_trans; [exact E1|].
      apply alerts_between_emits in He.
      destruct He as (evs & T & A & S). by exists evs.
Qed.

Lemma run_cycles_S (self : RenderServiceManager) (n : nat) (w : World) :
  ∃ results,
    (ping_service self w).1 = inr results
    ∧ run_cycles self (S n) w =
      ({| observed_healthy := Some (any_up results);
          alerts_emitted :=
            expected_alerts (any_up results) (w_down_notified w);
          notified_after := negb (any_up results) |}
       :: (run_cycles self n (ping_service self w).2).1,
       (run_cycles self n (ping_service self w).2).2)
    ∧ w_down_notified (ping_service self w).2 = negb (any_up results)
    ∧ w_smtp (ping_service self w).2 = w_smtp w.
Proof.
  destruct (ping_service_step self w) as (results & Hres & Hflag & Halerts).
  exists results. split; [exact Hres|]. split; [|split; [exact Hflag|]].
  - cbn [run_cycles].
    pose proof (alerts_between_events _ _ _ Halerts) as Hev.
    destruct (ping_service self w) as [res w1]. cbn [fst snd] in *.
    subst res. rewrite Hev, Hflag.
    destruct (run_cycles self n w1) as [views w2]. reflexivity.
  - by destruct Halerts as (evs & _ & _ & S).
Qed.

(** C1. Starting from the initial state (not down-notified), four probe
    cycles that observe down, down, down, up emit exactly one DOWNTIME alert,
    in the first cycle, and exactly one RECOVERY alert, in the fourth; the
    second and the third cycle emit nothing. *)
Theorem transition_suppression (self : RenderServiceManager) (w : World) :
  w_down_notified w = false →
  map observed_healthy (run_cycles self 4 w).1
  = [Some false; Some false; Some false; Some true] →
  map alerts_emitted (run_cycles self 4 w).1
  = [["DOWNTIME"]; []; []; ["RECOVERY"]].
Proof.
  intros Hinit.
  destruct (run_cycles_S self 3 w) as (r1 & _ & -> & F1 & _).
  set (w1 := (ping_service self w).2) in *.
  destruct (run_cycles_S self 2 w1) as (r2 & _ & -> & F2 & _).
  set (w2 := (ping_service self w1).2) in *.
  destruct (run_cycles_S self 1 w2) as (r3 & _ & -> & F3 & _).
  set (w3 := (ping_service self w2).2) in *.
  destruct (run_cycles_S self 0 w3) as (r4 & _ & -> & F4 & _).
  cbn [run_cycles map fst snd observed_healthy alerts_emitted].
  intros Hobs. injection Hobs as H1 H2 H3 H4.
  rewrite Hinit, F1, F2, F3, H1, H2, H3, H4. reflexivity.
Qed.

Lemma transition_suppression_witness :
  let w := fresh_world (λ k, Z.of_nat k * 1000) outage_then_recovery
             (λ _, true) (λ _, true) in
  w_down_notified w = false
  ∧ map observed_healthy (run_cycles sample_manager 4 w).1
    = [Some false; Some false; Some false; Some true]
  ∧ map alerts_emitted (run_cycles sample_manager 4 w).1
    = [["DOWNTIME"]; []; []; ["RECOVERY"]].
Proof.
  intros w.
  assert (Hobs : map observed_healthy (run_cycles sample_manager 4 w).1
                 = [Some false; Some false; Some false; Some true])
    by (vm_compute; reflexivity).
  split; [reflexivity|]. split; [exact Hobs|].
  exact (transition_suppression sample_manager w eq_refl Hobs).
Defined.

(** ** Alert delivery that fails *)

Lemma send_alert_email_fails (self : ServiceReporter) (a : Alert) (w : World) :
  w_smtp w (w_nsmtp w) = false → (send_alert_email self a w).1 = inr false.
Proof.
  intros Hsmtp. unfold send_alert_email, format_alert_email.
  unfold bind at 1. simpl.
  destruct (smtp_config_incomplete self); [reflexivity|].
  destruct (addresses_missing self); [reflexivity|].
  destruct (String.eqb (alert_type a) "DOWNTIME");
    [|destruct (String.eqb (alert_type a) "RECOVERY")];
    unfold try_except, bind, smtp_session, ret, raise; simpl;
    rewrite ?Hsmtp; reflexivity.
Qed.

Lemma send_alert_fails (self : ServiceReporter) (a : Alert) (w : World) :
  (∀ k, w_smtp w k = false) → (send_alert self a w).1 = inr false.
Proof.
  intros Hsmtp. unfold send_alert.
  rewrite (bind_run _ _ w tt) by reflexivity.
  set (w0 := (emit (EvSendAlert a) w).2).
  destruct (returns_save_alert_backup self a w0) as [[] Hb].
  rewrite (bind_run _ _ w0 tt Hb).
  apply send_alert_email_fails.
  assert (E : extends (λ _, true) w0 (_save_alert_backup self a w0).2)
    by (apply respects_save_alert_backup; by intros []).
  rewrite (ext_smtp _ _ _ E). apply Hsmtp.
Qed.

(** C10. When every SMTP session fails, so that every [send_alert] returns
    [False], the health state still moves: over cycles that observe down,
    down, up, down from the initial state, the attribute is set by the first
    cycle (the second is suppressed), cleared by the third, and the fourth
    emits a fresh DOWNTIME alert. *)
Theorem transition_independent_of_delivery
    (self : RenderServiceManager) (w : World) :
  (∀ k, w_smtp w k = false) →
  w_down_notified w = false →
  map observed_healthy (run_cycles self 4 w).1
  = [Some false; Some false; Some true; Some false] →
  (∀ a w', w_smtp w' = w_smtp w →
           (send_alert (reporter self) a w').1 = inr false)
  ∧ map alerts_emitted (run_cycles self 4 w).1
    = [["DOWNTIME"]; []; ["RECOVERY"]; ["DOWNTIME"]]
  ∧ map notified_after (run_cycles self 4 w).1 = [true; true; false; true].
Proof.
  intros Hsmtp Hinit Hobs. split.
  { intros a w' Hw'. apply send_alert_fails. intros k.
    by rewrite Hw'. }
  revert Hobs.
  destruct (run_cycles_S self 3 w) as (r1 & _ & -> & F1 & _).
  set (w1 := (ping_service self w).2) in *.
  destruct (run_cycles_S self 2 w1) as (r2 & _ & -> & F2 & _).
  set (w2 := (ping_service self w1).2) in *.
  destruct (run_cycles_S self 1 w2) as (r3 & _ & -> & F3 & _).
  set (w3 := (ping_service self w2).2) in *.
  destruct (run_cycles_S self 0 w3) as (r4 & _ & -> & F4 & _).
  cbn [run_cycles map fst snd observed_healthy alerts_emitted notified_after].
  intros Hobs. injection Hobs as H1 H2 H3 H4.
  rewrite Hinit, F1, F2, F3, H1, H2, H3, H4. split; reflexivity.
Qed.

Lemma transition_independent_of_delivery_witness :
  let w := fresh_world (λ k, Z.of_nat k * 1000) outage_recovery_outage
             (λ _, false) (λ _, true) in
  (∀ k, w_smtp w k = false)
  ∧ w_down_notified w = false
  ∧ map observed_healthy (run_cycles sample_manager 4 w).1
    = [Some false; Some false; Some true; Some false]
  ∧ map alerts_emitted (run_cycles sample_manager 4 w).1
    = [["DOWNTIME"]; []; ["RECOVERY"]; ["DOWNTIME"]]
  ∧ map notified_after (run_cycles sample_manager 4 w).1
    = [true; true; false; true].
Proof.
  intros w.
  assert (Hobs : map observed_healthy (run_cycles sample_manager 4 w).1
                 = [Some false; Some false; Some true; Some false])
    by (vm_compute; reflexivity).
  split; [reflexivity|]. split; [reflexivity|]. split; [exact Hobs|].
  exact (proj2 (transition_independent_of_delivery sample_manager w
                  (λ _, eq_refl) eq_refl Hobs)).
Defined.

(** ** Report delivery with retries *)

Lemma steps_between_trans (l1 l2 : list Event) (w w1 w2 : World) :
  steps_between l1 w w1 → steps_between l2 w1 w2 →
  steps_between (l1 ++ l2) w w2.
Proof.
  intros (e1 & T1 & A1 & S1) (e2 & T2 & A2 & S2). exists (e1 ++ e2)%list.
  unfold delivery_steps in *.
  rewrite T2, T1, List.filter_app, A1, A2, app_assoc. split; [done|].
  split; [done|congruence].
Qed.

Lemma steps_between_quiet (p : Event → bool) (w w' : World) :
  (∀ e, p e = true → is_send_report_email e || is_sleep_event e = false) →
  extends p w w' → steps_between [] w w'.
Proof.
  intros Hp [[evs [T F]] _ _ S _ _ _ _]. exists evs.
  split; [done|]. split; [|done].
  unfold delivery_steps. clear T. induction evs as [|e evs IH]; [done|].
  simpl in *. apply andb_true_iff in F as [He F].
  rewrite (Hp e He). by apply IH.
Qed.

Lemma send_report_email_fails (self : ServiceReporter) (r : Report)
    (w : World) :
  w_smtp w (w_nsmtp w) = false →
  (send_report_email self r w).1 = inr false
  ∧ steps_between [EvSendReportEmail r] w (send_report_email self r w).2.
Proof.
  intros Hsmtp. unfold send_report_email, format_report_email.
  unfold bind at 1. simpl.
  destruct (smtp_config_incomplete self).
  { split; [reflexivity|]. by exists [EvSendReportEmail r]. }
  destruct (addresses_missing self).
  { split; [reflexivity|]. by exists [EvSendReportEmail r]. }
  destruct (start_time r) as [s|];
    [destruct (end_time r) as [e|]; [destruct (tier_of _) as [tier colour]|]|];
    unfold try_except, bind, smtp_session, now, ret, raise; simpl;
    rewrite ?Hsmtp; simpl.
  - split; [reflexivity|]. eexists [_; _]. simpl.
    rewrite <- app_assoc. split; [reflexivity|]. done.
  - split; [reflexivity|]. by exists [EvSendReportEmail r].
  - split; [reflexivity|]. by exists [EvSendReportEmail r].
Qed.

Lemma send_report_loop_exhausts (self : ServiceReporter) (r : Report)
    (retry_delay : Z) (n i : nat) (w : World) :
  0 ≤ retry_delay →
  (∀ k, w_smtp w k = false) →
  let c := send_report_loop self r (Z.of_nat (i + n)) retry_delay
             (map Z.of_nat (seq i n)) in
  (c w).1 = inr false
  ∧ steps_between (retry_pattern r retry_delay n) w (c w).2.
Proof.
  intros Hdelay. revert i w.
  induction n as [|n IH]; intros i w Hsmtp c; subst c.
  - split; [reflexivity|]. exists []. by rewrite app_nil_r.
  - cbn [seq map send_report_loop].
    destruct (send_report_email_fails self r w (Hsmtp _)) as [Hres Hsteps].
    rewrite (bind_run _ _ w false Hres).
    set (w1 := (send_report_email self r w).2) in *.
    assert (Hsmtp1 : ∀ k, w_smtp w1 k = false).
    { intros k. destruct Hsteps as (_ & _ & _ & ->). apply Hsmtp. }
    destruct n as [|n].
    + destruct (Z.ltb_spec (Z.of_nat i) (Z.of_nat (i + 1) - 1)); [lia|].
      rewrite (bind_run _ _ w1 tt) by reflexivity.
      split; [reflexivity|]. exact Hsteps.
    + destruct (Z.ltb_spec (Z.of_nat i) (Z.of_nat (i + S (S n)) - 1)); [|lia].
      unfold sleep. destruct (Z.ltb_spec retry_delay 0); [lia|].
      rewrite (bind_run _ _ w1 tt) by reflexivity.
      set (w2 := (emit (EvSleep retry_delay) w1).2).
      replace (i + S (S n))%nat with (S i + S n)%nat by lia.
      destruct (IH (S i) w2 Hsmtp1) as [Hres2 Hsteps2].
      split; [exact Hres2|].
      change (retry_pattern r retry_delay (S (S n)))
        with ([EvSendReportEmail r]
              ++ [EvSleep retry_delay]
              ++ retry_pattern r retry_delay (S n))%list.
      eapply steps_between_trans; [exact Hsteps|].
      eapply steps_between_trans; [|exact Hsteps2].
      by exists [EvSleep retry_delay].
Qed.

Lemma delivery_attempts_pattern (r : Report) (d : Z) (n : nat) :
  delivery_attempts (retry_pattern r d n) = n.
Proof.
  unfold delivery_attempts.
  induction n as [|[|n] IH]; [done|done|].
  change (retry_pattern r d (S (S n)))
    with (EvSendReportEmail r :: EvSleep d :: retry_pattern r d (S n)).
  simpl in *. by rewrite IH.
Qed.

Lemma delivery_attempts_steps (evs : list Event) :
  delivery_attempts (delivery_steps evs) = delivery_attempts evs.
Proof.
  unfold delivery_attempts, delivery_steps.
  induction evs as [|e evs IH]; [done|].
  destruct e; simpl; by rewrite ?IH.
Qed.

(** C8. If every SMTP session fails, [send_report] with a retry count
    [n >= 0] and a delay [d >= 0] makes exactly [n] delivery attempts, sleeps
    [d] between consecutive attempts, and only then returns [False]. *)
Theorem send_report_retry_exhaustion (self : ServiceReporter) (r : Report)
    (retry_count retry_delay : Z) (w : World) :
  0 ≤ retry_count →
  0 ≤ retry_delay →
  (∀ k, w_smtp w k = false) →
  let w' := (send_report self r retry_count retry_delay w).2 in
  (send_report self r retry_count retry_delay w).1 = inr false
  ∧ delivery_steps (events_since w w')
    = retry_pattern r retry_delay (Z.to_nat retry_count)
  ∧ Z.of_nat (delivery_attempts (events_since w w')) = retry_count.
Proof.
  intros Hcount Hdelay Hsmtp w'. subst w'. unfold send_report.
  rewrite (bind_run _ _ w tt) by reflexivity.
  set (w0 := (emit (EvSendReport r) w).2).
  destruct (returns_save_report_backup self r w0) as [[] Hb].
  rewrite (bind_run _ _ w0 tt Hb).
  set (w1 := (_save_report_backup self r w0).2).
  assert (E : extends is_file_event w0 w1)
    by (apply respects_save_report_backup; by intros e He).
  assert (Hsmtp1 : ∀ k, w_smtp w1 k = false).
  { intros k. rewrite (ext_smtp _ _ _ E). apply Hsmtp. }
  unfold range.
  pose proof (send_report_loop_exhausts self r retry_delay
                (Z.to_nat retry_count) 0 w1 Hdelay Hsmtp1) as Hloop.
  cbv zeta in Hloop. rewrite Nat.add_0_l, Z2Nat.id in Hloop by done.
  destruct Hloop as [Hres Hsteps]. split; [exact Hres|].
  assert (Hall : steps_between
                   (retry_pattern r retry_delay (Z.to_nat retry_count)) w
                   (send_report_loop self r retry_count retry_delay
                      (map Z.of_nat (seq 0 (Z.to_nat retry_count))) w1).2).
  { change (retry_pattern r retry_delay (Z.to_nat retry_count))
      with ([] ++ [] ++ retry_pattern r retry_delay (Z.to_nat retry_count))%list.
    apply (steps_between_trans _ _ w w0); [by exists [EvSendReport r]|].
    apply (steps_between_trans _ _ w0 w1); [|exact Hsteps].
    eapply steps_between_quiet; [|exact E]. by intros []. }
  destruct Hall as (evs & T & A & _).
  rewrite (events_since_app _ _ _ T). split; [exact A|].
  rewrite <- delivery_attempts_steps, A, delivery_attempts_pattern. lia.
Qed.

Lemma send_report_retry_exhaustion_witness :
  let w0 := fresh_world (λ _, 0) (λ _, Response 200)
              (λ _, false) (λ _, true) in
  let r := {| report_date := 0; start_time := Some 0; end_time := Some 10;
              total_checks := 1; uptime_count := 1; downtime_count := 0;
              uptime_percentage := Qc_of_Z 100;
              average_response_time_ms := None;
              downtime_incidents := [] |} in
  0 ≤ default_retry_count
  ∧ 0 ≤ default_retry_delay
  ∧ (∀ k, w_smtp w0 k = false)
  ∧ (send_report sample_reporter r default_retry_count default_retry_delay
       w0).1 = inr false
  ∧ delivery_steps
      (events_since w0
         (send_report sample_reporter r default_retry_count
            default_retry_delay w0).2)
    = [EvSendReportEmail r; EvSleep 300; EvSendReportEmail r; EvSleep 300;
       EvSendReportEmail r].
Proof.
  intros w0 r.
  assert (H1 : 0 ≤ default_retry_count) by (unfold default_retry_count; lia).
  assert (H2 : 0 ≤ default_retry_delay) by (unfold default_retry_delay; lia).
  assert (H3 : ∀ k, w_smtp w0 k = false) by reflexivity.
  split; [exact H1|]. split; [exact H2|]. split; [exact H3|].
  destruct (send_report_retry_exhaustion sample_reporter r
              default_retry_count default_retry_delay w0 H1 H2 H3)
    as (Hres & Hsteps & _).
  split; [exact Hres|exact Hsteps].
Defined.

(** ** Backups *)

(** Whatever the disk and the SMTP server do, [send_alert] runs the backup,
    which only touches files, before the delivery call. *)
Lemma send_alert_backup_first (self : ServiceReporter) (a : Alert) (w : World) :
  ∃ backup delivery,
    events_since w (send_alert self a w).2
    = (EvSendAlert a :: backup ++ delivery)%list
    ∧ forallb is_file_event backup = true
    ∧ forallb (λ e, is_send_alert_email e || is_smtp_event e) delivery = true.
Proof.
  unfold send_alert.
  rewrite (bind_run _ _ w tt) by reflexivity.
  set (w0 := (emit (EvSendAlert a) w).2).
  destruct (returns_save_alert_backup self a w0) as [[] Hb].
  rewrite (bind_run _ _ w0 tt Hb).
  set (w1 := (_save_alert_backup self a w0).2).
  assert (E1 : extends is_file_event w0 w1)
    by (apply respects_save_alert_backup; by intros e He).
  assert (E2 : extends (λ e, is_send_alert_email e || is_smtp_event e) w1
                 (send_alert_email self a w1).2)
    by (apply respects_send_alert_email; by intros []).
  destruct E1 as [[backup [T1 F1]] _ _ _ _ _ _ _].
  destruct E2 as [[delivery [T2 F2]] _ _ _ _ _ _ _].
  exists backup, delivery. split; [|done].
  apply events_since_app. rewrite T2, T1. subst w0. simpl.
  by rewrite <- !app_assoc.
Qed.

(** The same order in [send_report]: the backup, then the attempts. *)
Lemma send_report_backup_first (self : ServiceReporter) (r : Report)
    (retry_count retry_delay : Z) (w : World) :
  ∃ backup rest,
    events_since w (send_report self r retry_count retry_delay w).2
    = (EvSendReport r :: backup ++ rest)%list
    ∧ forallb is_file_event backup = true
    ∧ forallb (λ e, is_send_report_email e || is_smtp_event e
                    || is_sleep_event e) rest = true.
Proof.
  unfold send_report.
  rewrite (bind_run _ _ w tt) by reflexivity.
  set (w0 := (emit (EvSendReport r) w).2).
  destruct (returns_save_report_backup self r w0) as [[] Hb].
  rewrite (bind_run _ _ w0 tt Hb).
  set (w1 := (_save_report_backup self r w0).2).
  assert (E1 : extends is_file_event w0 w1)
    by (apply respects_save_report_backup; by intros e He).
  assert (E2 : respects (λ e, is_send_report_email e || is_smtp_event e
                              || is_sleep_event e)
                 (send_report_loop self r retry_count retry_delay
                    (range retry_count))).
  { induction (range retry_count) as [|i l IH]; cbn [send_report_loop]; frame.
    - apply respects_send_report_email; by intros [].
    - by apply respects_sleep.
    - exact IH. }
  destruct E1 as [[backup [T1 F1]] _ _ _ _ _ _ _].
  destruct (E2 w1) as [[rest [T2 F2]] _ _ _ _ _ _ _].
  exists backup, rest. split; [|done].
  apply events_since_app. rewrite T2, T1. subst w0. simpl.
  by rewrite <- !app_assoc.
Qed.

Lemma format_alert_email_unbound (self : ServiceReporter) (a : Alert) :
  alert_type a ≠ "DOWNTIME" → alert_type a ≠ "RECOVERY" →
  format_alert_email self a = raise UnboundLocalError.
Proof.
  intros H1 H2. unfold format_alert_email.
  destruct (String.eqb_spec (alert_type a) "DOWNTIME"); [done|].
  destruct (String.eqb_spec (alert_type a) "RECOVERY"); [done|].
  reflexivity.
Qed.

Lemma respects_bind_raise (p : Event → bool) {A B} (e : PyExn)
    (k : A → M B) :
  respects p (bind (raise e) k).
Proof. intros w. apply extends_refl. Qed.

Lemma filter_excluded (p q : Event → bool) (evs : list Event) :
  (∀ e, p e = true → q e = false) →
  forallb p evs = true → List.filter q evs = [].
Proof.
  intros Hpq. induction evs as [|e evs IH]; [done|]. simpl.
  intros [He F]%andb_true_iff. rewrite (Hpq e He). by apply IH.
Qed.

Lemma unrendered_backup_respects (self : ServiceReporter) (a : Alert) :
  alert_type a ≠ "DOWNTIME" → alert_type a ≠ "RECOVERY" →
  respects (λ e, negb (is_html_write e) && negb (is_smtp_event e))
    (_save_alert_backup self a).
Proof.
  intros H1 H2. unfold _save_alert_backup.
  rewrite (format_alert_email_unbound self a H1 H2).
  apply respects_try; [|intros _; apply respects_ret].
  apply respects_bind; [apply respects_disk_op|intros _].
  apply respects_bind; [apply respects_now|intros stamp]. cbv zeta.
  apply respects_bind; [|intros _].
  { unfold open_w. apply respects_try.
    - apply respects_bind; [apply respects_disk_op|intros _].
      apply respects_bind; [by apply respects_emit|intros _].
      apply respects_set_file.
    - intros e. apply respects_bind; [by apply respects_emit|intros _].
      apply respects_raise. }
  apply respects_bind; [|intros _].
  { unfold write.
    apply respects_bind; [by apply respects_emit|intros _].
    apply respects_set_file. }
  apply respects_bind; [|intros _; apply respects_bind_raise].
  unfold open_w. apply respects_try.
  - apply respects_bind; [apply respects_disk_op|intros _].
    apply respects_bind; [by apply respects_emit|intros _].
    apply respects_set_file.
  - intros e. apply respects_bind; [by apply respects_emit|intros _].
    apply respects_raise.
Qed.

Lemma unrendered_email_fails (self : ServiceReporter) (a : Alert) (w : World) :
  alert_type a ≠ "DOWNTIME" → alert_type a ≠ "RECOVERY" →
  (send_alert_email self a w).1 = inr false
  ∧ extends (λ e, negb (is_html_write e) && negb (is_smtp_event e)) w
      (send_alert_email self a w).2.
Proof.
  intros H1 H2. unfold send_alert_email.
  rewrite (format_alert_email_unbound self a H1 H2).
  rewrite (bind_run _ _ w tt) by reflexivity.
  set (w0 := (emit (EvSendAlertEmail a) w).2).
  assert (E0 : extends (λ e, negb (is_html_write e) && negb (is_smtp_event e))
                 w w0) by (by apply respects_emit).
  destruct (smtp_config_incomplete self); [split; [reflexivity|exact E0]|].
  destruct (addresses_missing self); [split; [reflexivity|exact E0]|].
  destruct (String.eqb (alert_type a) "DOWNTIME");
    [|destruct (String.eqb (alert_type a) "RECOVERY")];
    (split; [reflexivity|exact E0]).
Qed.

(** C9, where the code departs from it. For an alert whose type is neither
    DOWNTIME nor RECOVERY, building the document raises: [send_alert] writes
    no rendered document, opens no SMTP session, and returns [False], in
    every world. *)
Theorem send_alert_unrendered_type (self : ServiceReporter) (a : Alert)
    (w : World) :
  alert_type a ≠ "DOWNTIME" →
  alert_type a ≠ "RECOVERY" →
  let w' := (send_alert self a w).2 in
  (send_alert self a w).1 = inr false
  ∧ List.filter is_html_write (events_since w w') = []
  ∧ List.filter is_smtp_event (events_since w w') = [].
Proof.
  intros H1 H2 w'. subst w'. unfold send_alert.
  set (p := λ e, negb (is_html_write e) && negb (is_smtp_event e)).
  rewrite (bind_run _ _ w tt) by reflexivity.
  set (w0 := (emit (EvSendAlert a) w).2).
  assert (E0 : extends p w w0) by (by apply respects_emit).
  destruct (returns_save_alert_backup self a w0) as [[] Hb].
  rewrite (bind_run _ _ w0 tt Hb).
  pose proof (unrendered_backup_respects self a H1 H2 w0) as E1.
  set (w1 := (_save_alert_backup self a w0).2) in *.
  destruct (unrendered_email_fails self a w1 H1 H2) as [Hres E2].
  split; [exact Hres|].
  pose proof (extends_trans _ _ _ _ E0 (extends_trans _ _ _ _ E1 E2)) as E.
  destruct (extends_events_since _ _ _ E) as [_ F].
  split; apply (filter_excluded p); try exact F; intros e; subst p; simpl;
    destruct (is_html_write e), (is_smtp_event e); done.
Qed.

Lemma send_alert_unrendered_type_witness :
  let json_file := alert_backup_file test_alert 0 in
  let html_file := replace ".json" ".html" json_file in
  let w' := (send_alert sample_reporter test_alert working_world).2 in
  alert_type test_alert ≠ "DOWNTIME"
  ∧ alert_type test_alert ≠ "RECOVERY"
  ∧ (send_alert sample_reporter test_alert working_world).1 = inr false
  ∧ List.filter is_html_write (events_since working_world w') = []
  ∧ List.filter is_smtp_event (events_since working_world w') = []
  ∧ w_fs w' !! json_file = Some (FJsonAlert test_alert)
  ∧ w_fs w' !! html_file = Some FEmpty.
Proof.
  intros json_file html_file w'.
  assert (H1 : alert_type test_alert ≠ "DOWNTIME") by discriminate.
  assert (H2 : alert_type test_alert ≠ "RECOVERY") by discriminate.
  destruct (send_alert_unrendered_type sample_reporter test_alert
              working_world H1 H2) as (Hres & Hhtml & Hsmtp).
  split; [exact H1|]. split; [exact H2|]. split; [exact Hres|].
  split; [exact Hhtml|]. split; [exact Hsmtp|].
  split; vm_compute; reflexivity.
Defined.

(** ** The daily report *)

Lemma reports_delivered_app (l1 l2 : list Event) :
  reports_delivered (l1 ++ l2) = (reports_delivered l1 + reports_delivered l2)%nat.
Proof. unfold reports_delivered. by rewrite List.filter_app, length_app. Qed.

Lemma reports_delivered_quiet (p : Event → bool) (evs : list Event) :
  (∀ e, p e = true → is_report_delivered e = false) →
  forallb p evs = true → reports_delivered evs = 0%nat.
Proof.
  intros Hp. unfold reports_delivered.
  induction evs as [|e evs IH]; [done|]. simpl.
  intros [He F]%andb_true_iff. rewrite (Hp e He). by apply IH.
Qed.

Lemma delivered_between_trans (n1 n2 : nat) (w w1 w2 : World) :
  delivered_between n1 w w1 → delivered_between n2 w1 w2 →
  delivered_between (n1 + n2) w w2.
Proof.
  intros (e1 & T1 & A1 & L1) (e2 & T2 & A2 & L2). exists (e1 ++ e2)%list.
  rewrite T2, T1, reports_delivered_app, A1, A2, app_assoc.
  split; [done|]. split; [done|congruence].
Qed.

Lemma delivered_between_quiet (p : Event → bool) (w w' : World) :
  (∀ e, p e = true → is_report_delivered e = false) →
  extends p w w' → delivered_between 0 w w'.
Proof.
  intros Hp [[evs [T F]] _ _ _ _ _ _ L]. exists evs.
  split; [done|]. split; [|done]. by apply (reports_delivered_quiet p).
Qed.

Lemma delivered_between_events (n : nat) (w w' : World) :
  delivered_between n w w' → reports_delivered (events_since w w') = n.
Proof. intros (evs & T & A & _). by rewrite (events_since_app _ _ _ T). Qed.

(** One delivery attempt: it returns [True] exactly when it delivered. *)
Lemma send_report_email_delivers (self : ServiceReporter) (r : Report)
    (w : World) :
  ∃ b : bool,
    (send_report_email self r w).1 = inr b
    ∧ delivered_between (if b then 1 else 0) w (send_report_email self r w).2.
Proof.
  unfold send_report_email, format_report_email.
  unfold bind at 1. simpl.
  destruct (smtp_config_incomplete self).
  { exists false. split; [reflexivity|]. by exists [EvSendReportEmail r]. }
  destruct (addresses_missing self).
  { exists false. split; [reflexivity|]. by exists [EvSendReportEmail r]. }
  destruct (start_time r) as [s|];
    [destruct (end_time r) as [e|]; [destruct (tier_of _) as [tier colour]|]|];
    unfold try_except, bind, smtp_session, now, ret, raise; simpl.
  - destruct (w_smtp w (w_nsmtp w)); simpl.
    + exists true. split; [reflexivity|]. eexists [_; _]. simpl.
      rewrite <- app_assoc. split; [reflexivity|]. done.
    + exists false. split; [reflexivity|]. eexists [_; _]. simpl.
      rewrite <- app_assoc. split; [reflexivity|]. done.
  - exists false. split; [reflexivity|]. by exists [EvSendReportEmail r].
  - exists false. split; [reflexivity|]. by exists [EvSendReportEmail r].
Qed.

Lemma send_report_loop_delivers (self : ServiceReporter) (r : Report)
    (retry_count retry_delay : Z) (attempts : list Z) (w : World) :
  0 ≤ retry_delay →
  let c := send_report_loop self r retry_count retry_delay attempts in
  ∃ b : bool,
    (c w).1 = inr b ∧ delivered_between (if b then 1 else 0) w (c w).2.
Proof.
  intros Hdelay c. subst c. revert w.
  induction attempts as [|i l IH]; intros w.
  - exists false. split; [reflexivity|]. exists []. by rewrite app_nil_r.
  - cbn [send_report_loop].
    destruct (send_report_email_delivers self r w) as (b & Hb & Db).
    rewrite (bind_run _ _ w b Hb).
    set (w1 := (send_report_email self r w).2) in *.
    destruct b.
    + exists true. split; [reflexivity|]. exact Db.
    + assert (Hpause : ∃ w2,
                (if i <? retry_count - 1 then sleep retry_delay else ret tt) w1
                = (inr tt, w2) ∧ delivered_between 0 w1 w2).
      { unfold sleep. destruct (i <? retry_count - 1).
        - destruct (Z.ltb_spec retry_delay 0); [lia|].
          eexists. split; [reflexivity|]. by exists [EvSleep retry_delay].
        - eexists. split; [reflexivity|]. exists []. by rewrite app_nil_r. }
      destruct Hpause as (w2 & Hrun & D2).
      rewrite (bind_inr _ _ _ _ _ Hrun).
      destruct (IH w2) as (b & Hb2 & D3). exists b. split; [exact Hb2|].
      change (if b then 1 else 0)%nat with (0 + (0 + if b then 1 else 0))%nat.
      eapply delivered_between_trans; [exact Db|].
      eapply delivered_between_trans; [exact D2|exact D3].
Qed.

(** [send_report] returns, and returns [True] exactly when it delivered the
    report, which it does at most once. *)
Lemma send_report_delivers (self : ServiceReporter) (r : Report)
    (retry_count retry_delay : Z) (w : World) :
  0 ≤ retry_delay →
  let c := send_report self r retry_count retry_delay in
  ∃ b : bool,
    (c w).1 = inr b
    ∧ delivered_between (if b then 1 else 0) w (c w).2
    ∧ calls_send_report (events_since w (c w).2) = true.
Proof.
  intros Hdelay c. subst c. unfold send_report.
  rewrite (bind_run _ _ w tt) by reflexivity.
  set (w0 := (emit (EvSendReport r) w).2).
  destruct (returns_save_report_backup self r w0) as [[] Hb].
  rewrite (bind_run _ _ w0 tt Hb).
  set (w1 := (_save_report_backup self r w0).2).
  assert (E : extends is_file_event w0 w1)
    by (apply respects_save_report_backup; by intros e He).
  destruct (send_report_loop_delivers self r retry_count retry_delay
              (range retry_count) w1 Hdelay) as (b & Hres & D).
  exists b. split; [exact Hres|].
  assert (Hall : delivered_between (if b then 1 else 0) w
            (send_report_loop self r retry_count retry_delay
               (range retry_count) w1).2).
  { change (if b then 1 else 0)%nat with (0 + (0 + if b then 1 else 0))%nat.
    apply (delivered_between_trans _ _ w w0); [by exists [EvSendReport r]|].
    apply (delivered_between_trans _ _ w0 w1); [|exact D].
    eapply delivered_between_quiet; [|exact E]. by intros []. }
  split; [exact Hall|].
  destruct E as [[e1 [T1 _]] _ _ _ _ _ _ _].
  destruct D as (e2 & T2 & _).
  erewrite events_since_app.
  2:{ rewrite T2, T1. subst w0. simpl. by rewrite <- !app_assoc. }
  reflexivity.
Qed.

Lemma extends_nothing (w w' : World) :
  extends (λ _, false) w w' → w_trace w' = w_trace w.
Proof.
  intros [[evs [T F]] _ _ _ _ _ _ _]. destruct evs; [|discriminate].
  by rewrite T, app_nil_r.
Qed.

Lemma returns_clear_logs (self : ServiceMonitor) : returns (clear_logs self).
Proof.
  unfold clear_logs. total; [|apply returns_save_logs].
  intros w. by exists tt.
Qed.

(** The [try] block of the report loop: it never raises, delivers the report
    at most once, records the date when it did, and calls [send_report]
    exactly when the past 24 hours hold a record. *)
Lemma midnight_report_spec (self : RenderServiceManager) (t : Z) (w : World) :
  let w' := (midnight_report self t w).2 in
  (midnight_report self t w).1 = inr tt
  ∧ ∃ evs,
      w_trace w' = (w_trace w ++ evs)%list
      ∧ (reports_delivered evs ≤ 1)%nat
      ∧ (reports_delivered evs = 1%nat →
         w_last_report_date w' = Some (dt_date t))
      ∧ calls_send_report evs
        = negb (bool_decide
                  (window (w_logs w) (Some (minus_one_day t)) (Some t) = [])).
Proof.
  intros w'. subst w'. unfold midnight_report. cbv zeta.
  set (s := Some (minus_one_day t)). set (e := Some t).
  pose proof (generate_report_result (monitor self) s e w) as Hgen.
  pose proof (respects_generate_report (λ _, false) (monitor self) s e w) as Eg.
  set (wg := (generate_report (monitor self) s e w).2) in *.
  pose proof (extends_nothing _ _ Eg) as Tg.
  pose proof (ext_last_report_date _ _ _ Eg) as Lg.
  destruct (window (w_logs w) s e) as [|l0 rest] eqn:Hwin.
  - (* no data: the date is marked *)
    rewrite (try_inr _ _ w
               (set_last_report_date (Some (dt_date t)) wg).2 tt).
    2:{ rewrite (bind_run _ _ w None Hgen). reflexivity. }
    split; [reflexivity|]. exists []. simpl. rewrite app_nil_r.
    split; [exact Tg|]. split; [unfold reports_delivered; simpl; lia|].
    split; [done|reflexivity].
  - (* data: the report is sent *)
    cbv zeta in Hgen.
    match type of Hgen with _ = inr (Some ?r0) => set (r := r0) in * end.
    destruct (send_report_delivers (reporter self) r default_retry_count
                default_retry_delay wg) as (b & Hres & D & Hcall).
    { unfold default_retry_delay. lia. }
    set (ws := (send_report (reporter self) r default_retry_count
                  default_retry_delay wg).2) in *.
    destruct D as (evs & T & A & L).
    rewrite (events_since_app _ _ _ T) in Hcall.
    rewrite bool_decide_eq_false_2 by done. cbn [negb].
    destruct b.
    + set (wl := (set_last_report_date (Some (dt_date t)) ws).2).
      set (tail := if reset_logs_after_send self
                   then clear_logs (monitor self) else ret tt).
      assert (Htail : ∃ wt, tail wl = (inr tt, wt)
                            ∧ extends is_file_event wl wt).
      { subst tail. destruct (reset_logs_after_send self).
        - destruct (returns_clear_logs (monitor self) wl) as [[] Hc].
          exists (clear_logs (monitor self) wl).2. split.
          + rewrite (run_pair (clear_logs (monitor self)) wl) at 1.
            by rewrite Hc.
          + apply respects_clear_logs. by intros x Hx.
        - exists wl. split; [reflexivity|apply extends_refl]. }
      destruct Htail as (wt & Hrun & Et).
      rewrite (try_inr _ _ w wt tt).
      2:{ rewrite (bind_run _ _ w (Some r) Hgen).
          rewrite (bind_run _ _ wg true Hres).
          rewrite (bind_run _ _ ws tt) by reflexivity.
          exact Hrun. }
      split; [reflexivity|].
      destruct Et as [[evt [Tt Ft]] _ _ _ _ _ _ Lt].
      exists (evs ++ evt)%list. cbn [snd].
      split; [rewrite Tt; subst wl; simpl; by rewrite T, Tg, app_assoc|].
      rewrite reports_delivered_app, A.
      rewrite (reports_delivered_quiet is_file_event evt) by (by intros [] || done).
      split; [lia|]. split; [intros _; by rewrite Lt|].
      unfold calls_send_report in *. by rewrite existsb_app, Hcall.
    + rewrite (try_inr _ _ w ws tt).
      2:{ rewrite (bind_run _ _ w (Some r) Hgen).
          rewrite (bind_run _ _ wg false Hres). reflexivity. }
      split; [reflexivity|]. exists evs. cbn [snd].
      split; [by rewrite T, Tg|]. rewrite A.
      split; [lia|]. split; [lia|exact Hcall].
Qed.

(** One pass of the report loop. *)
Lemma tick_spec (self : RenderServiceManager) (w : World) :
  let t := tick_time w in
  let w' := (check_reporting_schedule_tick self w).2 in
  (check_reporting_schedule_tick self w).1 = inr tt
  ∧ ∃ evs,
      w_trace w' = (w_trace w ++ evs)%list
      ∧ (reports_delivered evs ≤ 1)%nat
      ∧ (reports_delivered evs = 1%nat →
         w_last_report_date w' = Some (dt_date t))
      ∧ (w_last_report_date w = Some (dt_date t) →
         reports_delivered evs = 0%nat
         ∧ w_last_report_date w' = Some (dt_date t))
      ∧ calls_send_report evs
        = should_send_report t (w_last_report_date w)
          && negb (bool_decide
                     (window (w_logs w) (Some (minus_one_day t)) (Some t)
                      = [])).
Proof.
  intros t w'. subst w'. unfold check_reporting_schedule_tick.
  rewrite (bind_run now _ w t) by reflexivity.
  set (w0 := (now w).2).
  rewrite (bind_run get_last_report_date _ w0 (w_last_report_date w))
    by reflexivity.
  change (get_last_report_date w0).2 with w0.
  destruct (should_send_report t (w_last_report_date w)) eqn:Hshould.
  - destruct (midnight_report_spec self t w0)
      as (Hres & evs & T & Hle & Hlast & Hcall).
    rewrite (bind_run _ _ w0 tt Hres).
    set (wm := (midnight_report self t w0).2) in *.
    split; [reflexivity|]. exists (evs ++ [EvSleep 120])%list.
    split; [simpl; rewrite T; subst w0; simpl; by rewrite app_assoc|].
    rewrite reports_delivered_app.
    change (reports_delivered [EvSleep 120]) with 0%nat.
    rewrite Nat.add_0_r. split; [exact Hle|]. split; [exact Hlast|].
    split.
    + intros Hsame. unfold should_send_report in Hshould.
      rewrite bool_decide_eq_true_2 in Hshould by done.
      by rewrite andb_false_r in Hshould.
    + unfold calls_send_report in *. rewrite existsb_app, Hcall.
      cbn [existsb is_send_report orb andb]. by rewrite orb_false_r.
  - split; [reflexivity|]. exists [EvSleep 30].
    split; [reflexivity|]. split; [unfold reports_delivered; simpl; lia|].
    split; [done|]. split; [|reflexivity].
    intros Hsame. split; [reflexivity|exact Hsame].
Qed.

Lemma check_reporting_schedule_S (self : RenderServiceManager) (n : nat)
    (w : World) :
  check_reporting_schedule self (S n) w
  = check_reporting_schedule self n (check_reporting_schedule_tick self w).2.
Proof.
  cbn [check_reporting_schedule].
  destruct (tick_spec self w) as [Hres _]. by rewrite (bind_run _ _ w tt Hres).
Qed.

(** Over any number of passes whose instants all fall on one calendar date,
    the report is delivered at most once, and not at all if the date is
    already recorded. *)
Lemma ticks_same_date_deliver_once (self : RenderServiceManager) (D : Z)
    (n : nat) (w : World) :
  (∀ t, t ∈ tick_times self n w → dt_date t = D) →
  ∃ evs,
    w_trace (check_reporting_schedule self n w).2 = (w_trace w ++ evs)%list
    ∧ (reports_delivered evs ≤ 1)%nat
    ∧ (w_last_report_date w = Some D → reports_delivered evs = 0%nat).
Proof.
  revert w. induction n as [|n IH]; intros w Hdates.
  - exists []. simpl. rewrite app_nil_r. unfold reports_delivered. simpl.
    split; [done|]. split; [lia|done].
  - rewrite check_reporting_schedule_S.
    destruct (tick_spec self w) as (_ & e1 & T1 & Hle & Hlast & Hsame & _).
    set (w1 := (check_reporting_schedule_tick self w).2) in *.
    assert (Ht : dt_date (tick_time w) = D) by (apply Hdates; left).
    rewrite Ht in *.
    destruct (IH w1) as (e2 & T2 & Hle2 & Hsame2).
    { intros t Hin. apply Hdates. by right. }
    exists (e1 ++ e2)%list.
    split; [by rewrite T2, T1, app_assoc|].
    rewrite reports_delivered_app. split.
    + destruct (reports_delivered e1) as [|[|k]] eqn:Hk; [lia| |lia].
      rewrite (Hsame2 (Hlast eq_refl)). lia.
    + intros HD. destruct (Hsame HD) as [H0 HD1].
      rewrite H0, (Hsame2 HD1). lia.
Qed.

(** C7 (as stated, refuted). The configured schedule is not consulted: with
    ["06:30"] configured, a pass at 06:30 with no report yet sent that day
    and a record in the log only sleeps, while a pass at 00:00 calls
    [send_report]. *)
Lemma schedule_setting_ignored :
  reporting_schedule manager_scheduled_0630 = "06:30"
  ∧ hhmm half_past_six = reporting_schedule manager_scheduled_0630
  ∧ w_last_report_date (world_at half_past_six) = None
  ∧ events_since (world_at half_past_six)
      (check_reporting_schedule_tick manager_scheduled_0630
         (world_at half_past_six)).2
    = [EvSleep 30]
  ∧ hhmm 0 ≠ reporting_schedule manager_scheduled_0630
  ∧ calls_send_report
      (events_since (world_at 0)
         (check_reporting_schedule_tick manager_scheduled_0630
            (world_at 0)).2)
    = true.
Proof.
  split; [reflexivity|]. split; [vm_compute; reflexivity|].
  split; [reflexivity|]. split; [vm_compute; reflexivity|].
  split; [vm_compute; discriminate|].
  vm_compute; reflexivity.
Qed.

(** C7 (amended). A pass of the report loop calls [send_report] exactly when
    the wall clock reads hour 0 and minute 0, whatever schedule is
    configured, and the last report date is not the current date (given that
    the past 24 hours hold a record to report); and over consecutive passes
    that fall on one calendar date the report is delivered at most once. *)
Theorem daily_report_at_midnight_once (self : RenderServiceManager)
    (w : World) (n : nat) :
  let t := tick_time w in
  (window (w_logs w) (Some (minus_one_day t)) (Some t) ≠ [] →
   (calls_send_report
      (events_since w (check_reporting_schedule_tick self w).2) = true
    ↔ dt_hour t = 0 ∧ dt_minute t = 0
      ∧ w_last_report_date w ≠ Some (dt_date t)))
  ∧ ((∀ t', t' ∈ tick_times self n w → dt_date t' = dt_date t) →
     (reports_delivered
        (events_since w (check_reporting_schedule self n w).2) ≤ 1)%nat).
Proof.
  intros t. split.
  - intros Hdata.
    destruct (tick_spec self w) as (_ & evs & T & _ & _ & _ & Hcall).
    rewrite (events_since_app _ _ _ T), Hcall.
    fold t. rewrite bool_decide_eq_false_2 by done.
    rewrite andb_true_r. unfold should_send_report.
    rewrite !andb_true_iff, negb_true_iff, !Z.eqb_eq.
    destruct (decide (w_last_report_date w = Some (dt_date t))) as [Heq|Hne].
    + rewrite bool_decide_eq_true_2 by done. intuition congruence.
    + rewrite bool_decide_eq_false_2 by done. tauto.
  - intros Hdates.
    destruct (ticks_same_date_deliver_once self (dt_date t) n w Hdates)
      as (evs & T & Hle & _).
    by rewrite (events_since_app _ _ _ T).
Qed.

Lemma daily_report_at_midnight_once_witness :
  let w := world_at 0 in
  window (w_logs w) (Some (minus_one_day (tick_time w))) (Some (tick_time w))
  ≠ []
  ∧ (∀ t', t' ∈ tick_times sample_manager 2 w →
           dt_date t' = dt_date (tick_time w))
  ∧ calls_send_report
      (events_since w (check_reporting_schedule_tick sample_manager w).2)
    = true
  ∧ (reports_delivered
       (events_since w (check_reporting_schedule sample_manager 2 w).2)
     ≤ 1)%nat
  ∧ reports_delivered
      (events_since w (check_reporting_schedule sample_manager 2 w).2)
    = 1%nat.
Proof.
  intros w.
  assert (Hdata : window (w_logs w) (Some (minus_one_day (tick_time w)))
                    (Some (tick_time w)) ≠ []) by (vm_compute; discriminate).
  assert (Hdates : ∀ t', t' ∈ tick_times sample_manager 2 w →
                         dt_date t' = dt_date (tick_time w)).
  { intros t' Hin. vm_compute in Hin.
    apply list_elem_of_In in Hin. simpl in Hin.
    destruct Hin as [<-|[<-|[]]]; reflexivity. }
  destruct (daily_report_at_midnight_once sample_manager w 2) as [HA HB].
  split; [exact Hdata|]. split; [exact Hdates|].
  split; [apply (HA Hdata); vm_compute; repeat split; discriminate|].
  split; [exact (HB Hdates)|]. vm_compute; reflexivity.
Defined.

(** ** Checks of the helper functions on sample values *)

Example replace_extension :
  replace ".json" ".html" "logs/alert_backups/alert_test_0.json"
  = "logs/alert_backups/alert_test_0.html".
Proof. reflexivity. Qed.

Example rstrip_slash_trailing :
  rstrip_slash "https://example.onrender.com//" = "https://example.onrender.com".
Proof. reflexivity. Qed.

Example upper_mixed_case : upper "Head" = "HEAD".
Proof. reflexivity. Qed.

Example lower_alert_type : lower "DOWNTIME" = "downtime".
Proof. reflexivity. Qed.

Example hhmm_half_past_six : hhmm half_past_six = "06:30".
Proof. vm_compute. reflexivity. Qed.

Example round_half_even_tie_down :
  round_half_even (Qc_of_Z 25 / Qc_of_Z 2)%Qc = 12.
Proof. vm_compute. reflexivity. Qed.

Example round_half_even_tie_up :
  round_half_even (Qc_of_Z 27 / Qc_of_Z 2)%Qc = 14.
Proof. vm_compute. reflexivity. Qed.

(** [round_half_even] is a nearest integer: it is off by at most one half. *)
Lemma round_half_even_nearest (x : Qc) :
  2 * Z.abs (round_half_even x * Z.pos (Qden x) - Qnum x) ≤ Z.pos (Qden x).
Proof.
  unfold round_half_even.
  pose proof (Z.div_mod (Qnum x) (Z.pos (Qden x)) ltac:(lia)) as Hdm.
  pose proof (Z.mod_pos_bound (Qnum x) (Z.pos (Qden x)) ltac:(lia)) as Hr.
  set (q := Qnum x `div` Z.pos (Qden x)) in *.
  set (r := Qnum x `mod` Z.pos (Qden x)) in *.
  destruct (Z.compare_spec (2 * r) (Z.pos (Qden x))) as [Heq|Hlt|Hgt];
    [destruct (Z.even q)| |]; nia.
Qed.

(** A report built without window bounds, as [generate_report()] gives it,
    cannot be rendered either: [fromisoformat(None)] raises. *)
Lemma format_report_email_unbounded (self : ServiceReporter) (r : Report)
    (w : World) :
  start_time r = None →
  (format_report_email self r w).1 = inl TypeError.
Proof. intros H. unfold format_report_email. by rewrite H. Qed.

(** * Further properties of the sources *)

(** ** keep_alive.py *)

Lemma verb_of_cascade (method0 : string) :
  (if String.eqb (upper method0) "GET" then "GET"
   else if String.eqb (upper method0) "HEAD" then "HEAD" else "GET")
  = verb_of method0.
Proof.
  unfold verb_of.
  destruct (String.eqb_spec (upper method0) "GET") as [->|_]; [reflexivity|].
  by destruct (String.eqb (upper method0) "HEAD").
Qed.

(** What [ping_endpoint] does in any world, in one statement. *)
Lemma ping_endpoint_run (self : RenderKeepAlive) (e m : string) (w : World) :
  ∃ r,
    (ping_endpoint self e m w).1 = inr r
    ∧ w_trace (ping_endpoint self e m w).2
      = (w_trace w ++ [request_of self (e, m)])%list
    ∧ endpoint r = e ∧ method r = m ∧ url r = ka_base_url self +:+ e
    ∧ match w_http w (w_nhttp w) with
      | Response c =>
          status_code r = Some c
          ∧ response_time_ms r
            = Some ((w_clock w (S (S (w_nclock w))) - w_clock w (w_nclock w))
                    `quot` 1000)
          ∧ (if c <? 400 then status r = "UP" ∧ error r = None
             else status r = "DOWN" ∧ error r = Some ("HTTP " +:+ pretty c))
      | Raises x =>
          status r = "DOWN" ∧ status_code r = None
          ∧ (∃ msg, error r = Some msg)
          ∧ response_time_ms r
            = match x with
              | RequestsTimeout => Some (ka_timeout self * 1000)
              | _ => None
              end
      end.
Proof.
  unfold request_of. cbn [fst snd]. rewrite <- verb_of_cascade.
  unfold ping_endpoint, bind, try_except, now, http_request; simpl.
  destruct (w_http w (w_nhttp w)) as [c|x] eqn:Hhttp.
  - destruct (String.eqb (upper m) "GET");
      [|destruct (String.eqb (upper m) "HEAD")];
      simpl; rewrite Hhttp; simpl;
      destruct (c <? 400); simpl; eexists; repeat split; reflexivity.
  - destruct (String.eqb (upper m) "GET");
      [|destruct (String.eqb (upper m) "HEAD")];
      simpl; rewrite Hhttp; simpl; destruct x; simpl;
      eexists; repeat split; try reflexivity; eexists; reflexivity.
Qed.

(** X1. A call of [ping_endpoint] issues exactly one HTTP request, to
    [base_url + endpoint] with the configured timeout; the verb is HEAD when
    the method, in any letter case, is HEAD, and GET for every other method. *)
Theorem ping_endpoint_one_request (self : RenderKeepAlive) (e m : string)
    (w : World) :
  events_since w (ping_endpoint self e m w).2
  = [EvHttp (if String.eqb (upper m) "HEAD" then "HEAD" else "GET")
       (ka_base_url self +:+ e) (ka_timeout self)].
Proof.
  destruct (ping_endpoint_run self e m w) as (r & _ & T & _).
  by rewrite (events_since_app _ _ _ T).
Qed.

(** X2. Every result of [ping_endpoint] is UP or DOWN; it is UP exactly when
    it carries no error message, and an UP result records its status code,
    below 400, and its response time. *)
Theorem ping_endpoint_status_and_error (self : RenderKeepAlive) (e m : string)
    (w : World) :
  ∃ r,
    (ping_endpoint self e m w).1 = inr r
    ∧ (status r = "UP" ∨ status r = "DOWN")
    ∧ (status r = "UP" ↔ error r = None)
    ∧ (status r = "UP" →
       (∃ c, status_code r = Some c ∧ c < 400)
       ∧ ∃ ms, response_time_ms r = Some ms).
Proof.
  destruct (ping_endpoint_run self e m w) as (r & Hr & _ & _ & _ & _ & H).
  exists r. split; [exact Hr|].
  destruct (w_http w (w_nhttp w)) as [c|x].
  - destruct H as (Hc & Hms & Hst). destruct (Z.ltb_spec c 400).
    + destruct Hst as [-> ->]. repeat split; eauto.
    + destruct Hst as [-> ->]. repeat split; eauto; discriminate.
  - destruct H as (-> & _ & [msg ->] & _).
    repeat split; eauto; discriminate.
Qed.

(** X3. When the request times out, the result is DOWN with no status code,
    its response time is the timeout itself in milliseconds, and its error
    names the timeout; any other exception leaves the response time unset. *)
Theorem ping_endpoint_on_exception (self : RenderKeepAlive) (e m : string)
    (w : World) (x : PyExn) :
  w_http w (w_nhttp w) = Raises x →
  ∃ r,
    (ping_endpoint self e m w).1 = inr r
    ∧ status r = "DOWN"
    ∧ status_code r = None
    ∧ (x = RequestsTimeout →
       response_time_ms r = Some (ka_timeout self * 1000)
       ∧ error r = Some ("Request timeout after "
                         +:+ pretty (ka_timeout self) +:+ "s"))
    ∧ (x ≠ RequestsTimeout → response_time_ms r = None).
Proof.
  intros Hx.
  unfold ping_endpoint, bind, try_except, now, http_request; simpl.
  destruct (String.eqb (upper m) "GET");
    [|destruct (String.eqb (upper m) "HEAD")];
    simpl; rewrite Hx; simpl; destruct x; simpl;
    eexists; repeat split; try reflexivity; try discriminate; done.
Qed.

Lemma ping_endpoint_on_exception_witness :
  let w := fresh_world (λ _, 0) (λ _, Raises RequestsTimeout)
             (λ _, true) (λ _, true) in
  w_http w (w_nhttp w) = Raises RequestsTimeout
  ∧ ∃ r,
      (ping_endpoint (keep_alive sample_manager) "/ping" "GET" w).1 = inr r
      ∧ status r = "DOWN"
      ∧ response_time_ms r = Some 10000.
Proof.
  intros w. split; [reflexivity|].
  destruct (ping_endpoint_on_exception (keep_alive sample_manager)
              "/ping" "GET" w RequestsTimeout eq_refl)
    as (r & Hr & Hs & _ & Ht & _).
  exists r. split; [exact Hr|]. split; [exact Hs|].
  exact (proj1 (Ht eq_refl)).
Defined.

Lemma ping_endpoint_ok (self : RenderKeepAlive) (e m : string) (w : World)
    (r : ProbeResult) :
  (ping_endpoint self e m w).1 = inr r → probe_result_ok r.
Proof.
  intros Hr.
  destruct (ping_endpoint_run self e m w) as (r' & Hr' & _ & _ & _ & _ & H).
  rewrite Hr in Hr'. injection Hr' as <-. unfold probe_result_ok.
  destruct (w_http w (w_nhttp w)) as [c|x].
  - destruct H as (_ & _ & Hst).
    destruct (c <? 400); destruct Hst as [Hs He]; rewrite Hs, He;
      split; eauto; split; discriminate || done.
  - destruct H as (Hs & _ & [msg He] & _). rewrite Hs, He.
    split; eauto; split; discriminate.
Qed.

Lemma ret_run {A} (a : A) (w : World) : ret a w = (inr a, w).
Proof. reflexivity. Qed.

Lemma ping_methods_run (self : RenderKeepAlive) (e : string)
    (ms : list string) (w : World) :
  ∃ rs,
    (ping_methods self e ms w).1 = inr rs
    ∧ w_trace (ping_methods self e ms w).2
      = (w_trace w ++ map (request_of self) (map (pair e) ms))%list
    ∧ map (λ r, (endpoint r, method r)) rs = map (pair e) ms
    ∧ Forall probe_result_ok rs.
Proof.
  revert w. induction ms as [|m ms IH]; intros w.
  - exists []. cbn. by rewrite app_nil_r.
  - cbn [ping_methods].
    destruct (ping_endpoint_run self e m w) as (r & Hr & T & He & Hm & _).
    rewrite (bind_run _ _ w r Hr).
    destruct (IH (ping_endpoint self e m w).2) as (rs & Hrs & Ts & Hpairs & Hok).
    rewrite (bind_run _ _ _ rs Hrs).
    rewrite ret_run. cbn [fst snd].
    exists (r :: rs). split; [reflexivity|]. split; [|split].
    + rewrite Ts, T, <- app_assoc. reflexivity.
    + cbn [map]. by rewrite He, Hm, Hpairs.
    + constructor; [by eapply ping_endpoint_ok|exact Hok].
Qed.

Lemma ping_endpoints_run (self : RenderKeepAlive) (es : list string)
    (w : World) :
  ∃ rs,
    (ping_endpoints self es w).1 = inr rs
    ∧ w_trace (ping_endpoints self es w).2
      = (w_trace w
         ++ map (request_of self) (list_prod es (ka_methods self)))%list
    ∧ map (λ r, (endpoint r, method r)) rs = list_prod es (ka_methods self)
    ∧ Forall probe_result_ok rs.
Proof.
  revert w. induction es as [|e es IH]; intros w.
  - exists []. cbn. by rewrite app_nil_r.
  - cbn [ping_endpoints list_prod].
    destruct (ping_methods_run self e (ka_methods self) w)
      as (r1 & Hr1 & T1 & P1 & O1).
    rewrite (bind_run _ _ w r1 Hr1).
    destruct (IH (ping_methods self e (ka_methods self) w).2)
      as (r2 & Hr2 & T2 & P2 & O2).
    rewrite (bind_run _ _ _ r2 Hr2).
    rewrite ret_run. cbn [fst snd].
    exists (r1 ++ r2)%list. split; [reflexivity|]. split; [|split].
    + rewrite T2, T1, <- app_assoc, map_app. reflexivity.
    + by rewrite map_app, P1, P2.
    + by apply Forall_app.
Qed.

(** X4. [ping_all_endpoints] never raises and probes the cartesian product
    of the configured endpoints and methods, endpoint by endpoint: it issues
    exactly one request per pair, in that order, and returns one result per
    pair, in the same order. *)
Theorem ping_all_endpoints_cartesian (self : RenderKeepAlive) (w : World) :
  ∃ results,
    (ping_all_endpoints self w).1 = inr results
    ∧ map (λ r, (endpoint r, method r)) results = endpoint_method_pairs self
    ∧ events_since w (ping_all_endpoints self w).2
      = map (request_of self) (endpoint_method_pairs self)
    ∧ length results
      = (length (ka_endpoints self) * length (ka_methods self))%nat.
Proof.
  unfold ping_all_endpoints, endpoint_method_pairs.
  destruct (ping_endpoints_run self (ka_endpoints self) w)
    as (rs & Hrs & T & P & _).
  exists rs. split; [exact Hrs|]. split; [exact P|].
  split; [by rewrite (events_since_app _ _ _ T)|].
  rewrite <- (length_map (λ r, (endpoint r, method r)) rs), P.
  apply length_prod.
Qed.

Lemma rstrip_slash_spec (s : string) :
  (∃ n, s = rstrip_slash s +:+ slashes n)
  ∧ last_char (rstrip_slash s) ≠ Some "/"%char.
Proof.
  induction s as [|c s [[n Hn] Hlast]]; [split; [by exists 0%nat|done]|].
  cbn [rstrip_slash]. destruct (rstrip_slash s) as [|c' r] eqn:Hr.
  - destruct (Ascii.eqb_spec c "/") as [->|Hc].
    + split; [|done]. exists (S n). cbn. by rewrite Hn at 1.
    + split; [|cbn; congruence]. exists n. cbn. by rewrite Hn at 1.
  - split; [|exact Hlast]. exists n.
    change (String c (String c' r) +:+ slashes n)
      with (String c (String c' r +:+ slashes n)).
    by rewrite <- Hn.
Qed.

(** X5. [RenderKeepAlive.__init__] strips every trailing slash of the base
    URL and nothing else, and never leaves the endpoint or method list empty:
    a missing or empty list is replaced by the built-in one, any other list
    is kept. *)
Theorem RenderKeepAlive_init_normalises (base_url0 : string)
    (endpoints methods : option (list string)) (timeout : Z) :
  let self := RenderKeepAlive_init base_url0 endpoints methods timeout in
  (∃ n, base_url0 = ka_base_url self +:+ slashes n)
  ∧ last_char (ka_base_url self) ≠ Some "/"%char
  ∧ ka_endpoints self
    = match endpoints with
      | None | Some [] => ["/ping"; "/api/health"]
      | Some l => l
      end
  ∧ ka_methods self
    = match methods with
      | None | Some [] => ["GET"; "HEAD"]
      | Some l => l
      end
  ∧ ka_endpoints self ≠ [] ∧ ka_methods self ≠ [].
Proof.
  intros self. subst self. unfold RenderKeepAlive_init.
  cbn [ka_base_url ka_endpoints ka_methods].
  split; [|split].
  - destruct (String.eqb_spec base_url0 "") as [->|_]; [by exists 0%nat|].
    apply rstrip_slash_spec.
  - destruct (String.eqb base_url0 ""); [done|]. apply rstrip_slash_spec.
  - destruct endpoints as [[|e es]|], methods as [[|m ms]|]; done.
Qed.

(** ** monitoring.py *)

Lemma preserves_ret {X A} (f : World → X) (a : A) : preserves f (ret a).
Proof. by intros w. Qed.

Lemma preserves_raise {X A} (f : World → X) (e : PyExn) :
  preserves f (raise (A:=A) e).
Proof. by intros w. Qed.

Lemma preserves_bind {X A B} (f : World → X) (c : M A) (k : A → M B) :
  preserves f c → (∀ a, preserves f (k a)) → preserves f (bind c k).
Proof.
  intros Hc Hk w. specialize (Hc w). unfold bind.
  destruct (c w) as [[e|a] w1]; [exact Hc|].
  rewrite <- Hc. apply Hk.
Qed.

Lemma preserves_try {X A} (f : World → X) (c : M A) (h : PyExn → M A) :
  preserves f c → (∀ e, preserves f (h e)) → preserves f (try_except c h).
Proof.
  intros Hc Hh w. specialize (Hc w). unfold try_except.
  destruct (c w) as [[e|a] w1]; [|exact Hc].
  rewrite <- Hc. apply Hh.
Qed.

Lemma preserves_for_each {X A} (f : World → X) (l : list A)
    (body : A → M unit) :
  (∀ x, preserves f (body x)) → preserves f (for_each l body).
Proof.
  intros Hb. induction l as [|x l IH]; cbn [for_each].
  - apply preserves_ret.
  - apply preserves_bind; [apply Hb | intros _; exact IH].
Qed.

(** A primitive that does not write what [f] reads. *)
Ltac preserves_prim :=
  let w := fresh "w" in
  intros w;
  unfold emit, now, sleep, http_request, disk_op, set_file, smtp_session,
    get_logs_attr, set_logs_attr, has_down_notified, set_down_notified,
    get_last_report_date, set_last_report_date, raise;
  repeat case_match; reflexivity.

Ltac preserves_step :=
  lazymatch goal with
  | |- preserves _ (ret _) => apply preserves_ret
  | |- preserves _ (raise _) => apply preserves_raise
  | |- preserves _ (bind _ _) => apply preserves_bind; [|intros ?]
  | |- preserves _ (try_except _ _) => apply preserves_try; [|intros ?]
  | |- preserves _ (for_each _ _) => apply preserves_for_each; intros ?
  | |- preserves _ (if ?b then _ else _) => destruct b
  | |- preserves _ (match ?x with _ => _ end) => destruct x
  | |- preserves _ (let _ := _ in _) => cbv zeta
  | |- preserves _ (open_w _) => unfold open_w
  | |- preserves _ (write _ _) => unfold write
  | |- preserves _ (emit _) => preserves_prim
  | |- preserves _ now => preserves_prim
  | |- preserves _ (sleep _) => preserves_prim
  | |- preserves _ (http_request _ _ _) => preserves_prim
  | |- preserves _ disk_op => preserves_prim
  | |- preserves _ (set_file _ _) => preserves_prim
  | |- preserves _ (smtp_session _) => preserves_prim
  | |- preserves _ get_logs_attr => preserves_prim
  | |- preserves _ (set_logs_attr _) => preserves_prim
  | |- preserves _ has_down_notified => preserves_prim
  | |- preserves _ (set_down_notified _) => preserves_prim
  | |- preserves _ get_last_report_date => preserves_prim
  | |- preserves _ (set_last_report_date _) => preserves_prim
  end.

Ltac keeps := repeat preserves_step.

Lemma preserves_logs_ping_all_endpoints (self : RenderKeepAlive) :
  preserves w_logs (ping_all_endpoints self).
Proof.
  unfold ping_all_endpoints.
  induction (ka_endpoints self) as [|e es IH]; cbn [ping_endpoints]; keeps;
    [|exact IH].
  induction (ka_methods self) as [|m ms IHm]; cbn [ping_methods]; keeps;
    [|exact IHm].
  unfold ping_endpoint. keeps.
Qed.

Lemma preserves_logs_format_alert_email (self : ServiceReporter) (a : Alert) :
  preserves w_logs (format_alert_email self a).
Proof. unfold format_alert_email. keeps. Qed.

Lemma preserves_logs_format_report_email (self : ServiceReporter)
    (r : Report) :
  preserves w_logs (format_report_email self r).
Proof. unfold format_report_email. keeps. Qed.

Lemma preserves_logs_send_alert (self : ServiceReporter) (a : Alert) :
  preserves w_logs (send_alert self a).
Proof.
  unfold send_alert, _save_alert_backup, send_alert_email. keeps;
    apply preserves_logs_format_alert_email.
Qed.

Lemma preserves_logs_send_report (self : ServiceReporter) (r : Report)
    (n d : Z) :
  preserves w_logs (send_report self r n d).
Proof.
  unfold send_report, _save_report_backup. keeps.
  - apply preserves_logs_format_report_email.
  - induction (range n) as [|i l IH]; cbn [send_report_loop]; keeps;
      try exact IH.
    unfold send_report_email. keeps. apply preserves_logs_format_report_email.
Qed.

(** What [log_ping] does in any world. *)
Lemma log_ping_run (self : ServiceMonitor) (e m s : string) (ms : option Z)
    (err : option string) (code : option Z) (w : World) :
  let entry :=
    {| log_timestamp := w_clock w (w_nclock w); log_endpoint := e;
       log_method := m; log_status := s; log_response_time_ms := ms;
       log_status_code := code; log_error := err |} in
  let w' := (log_ping self e m s ms err code w).2 in
  (log_ping self e m s ms err code w).1 = inr entry
  ∧ w_logs w' = (w_logs w ++ [entry])%list
  ∧ w_fs w' = (if w_disk w (w_ndisk w)
               then <[log_file self := FJsonLogs (w_logs w ++ [entry])]>
                      (<[log_file self := FEmpty]> (w_fs w))
               else w_fs w).
Proof.
  unfold log_ping, _save_logs, open_w, write, bind, try_except, now,
    get_logs_attr, set_logs_attr, disk_op, emit, set_file, ret, raise.
  cbn. destruct (w_disk w (w_ndisk w)); cbn; done.
Qed.


Lemma save_logs_run (self : ServiceMonitor) (w : World) :
  (_save_logs self w).1 = inr tt
  ∧ w_logs (_save_logs self w).2 = w_logs w
  ∧ w_fs (_save_logs self w).2
    = (if w_disk w (w_ndisk w)
       then <[log_file self := FJsonLogs (w_logs w)]>
              (<[log_file self := FEmpty]> (w_fs w))
       else w_fs w).
Proof.
  unfold _save_logs, open_w, write, bind, try_except,
    get_logs_attr, disk_op, emit, set_file, ret, raise.
  cbn. destruct (w_disk w (w_ndisk w)); cbn; done.
Qed.





Lemma get_logs_loop_sublist (s e : option Z) (logs : list LogEntry) :
  sublist (get_logs_loop s e logs) logs.
Proof.
  induction logs as [|log rest IH]; cbn [get_logs_loop]; [constructor|].
  repeat case_match; by constructor.
Qed.

(** X10. [get_logs] returns exactly the stored records of the window, in
    their stored order and each as often as it is stored: the records whose
    timestamp is not before the start, when a start is given, and not after
    the end, when an end is given; it changes nothing. So the result is a
    sublist of the store, with no bound it is the whole store, and with a
    start after the end it is empty. *)
Theorem get_logs_exact_window (self : ServiceMonitor) (s e : option Z)
    (w : World) :
  ∃ logs,
    get_logs self s e w = (inr logs, w)
    ∧ logs = List.filter (λ log, in_window s e (log_timestamp log)) (w_logs w)
    ∧ sublist logs (w_logs w)
    ∧ (s = None → e = None → logs = w_logs w)
    ∧ (∀ s0 e0, s = Some s0 → e = Some e0 → e0 < s0 → logs = []).
Proof.
  exists (window (w_logs w) s e). split; [reflexivity|].
  assert (Hfilter : window (w_logs w) s e
            = List.filter (λ log, in_window s e (log_timestamp log))
                (w_logs w)).
  { assert (Hloop : get_logs_loop s e (w_logs w)
              = List.filter (λ log, in_window s e (log_timestamp log))
                  (w_logs w)).
    { rewrite get_logs_loop_filter. apply filter_ext. intros log.
      unfold in_window. f_equal.
      - destruct s as [s0|]; [|done]. cbn.
        destruct (Z.ltb_spec (log_timestamp log) s0),
                 (Z.leb_spec s0 (log_timestamp log)); done || lia.
      - destruct e as [e0|]; [|done]. cbn. rewrite Z.gtb_ltb.
        destruct (Z.ltb_spec e0 (log_timestamp log)),
                 (Z.leb_spec (log_timestamp log) e0); done || lia. }
    unfold window. destruct s, e; try exact Hloop. clear Hloop.
    induction (w_logs w) as [|log rest IH]; [done|].
    cbn [List.filter].
    change (in_window None None (log_timestamp log)) with true.
    by rewrite <- IH. }
  split; [exact Hfilter|]. split; [|split].
  - unfold window. destruct s, e; try apply get_logs_loop_sublist.
    reflexivity.
  - by intros -> ->.
  - intros s0 e0 -> -> Hlt. rewrite Hfilter. clear Hfilter.
    induction (w_logs w) as [|log rest IH]; [done|]. cbn [List.filter].
    rewrite IH. unfold in_window.
    destruct (Z.leb_spec s0 (log_timestamp log)),
             (Z.leb_spec (log_timestamp log) e0); done || lia.
Qed.

Lemma collect_incidents_map (logs : list LogEntry) :
  collect_incidents logs = map incident_of (List.filter is_down logs).
Proof.
  induction logs as [|log rest IH]; [done|]. cbn [collect_incidents List.filter].
  destruct (is_down log); cbn [map]; by rewrite IH.
Qed.

Lemma up_down_counts (logs : list LogEntry) :
  count_up logs + Z.of_nat (length (List.filter is_down logs))
  ≤ Z.of_nat (length logs)
  ∧ (count_up logs + Z.of_nat (length (List.filter is_down logs))
     = Z.of_nat (length logs)
     ↔ Forall (λ log, log_status log = "UP" ∨ log_status log = "DOWN") logs).
Proof.
  induction logs as [|log rest [IHle IHeq]]; [split; [done|]; by split|].
  cbn [count_up List.filter]. rewrite Forall_cons.
  destruct (is_up log) eqn:Hu, (is_down log) eqn:Hd; cbn [length];
    unfold is_up, is_down in Hu, Hd;
    [apply String.eqb_eq in Hu, Hd
    |apply String.eqb_eq in Hu; apply String.eqb_neq in Hd
    |apply String.eqb_neq in Hu; apply String.eqb_eq in Hd
    |apply String.eqb_neq in Hu, Hd].
  - congruence.
  - split; [lia|]. split.
    + intros H. split; [by left|]. apply IHeq. lia.
    + intros [_ H]. apply IHeq in H. lia.
  - split; [lia|]. split.
    + intros H. split; [by right|]. apply IHeq. lia.
    + intros [_ H]. apply IHeq in H. lia.
  - split; [lia|]. split; [lia|]. intros [[?|?] _]; done.
Qed.

(** X11. The incident list of a report holds one incident for every record
    of the window whose status is the string DOWN, in the records' order; a
    record that is neither UP nor DOWN is counted in [downtime_count] but
    listed nowhere, so the list is as long as [downtime_count] exactly when
    every record of the window is UP or DOWN. *)
Theorem report_incidents_are_down_records (self : ServiceMonitor)
    (s e : option Z) (w : World) (r : Report) :
  (generate_report self s e w).1 = inr (Some r) →
  let logs := window (w_logs w) s e in
  downtime_incidents r = map incident_of (List.filter is_down logs)
  ∧ Z.of_nat (length (downtime_incidents r)) ≤ downtime_count r
  ∧ (Z.of_nat (length (downtime_incidents r)) = downtime_count r
     ↔ Forall (λ log, log_status log = "UP" ∨ log_status log = "DOWN") logs).
Proof.
  rewrite generate_report_result. intros Hr logs. subst logs.
  destruct (window (w_logs w) s e) as [|l0 rest]; [discriminate|].
  cbv zeta in Hr. remember (l0 :: rest) as logs eqn:Hlogs.
  injection Hr as <-.
  cbn [downtime_incidents downtime_count].
  rewrite collect_incidents_map, length_map.
  destruct (up_down_counts logs) as [Hle Heq].
  split; [reflexivity|]. split; [lia|]. rewrite <- Heq. lia.
Qed.

Lemma report_incidents_are_down_records_witness :
  let logs := [entry_at 1 "UP" (Some 40); entry_at 2 "DOWN" None;
               entry_at 3 "503" None] in
  ∃ r,
    (generate_report default_monitor None None (world_with_logs logs)).1
    = inr (Some r)
    ∧ downtime_incidents r = [incident_of (entry_at 2 "DOWN" None)]
    ∧ downtime_count r = 2.
Proof.
  intros logs. eexists. split; [reflexivity|].
  split; [|reflexivity].
  exact (proj1 (report_incidents_are_down_records default_monitor None None
                  (world_with_logs logs) _ eq_refl)).
Defined.

(** X12. Every report has between 0 and its total of UP checks, a
    non-negative [downtime_count], at least one check, and an uptime
    percentage, as the float the source computes, between 0 and 100. When
    every check of the window is UP the percentage is exactly 100; and for
    a window of at most 2^53 records (any list that fits in memory) the
    converse holds: with a single check that is not UP the float is at most
    [100 - 2^-46], the largest float below 100. *)
Theorem report_counts_in_range (self : ServiceMonitor) (s e : option Z)
    (w : World) (r : Report) :
  (generate_report self s e w).1 = inr (Some r) →
  0 < total_checks r
  ∧ 0 ≤ uptime_count r ≤ total_checks r
  ∧ 0 ≤ downtime_count r
  ∧ (Qc_of_Z 0 ≤ uptime_percentage r ≤ Qc_of_Z 100)%Qc
  ∧ (downtime_count r = 0 → uptime_percentage r = Qc_of_Z 100)
  ∧ (total_checks r ≤ 2 ^ 53 →
     (uptime_percentage r = Qc_of_Z 100 ↔ downtime_count r = 0)
     ∧ (downtime_count r ≠ 0 → (uptime_percentage r ≤ below_100)%Qc)).
Proof.
  rewrite generate_report_result. intros Hr.
  destruct (window (w_logs w) s e) as [|l0 rest]; [discriminate|].
  cbv zeta in Hr. remember (l0 :: rest) as logs eqn:Hlogs.
  injection Hr as <-.
  cbn [total_checks uptime_count downtime_count uptime_percentage].
  pose proof (count_up_range logs) as Hrange.
  set (n := Z.of_nat (length logs)) in *.
  set (u := count_up logs) in *.
  assert (Hn : 0 < n) by (subst n logs; cbn [length]; lia).
  split; [exact Hn|]. split; [exact Hrange|]. split; [lia|].
  split; [by apply percentage_range|].
  assert (Hall : n - u = 0 → percentage u n = Qc_of_Z 100).
  { intros Hd. replace u with n by lia. by apply percentage_all_up. }
  split; [exact Hall|]. intros Hbig.
  assert (Hsome : n - u ≠ 0 → (percentage u n ≤ below_100)%Qc).
  { intros Hd. apply percentage_some_down; lia. }
  split; [|exact Hsome]. split; [|exact Hall].
  intros Heq. destruct (Z.eq_dec (n - u) 0) as [|Hd]; [done|exfalso].
  apply Hsome in Hd. rewrite Heq in Hd.
  by apply (Qclt_not_le _ _ below_100_lt).
Qed.

Lemma report_counts_in_range_witness :
  ∃ r,
    (generate_report default_monitor None None
       (world_with_logs [entry_at 1 "UP" (Some 40);
                         entry_at 2 "UP" (Some 60)])).1 = inr (Some r)
    ∧ uptime_percentage r = Qc_of_Z 100.
Proof.
  eexists. split; [reflexivity|].
  destruct (report_counts_in_range default_monitor None None
              (world_with_logs [entry_at 1 "UP" (Some 40);
                                entry_at 2 "UP" (Some 60)]) _ eq_refl)
    as (_ & _ & _ & _ & Hall & _).
  by apply Hall.
Defined.

(** X13. Building a report only reads: [generate_report] leaves the
    monitor's list, the file system and the trace as they were, in every
    world and for every window, and never raises. *)
Theorem generate_report_reads_only (self : ServiceMonitor) (s e : option Z)
    (w : World) :
  let w' := (generate_report self s e w).2 in
  (∃ r, (generate_report self s e w).1 = inr r)
  ∧ w_logs w' = w_logs w
  ∧ w_fs w' = w_fs w
  ∧ w_trace w' = w_trace w.
Proof.
  unfold generate_report, bind. rewrite get_logs_window.
  destruct (window (w_logs w) s e); cbn; eauto.
Qed.

(** ** reporting.py *)

(** X14. Without an SMTP server, user name and password, or without a sender
    and at least one recipient, neither [send_report_email] nor
    [send_alert_email] opens an SMTP session: each returns [False] at once,
    without consulting the server. *)
Theorem email_refused_when_unconfigured (self : ServiceReporter) (r : Report)
    (a : Alert) (w : World) :
  can_deliver self = false →
  (send_report_email self r w).1 = inr false
  ∧ events_since w (send_report_email self r w).2 = [EvSendReportEmail r]
  ∧ w_nsmtp (send_report_email self r w).2 = w_nsmtp w
  ∧ (send_alert_email self a w).1 = inr false
  ∧ events_since w (send_alert_email self a w).2 = [EvSendAlertEmail a]
  ∧ w_nsmtp (send_alert_email self a w).2 = w_nsmtp w.
Proof.
  unfold can_deliver. intros Hcfg.
  unfold send_report_email, send_alert_email.
  rewrite !(bind_run (emit _) _ w tt) by reflexivity.
  destruct (smtp_config_incomplete self); cbn [negb andb] in Hcfg.
  - unfold events_since. cbn. rewrite !drop_app_length. done.
  - destruct (addresses_missing self); [|discriminate].
    unfold events_since. cbn. rewrite !drop_app_length. done.
Qed.

Lemma email_refused_when_unconfigured_witness :
  let self := {| smtp_server := Some "smtp.gmail.com"; smtp_port := 587;
                 smtp_username := None; smtp_password := None;
                 sender_email := None; recipient_emails := [];
                 rep_service_name := "Render Service";
                 rep_base_url := "Not configured" |} in
  can_deliver self = false
  ∧ (send_alert_email self test_alert working_world).1 = inr false
  ∧ events_since working_world
      (send_alert_email self test_alert working_world).2
    = [EvSendAlertEmail test_alert].
Proof.
  intros self.
  assert (Hcfg : can_deliver self = false) by reflexivity.
  split; [exact Hcfg|].
  destruct (email_refused_when_unconfigured self
              {| report_date := 0; start_time := None; end_time := None;
                 total_checks := 0; uptime_count := 0; downtime_count := 0;
                 uptime_percentage := Qc_of_Z 0;
                 average_response_time_ms := None;
                 downtime_incidents := [] |}
              test_alert working_world Hcfg)
    as (_ & _ & _ & Hres & Hev & _).
  split; [exact Hres|exact Hev].
Defined.

(** What [send_alert_email] does in any world. *)
Lemma send_alert_email_run (self : ServiceReporter) (a : Alert) (w : World) :
  ∃ (b : bool) (sessions : list Event),
    (send_alert_email self a w).1 = inr b
    ∧ w_trace (send_alert_email self a w).2
      = (w_trace w ++ EvSendAlertEmail a :: sessions)%list
    ∧ (sessions = [] ∧ b = false ∨ ∃ m, sessions = [EvSmtp m b]).
Proof.
  unfold send_alert_email, format_alert_email.
  rewrite (bind_run (emit _) _ w tt) by reflexivity.
  destruct (smtp_config_incomplete self).
  { exists false, []. cbn. eauto. }
  destruct (addresses_missing self).
  { exists false, []. cbn. eauto. }
  destruct (String.eqb (alert_type a) "DOWNTIME");
    [|destruct (String.eqb (alert_type a) "RECOVERY")];
    unfold try_except, bind, smtp_session, emit, ret, raise; cbn.
  - destruct (w_smtp w (w_nsmtp w)); cbn; eexists _, [_]; cbn;
      rewrite <- app_assoc; eauto.
  - destruct (w_smtp w (w_nsmtp w)); cbn; eexists _, [_]; cbn;
      rewrite <- app_assoc; eauto.
  - exists false, []. eauto.
Qed.

(** X15. An alert gets one try: in every world [send_alert] returns a
    Boolean, calls [send_alert_email] once, opens at most one SMTP session,
    never sleeps, and returns [True] exactly when that one session
    succeeded. *)
Theorem send_alert_single_attempt (self : ServiceReporter) (a : Alert)
    (w : World) :
  let evs := events_since w (send_alert self a w).2 in
  ∃ b : bool,
    (send_alert self a w).1 = inr b
    ∧ length (List.filter is_send_alert_email evs) = 1%nat
    ∧ (length (smtp_sessions evs) ≤ 1)%nat
    ∧ List.filter is_sleep_event evs = []
    ∧ (b = true ↔ ∃ m, smtp_sessions evs = [EvSmtp m true]).
Proof.
  intros evs. subst evs. unfold send_alert.
  rewrite (bind_run _ _ w tt) by reflexivity.
  set (w0 := (emit (EvSendAlert a) w).2).
  destruct (returns_save_alert_backup self a w0) as [[] Hb].
  rewrite (bind_run _ _ w0 tt Hb).
  set (w1 := (_save_alert_backup self a w0).2).
  assert (E1 : extends is_file_event w0 w1)
    by (apply respects_save_alert_backup; by intros e He).
  destruct E1 as [[backup [T1 F1]] _ _ _ _ _ _ _].
  destruct (send_alert_email_run self a w1) as (b & sess & Hres & T2 & Hsess).
  exists b. split; [exact Hres|].
  erewrite events_since_app.
  2:{ rewrite T2, T1. subst w0. cbn. rewrite <- !app_assoc. reflexivity. }
  assert (Hfa : List.filter is_send_alert_email backup = [])
    by (apply (filter_excluded is_file_event); [by intros []|done]).
  assert (Hfs : List.filter is_smtp_event backup = [])
    by (apply (filter_excluded is_file_event); [by intros []|done]).
  assert (Hfz : List.filter is_sleep_event backup = [])
    by (apply (filter_excluded is_file_event); [by intros []|done]).
  unfold smtp_sessions. cbn [app List.filter is_send_alert_email
    is_smtp_event is_sleep_event].
  rewrite !List.filter_app, Hfa, Hfs, Hfz. cbn [app List.filter
    is_send_alert_email is_smtp_event is_sleep_event length].
  destruct Hsess as [[-> ->]|[m ->]]; cbn.
  - repeat split; try done; try lia. intros [m Hm]. discriminate.
  - repeat split; try done; try lia.
    + intros ->. by exists m.
    + intros [m' Hm']. by injection Hm'.
Qed.

(** One delivery attempt of a configured reporter for a report that carries
    its window: the SMTP server is consulted once and decides the result. *)
Lemma send_report_email_outcome (self : ServiceReporter) (r : Report)
    (w : World) :
  can_deliver self = true →
  start_time r ≠ None → end_time r ≠ None →
  let w' := (send_report_email self r w).2 in
  let ok := w_smtp w (w_nsmtp w) in
  (send_report_email self r w).1 = inr ok
  ∧ w_nsmtp w' = S (w_nsmtp w)
  ∧ w_smtp w' = w_smtp w
  ∧ ∃ m, w_trace w' = (w_trace w ++ [EvSendReportEmail r; EvSmtp m ok])%list
         ∧ mail_subject m = SubjDailyReport (rep_service_name self)
         ∧ mail_to m = recipient_emails self.
Proof.
  unfold can_deliver. intros Hcfg Hs He.
  destruct (smtp_config_incomplete self) eqn:H1; [discriminate|].
  destruct (addresses_missing self) eqn:H2; [discriminate|].
  unfold send_report_email, format_report_email.
  rewrite (bind_run (emit _) _ w tt) by reflexivity.
  rewrite H1, H2.
  destruct (start_time r) as [s|]; [|done].
  destruct (end_time r) as [e|]; [|done].
  destruct (tier_of _) as [tier colour].
  unfold try_except, bind, smtp_session, now, emit, ret, raise; cbn.
  destruct (w_smtp w (w_nsmtp w)); cbn; repeat split;
    eexists; rewrite <- app_assoc; cbn; eauto.
Qed.

Lemma send_report_loop_first_success (self : ServiceReporter) (r : Report)
    (retry_delay : Z) (k n i : nat) (w : World) :
  can_deliver self = true →
  start_time r ≠ None → end_time r ≠ None →
  0 ≤ retry_delay →
  (k < n)%nat →
  (∀ j, (j < k)%nat → w_smtp w (w_nsmtp w + j) = false) →
  w_smtp w (w_nsmtp w + k) = true →
  let c := send_report_loop self r (Z.of_nat (i + n)) retry_delay
             (map Z.of_nat (seq i n)) in
  (c w).1 = inr true
  ∧ steps_between (success_pattern r retry_delay k) w (c w).2
  ∧ delivered_between 1 w (c w).2
  ∧ w_nsmtp (c w).2 = (w_nsmtp w + S k)%nat.
Proof.
  intros Hcfg Hs He Hdelay. revert n i w.
  induction k as [|k IH]; intros n i w Hkn Hfail Hok c; subst c.
  - destruct n as [|n]; [lia|]. cbn [seq map send_report_loop].
    destruct (send_report_email_outcome self r w Hcfg Hs He)
      as (Hres & Hn & Hsm & m & T & Hsub & _).
    rewrite Nat.add_0_r in Hok. rewrite Hok in *.
    rewrite (bind_run _ _ w true Hres).
    rewrite ret_run. cbn [fst snd].
    split; [reflexivity|]. split; [|split].
    + eexists. split; [exact T|]. by split.
    + eexists. split; [exact T|]. split; [|].
      * unfold reports_delivered. cbn. by rewrite Hsub.
      * destruct (extends_trans _ _ _ _
                    (extends_refl (λ _, true) w)
                    (respects_send_report_email (λ _, true) self r
                       ltac:(by intros ?) ltac:(by intros ?) w))
          as [_ _ _ _ _ _ _ L]. exact L.
    + rewrite Hn. lia.
  - destruct n as [|n]; [lia|]. cbn [seq map send_report_loop].
    destruct (send_report_email_outcome self r w Hcfg Hs He)
      as (Hres & Hn & Hsm & m & T & Hsub & _).
    pose proof (Hfail 0%nat ltac:(lia)) as H0.
    rewrite Nat.add_0_r in H0. rewrite H0 in *.
    rewrite (bind_run _ _ w false Hres).
    set (w1 := (send_report_email self r w).2) in *.
    assert (L1 : w_last_report_date w1 = w_last_report_date w).
    { destruct (respects_send_report_email (λ _, true) self r
                  ltac:(by intros ?) ltac:(by intros ?) w)
        as [_ _ _ _ _ _ _ L]. exact L. }
    destruct (Z.ltb_spec (Z.of_nat i) (Z.of_nat (i + S n) - 1)); [|lia].
    unfold sleep. destruct (Z.ltb_spec retry_delay 0); [lia|].
    rewrite (bind_run _ _ w1 tt) by reflexivity.
    set (w2 := (emit (EvSleep retry_delay) w1).2).
    replace (i + S n)%nat with (S i + n)%nat by lia.
    destruct (IH n (S i) w2) as (Hres2 & St2 & D2 & N2).
    + lia.
    + intros j Hj. subst w2. cbn. rewrite Hsm, Hn.
      replace (S (w_nsmtp w) + j)%nat with (w_nsmtp w + S j)%nat by lia.
      apply Hfail. lia.
    + subst w2. cbn. rewrite Hsm, Hn.
      replace (S (w_nsmtp w) + k)%nat with (w_nsmtp w + S k)%nat by lia.
      exact Hok.
    + split; [exact Hres2|]. split; [|split].
      * change (success_pattern r retry_delay (S k))
          with ([EvSendReportEmail r] ++ [EvSleep retry_delay]
                ++ success_pattern r retry_delay k)%list.
        apply (steps_between_trans _ _ w w1);
          [eexists; split; [exact T|]; by split|].
        apply (steps_between_trans _ _ w1 w2); [|exact St2].
        by exists [EvSleep retry_delay].
      * change 1%nat with (0 + (0 + 1))%nat.
        apply (delivered_between_trans _ _ w w1).
        { eexists. split; [exact T|]. split; [reflexivity|exact L1]. }
        apply (delivered_between_trans _ _ w1 w2); [|exact D2].
        by exists [EvSleep retry_delay].
      * rewrite N2. subst w2. cbn. rewrite Hn. lia.
Qed.

(** X17. [send_report] stops at the first success. For a configured
    reporter and a report that carries its window: if the next [k] SMTP
    sessions fail and the one after them succeeds, with [k] below the retry
    count, then [send_report] makes exactly [k + 1] attempts with a sleep
    after each of the [k] failed ones and none after the success, delivers
    the report once, and returns [True]. *)
Theorem send_report_stops_at_first_success (self : ServiceReporter)
    (r : Report) (retry_count retry_delay : Z) (k : nat) (w : World) :
  can_deliver self = true →
  start_time r ≠ None → end_time r ≠ None →
  0 ≤ retry_delay →
  Z.of_nat k < retry_count →
  (∀ j, (j < k)%nat → w_smtp w (w_nsmtp w + j) = false) →
  w_smtp w (w_nsmtp w + k) = true →
  let evs := events_since w (send_report self r retry_count retry_delay w).2 in
  (send_report self r retry_count retry_delay w).1 = inr true
  ∧ delivery_steps evs = success_pattern r retry_delay k
  ∧ delivery_attempts evs = S k
  ∧ reports_delivered evs = 1%nat.
Proof.
  intros Hcfg Hs He Hdelay Hk Hfail Hok evs. subst evs. unfold send_report.
  rewrite (bind_run _ _ w tt) by reflexivity.
  set (w0 := (emit (EvSendReport r) w).2).
  destruct (returns_save_report_backup self r w0) as [[] Hb].
  rewrite (bind_run _ _ w0 tt Hb).
  set (w1 := (_save_report_backup self r w0).2).
  assert (E : extends is_file_event w0 w1)
    by (apply respects_save_report_backup; by intros e He').
  assert (Hn1 : w_nsmtp w1 = w_nsmtp w).
  { assert (P : preserves w_nsmtp (_save_report_backup self r)).
    { unfold _save_report_backup. keeps. unfold format_report_email. keeps. }
    exact (P w0). }
  assert (Hs1 : w_smtp w1 = w_smtp w) by apply (ext_smtp _ _ _ E).
  unfold range.
  pose proof (send_report_loop_first_success self r retry_delay k
                (Z.to_nat retry_count) 0 w1 Hcfg Hs He Hdelay) as Hloop.
  cbv zeta in Hloop. rewrite Nat.add_0_l, Z2Nat.id in Hloop by lia.
  rewrite Hs1, Hn1 in Hloop.
  destruct (Hloop ltac:(lia) Hfail Hok) as (Hres & St & D & _).
  split; [exact Hres|].
  set (w2 := (send_report_loop self r retry_count retry_delay
                (map Z.of_nat (seq 0 (Z.to_nat retry_count))) w1).2) in *.
  assert (St' : steps_between (success_pattern r retry_delay k) w w2).
  { change (success_pattern r retry_delay k)
      with ([] ++ [] ++ success_pattern r retry_delay k)%list.
    apply (steps_between_trans _ _ w w0); [by exists [EvSendReport r]|].
    apply (steps_between_trans _ _ w0 w1); [|exact St].
    eapply steps_between_quiet; [|exact E]. by intros []. }
  assert (D' : delivered_between 1 w w2).
  { change 1%nat with (0 + (0 + 1))%nat.
    apply (delivered_between_trans _ _ w w0); [by exists [EvSendReport r]|].
    apply (delivered_between_trans _ _ w0 w1); [|exact D].
    eapply delivered_between_quiet; [|exact E]. by intros []. }
  destruct St' as (evs & T & A & _).
  rewrite (events_since_app _ _ _ T). split; [exact A|]. split.
  - rewrite <- delivery_attempts_steps, A. clear.
    induction k as [|k IH]; [done|].
    unfold delivery_attempts in *. cbn in *. by rewrite IH.
  - rewrite <- (events_since_app _ _ _ T).
    by apply delivered_between_events.
Qed.

Lemma send_report_stops_at_first_success_witness :
  let w := fresh_world (λ _, 0) (λ _, Response 200)
             (λ k, negb (k =? 0)%nat) (λ _, true) in
  let r := {| report_date := 0; start_time := Some 0; end_time := Some 10;
              total_checks := 1; uptime_count := 1; downtime_count := 0;
              uptime_percentage := Qc_of_Z 100;
              average_response_time_ms := None;
              downtime_incidents := [] |} in
  can_deliver sample_reporter = true
  ∧ (send_report sample_reporter r default_retry_count default_retry_delay
       w).1 = inr true
  ∧ delivery_steps
      (events_since w
         (send_report sample_reporter r default_retry_count
            default_retry_delay w).2)
    = [EvSendReportEmail r; EvSleep 300; EvSendReportEmail r].
Proof.
  intros w r.
  assert (Hcfg : can_deliver sample_reporter = true) by reflexivity.
  split; [exact Hcfg|].
  assert (Hs : start_time r ≠ None) by discriminate.
  assert (He : end_time r ≠ None) by discriminate.
  assert (Hd : 0 ≤ default_retry_delay) by (unfold default_retry_delay; lia).
  assert (Hk : Z.of_nat 1 < default_retry_count)
    by (unfold default_retry_count; lia).
  assert (Hfail : ∀ j, (j < 1)%nat → w_smtp w (w_nsmtp w + j) = false).
  { intros j Hj. destruct j; [reflexivity|lia]. }
  assert (Hok : w_smtp w (w_nsmtp w + 1) = true) by reflexivity.
  destruct (send_report_stops_at_first_success sample_reporter r
              default_retry_count default_retry_delay 1 w Hcfg Hs He Hd Hk
              Hfail Hok)
    as (Hres & Hsteps & _).
  split; [exact Hres|exact Hsteps].
Defined.

Lemma disk_op_world (w : World) :
  (disk_op w).2
  = {| w_clock := w_clock w; w_http := w_http w; w_smtp := w_smtp w;
       w_disk := w_disk w; w_nclock := w_nclock w; w_nhttp := w_nhttp w;
       w_nsmtp := w_nsmtp w; w_ndisk := S (w_ndisk w); w_fs := w_fs w;
       w_trace := w_trace w; w_logs := w_logs w;
       w_down_notified := w_down_notified w;
       w_last_report_date := w_last_report_date w |}.
Proof. unfold disk_op. by destruct (w_disk w (w_ndisk w)). Qed.

Lemma open_w_ok (path : string) (w : World) :
  w_disk w (w_ndisk w) = true →
  open_w path w
  = (inr tt,
     (set_file path FEmpty
        (emit (EvOpenWrite path true) (disk_op w).2).2).2).
Proof.
  intros E. unfold open_w, try_except, bind, disk_op. by rewrite E.
Qed.

Ltac world_norm :=
  rewrite ?disk_op_world;
  cbn [fst snd emit set_file now write bind ret
       w_disk w_ndisk w_smtp w_nsmtp w_trace w_clock w_nclock w_fs
       w_http w_nhttp w_logs w_down_notified w_last_report_date].

Lemma save_alert_backup_run (self : ServiceReporter) (a : Alert)
    (html : Html) (w : World) :
  format_alert_email self a = ret html →
  (∀ k, w_disk w k = true) →
  let w' := (_save_alert_backup self a w).2 in
  let json_file := alert_backup_file a (w_clock w (w_nclock w)) in
  let html_file := replace ".json" ".html" json_file in
  w_trace w'
  = (w_trace w ++
     [EvOpenWrite json_file true; EvWrite json_file (FJsonAlert a);
      EvOpenWrite html_file true; EvWrite html_file (FHtml html)])%list
  ∧ w_fs w' !! html_file = Some (FHtml html)
  ∧ w_smtp w' = w_smtp w ∧ w_nsmtp w' = w_nsmtp w
  ∧ (html_file ≠ json_file → w_fs w' !! json_file = Some (FJsonAlert a)).
Proof.
  intros Hfmt Hdisk. cbv zeta.
  eassert (Hrun : _save_alert_backup self a w = (inr tt, _)).
  { unfold _save_alert_backup. rewrite Hfmt. unfold try_except.
    rewrite (bind_run disk_op _ w tt)
      by (unfold disk_op; rewrite Hdisk; reflexivity).
    rewrite (bind_run now _ _ (w_clock w (w_nclock w)))
      by (by rewrite disk_op_world).
    world_norm.
    rewrite (bind_run (open_w _) _ _ tt)
      by (rewrite open_w_ok; [reflexivity|apply Hdisk]).
    rewrite open_w_ok by apply Hdisk. world_norm.
    rewrite (bind_run (open_w _) _ _ tt)
      by (rewrite open_w_ok; [reflexivity|apply Hdisk]).
    rewrite open_w_ok by apply Hdisk. world_norm.
    reflexivity. }
  rewrite Hrun. world_norm. rewrite <- !app_assoc. cbn [app].
  split; [reflexivity|]. split; [apply lookup_insert_eq|].
  split; [reflexivity|]. split; [reflexivity|]. intros Hne.
  rewrite !lookup_insert_ne by exact Hne. apply lookup_insert_eq.
Qed.

Lemma send_alert_email_ok (self : ServiceReporter) (a : Alert) (html : Html)
    (w : World) :
  format_alert_email self a = ret html →
  can_deliver self = true →
  w_smtp w (w_nsmtp w) = true →
  ∃ m, (send_alert_email self a w).1 = inr true
       ∧ w_trace (send_alert_email self a w).2
         = (w_trace w ++ [EvSendAlertEmail a; EvSmtp m true])%list
       ∧ mail_body m = html
       ∧ mail_to m = recipient_emails self
       ∧ w_fs (send_alert_email self a w).2 = w_fs w.
Proof.
  unfold can_deliver. intros Hfmt Hcfg Hsmtp.
  destruct (smtp_config_incomplete self) eqn:H1; [discriminate|].
  destruct (addresses_missing self) eqn:H2; [discriminate|].
  unfold send_alert_email. rewrite H1, H2, Hfmt.
  destruct (if String.eqb (alert_type a) "DOWNTIME" then _ else _)
    as [subject priority].
  unfold try_except, bind, smtp_session, emit, ret. cbn.
  rewrite Hsmtp. cbn. eexists. rewrite <- app_assoc.
  repeat (split; [reflexivity|]). reflexivity.
Qed.

(** X18. The good path of an alert. For a DOWNTIME or RECOVERY alert, a
    configured reporter, a working disk and an SMTP session that succeeds,
    [send_alert] writes the JSON backup, then the rendered document beside
    it, then mails that same document to the recipients in one session, and
    returns [True]. *)
Theorem send_alert_delivers (self : ServiceReporter) (a : Alert) (w : World) :
  alert_type a = "DOWNTIME" ∨ alert_type a = "RECOVERY" →
  can_deliver self = true →
  (∀ k, w_disk w k = true) →
  w_smtp w (w_nsmtp w) = true →
  let w' := (send_alert self a w).2 in
  let json_file := alert_backup_file a (w_clock w (w_nclock w)) in
  let html_file := replace ".json" ".html" json_file in
  ∃ html m,
    (format_alert_email self a w).1 = inr html
    ∧ (send_alert self a w).1 = inr true
    ∧ events_since w w'
      = [EvSendAlert a;
         EvOpenWrite json_file true; EvWrite json_file (FJsonAlert a);
         EvOpenWrite html_file true; EvWrite html_file (FHtml html);
         EvSendAlertEmail a; EvSmtp m true]
    ∧ mail_body m = html
    ∧ mail_to m = recipient_emails self
    ∧ w_fs w' !! html_file = Some (FHtml html).
Proof.
  intros Htype Hcfg Hdisk Hsmtp. cbv zeta.
  assert (∃ html, format_alert_email self a = ret html) as [html Hfmt].
  { unfold format_alert_email.
    destruct Htype as [Ht|Ht]; rewrite Ht; cbn; eauto. }
  unfold send_alert.
  rewrite (bind_run _ _ w tt) by reflexivity.
  set (w0 := (emit (EvSendAlert a) w).2).
  destruct (save_alert_backup_run self a html w0 Hfmt Hdisk)
    as (Ht1 & Hfs1 & Hs1 & Hn1 & _).
  destruct (returns_save_alert_backup self a w0) as [[] Hb].
  rewrite (bind_run _ _ w0 tt) by exact Hb.
  set (w1 := (_save_alert_backup self a w0).2) in *.
  destruct (send_alert_email_ok self a html w1 Hfmt Hcfg) as
    (m & Hres & Ht2 & Hbody & Hto & Hfs2).
  { rewrite Hs1, Hn1. exact Hsmtp. }
  exists html, m. rewrite Hfmt.
  split; [reflexivity|]. split; [exact Hres|].
  split.
  { unfold events_since. rewrite Ht2, Ht1. cbn [w0 emit snd w_trace].
    rewrite <- !app_assoc. by rewrite drop_app_length. }
  split; [exact Hbody|]. split; [exact Hto|].
  rewrite Hfs2. exact Hfs1.
Qed.

Lemma send_alert_delivers_witness :
  let a := {| alert_type := "RECOVERY"; alert_timestamp := 0;
              alert_service_name := "Render Service";
              alert_service_url := "https://example.onrender.com";
              alert_details := RecoveryDetails [] "recovered" |} in
  (alert_type a = "DOWNTIME" ∨ alert_type a = "RECOVERY")
  ∧ can_deliver sample_reporter = true
  ∧ (∀ k, w_disk working_world k = true)
  ∧ w_smtp working_world (w_nsmtp working_world) = true
  ∧ (send_alert sample_reporter a working_world).1 = inr true.
Proof.
  intros a.
  assert (Ht : alert_type a = "DOWNTIME" ∨ alert_type a = "RECOVERY")
    by (by right).
  assert (Hd : ∀ k, w_disk working_world k = true) by reflexivity.
  split; [exact Ht|]. split; [reflexivity|]. split; [exact Hd|].
  split; [reflexivity|].
  destruct (send_alert_delivers sample_reporter a working_world Ht eq_refl
              Hd eq_refl) as (html & m & _ & Hres & _).
  exact Hres.
Defined.

Lemma log_results_run (self : ServiceMonitor) (results : list ProbeResult)
    (w : World) :
  let c := for_each results
             (λ result,
                log_ping self (endpoint result) (method result)
                  (status result) (response_time_ms result) (error result)
                  (status_code result) ;;
                ret tt) in
  ∃ new, (c w).1 = inr tt
         ∧ w_logs (c w).2 = (w_logs w ++ new)%list
         ∧ map entry_fields new = map result_fields results
         ∧ w_down_notified (c w).2 = w_down_notified w.
Proof.
  cbv zeta. revert w. induction results as [|r rs IH]; intros w.
  { exists []. cbn. by rewrite app_nil_r. }
  cbn [for_each].
  destruct (log_ping_run self (endpoint r) (method r) (status r)
              (response_time_ms r) (error r) (status_code r) w)
    as (Hr & Hl & _).
  set (P := log_ping self _ _ _ _ _ _) in *.
  assert (Hd : w_down_notified (P w).2 = w_down_notified w).
  { assert (preserves w_down_notified P) as H; [|apply H].
    subst P. unfold log_ping, _save_logs. keeps. }
  rewrite (bind_run (P ;; ret tt) _ w tt)
    by (rewrite (bind_run P _ w _ Hr); reflexivity).
  rewrite (bind_run P _ w _ Hr). rewrite ret_run. cbn [snd].
  destruct (IH (P w).2) as (new & H1 & H2 & H3 & H4).
  eexists (_ :: new). split; [exact H1|].
  rewrite H2, Hl, <- app_assoc. split; [reflexivity|].
  split; [cbn [map]; by rewrite H3|]. by rewrite H4.
Qed.

(** X19. Every probe of a cycle is logged: [ping_service] returns the list
    built by [ping_all_endpoints], and the monitor's log list grows by one
    entry per result, in the order of the results and with the fields of
    each; whatever happens to the alert in between (delivered, failed,
    none), nothing else is added to the logs and nothing is removed. *)
Theorem ping_service_logs_every_result (self : RenderServiceManager)
    (w : World) :
  let w' := (ping_service self w).2 in
  ∃ results new,
    (ping_service self w).1 = inr results
    ∧ (ping_all_endpoints (keep_alive self) w).1 = inr results
    ∧ w_logs w' = (w_logs w ++ new)%list
    ∧ map entry_fields new = map result_fields results.
Proof.
  cbv zeta.
  destruct (returns_ping_all_endpoints (keep_alive self) w) as [results Hres].
  unfold ping_service. rewrite (bind_run _ _ _ _ Hres).
  assert (L1 : w_logs (ping_all_endpoints (keep_alive self) w).2 = w_logs w)
    by apply preserves_logs_ping_all_endpoints.
  set (w1 := (ping_all_endpoints (keep_alive self) w).2) in *.
  cbv zeta. rewrite (bind_run has_down_notified _ w1 (w_down_notified w1))
    by reflexivity.
  change (has_down_notified w1).2 with w1.
  set (B := if negb (any_up results) && negb (w_down_notified w1)
            then _ else _).
  assert (HB : returns B).
  { subst B. unfold _send_immediate_downtime_alert,
      _send_service_recovery_alert.
    total; by eexists. }
  assert (LB : preserves w_logs B).
  { subst B. unfold _send_immediate_downtime_alert,
      _send_service_recovery_alert.
    keeps; apply preserves_logs_send_alert. }
  destruct (HB w1) as [[] HB1]. rewrite (bind_run B _ w1 tt HB1).
  destruct (log_results_run (monitor self) results (B w1).2)
    as (new & H1 & H2 & H3 & _).
  set (L := for_each results _) in *.
  rewrite (bind_run L _ _ tt H1). rewrite ret_run. cbn [fst snd].
  exists results, new. split; [reflexivity|]. split; [exact Hres|].
  split; [|exact H3]. by rewrite H2, LB, L1.
Qed.

(** ** main.py: the report loop *)

Lemma preserves_logs_generate_report (self : ServiceMonitor)
    (s e : option Z) :
  preserves w_logs (generate_report self s e).
Proof. unfold generate_report, get_logs. keeps. Qed.

(** X20. What the midnight pass does to the date and to the logs. It never
    raises. With no record in the past 24 hours it marks the day as reported
    without any event (no backup, no mail) and keeps the logs. With records,
    a delivered report marks the day and, when [reset_logs_after_send] is
    set, empties the monitor's list (otherwise keeps it); a report that
    could not be delivered leaves both the date and the logs as they were. *)
Theorem midnight_report_date_and_logs (self : RenderServiceManager) (t : Z)
    (w : World) :
  let w' := (midnight_report self t w).2 in
  (midnight_report self t w).1 = inr tt
  ∧ match window (w_logs w) (Some (minus_one_day t)) (Some t) with
    | [] =>
        events_since w w' = []
        ∧ w_last_report_date w' = Some (dt_date t)
        ∧ w_logs w' = w_logs w
    | _ :: _ =>
        if bool_decide (reports_delivered (events_since w w') = 1%nat)
        then w_last_report_date w' = Some (dt_date t)
             ∧ w_logs w' = (if reset_logs_after_send self
                            then [] else w_logs w)
        else w_last_report_date w' = w_last_report_date w
             ∧ w_logs w' = w_logs w
    end.
Proof.
  intros w'. subst w'. unfold midnight_report. cbv zeta.
  set (s := Some (minus_one_day t)). set (e := Some t).
  pose proof (generate_report_result (monitor self) s e w) as Hgen.
  pose proof (respects_generate_report (λ _, false) (monitor self) s e w) as Eg.
  pose proof (preserves_logs_generate_report (monitor self) s e w) as Gg.
  set (wg := (generate_report (monitor self) s e w).2) in *.
  pose proof (extends_nothing _ _ Eg) as Tg.
  pose proof (ext_last_report_date _ _ _ Eg) as Lg.
  destruct (window (w_logs w) s e) as [|l0 rest] eqn:Hwin.
  - rewrite (try_inr _ _ w
               (set_last_report_date (Some (dt_date t)) wg).2 tt).
    2:{ rewrite (bind_run _ _ w None Hgen). reflexivity. }
    split; [reflexivity|]. cbn [snd].
    split; [apply events_since_app; cbn; by rewrite Tg, app_nil_r|].
    split; [reflexivity|exact Gg].
  - cbv zeta in Hgen.
    match type of Hgen with _ = inr (Some ?r0) => set (r := r0) in * end.
    destruct (send_report_delivers (reporter self) r default_retry_count
                default_retry_delay wg) as (b & Hres & D & _).
    { unfold default_retry_delay. lia. }
    pose proof (preserves_logs_send_report (reporter self) r
                  default_retry_count default_retry_delay wg) as Gs.
    set (ws := (send_report (reporter self) r default_retry_count
                  default_retry_delay wg).2) in *.
    destruct D as (evs & T & A & L).
    rewrite Tg in T.
    destruct b.
    + set (wl := (set_last_report_date (Some (dt_date t)) ws).2).
      destruct (reset_logs_after_send self).
      * destruct (returns_clear_logs (monitor self) wl) as [[] Hc].
        assert (Et : extends is_file_event wl (clear_logs (monitor self) wl).2)
          by (apply respects_clear_logs; by intros x Hx).
        assert (Gc : w_logs (clear_logs (monitor self) wl).2 = []).
        { unfold clear_logs.
          rewrite (bind_run _ _ wl tt) by reflexivity.
          by destruct (save_logs_run (monitor self)
                         (set_logs_attr [] wl).2) as (_ & -> & _). }
        assert (Hrun : clear_logs (monitor self) wl
                       = (inr tt, (clear_logs (monitor self) wl).2)).
        { rewrite (run_pair (clear_logs (monitor self)) wl) at 1.
          by rewrite Hc. }
        set (wt := (clear_logs (monitor self) wl).2) in *.
        rewrite (try_inr _ _ w wt tt).
        2:{ rewrite (bind_run _ _ w (Some r) Hgen).
            rewrite (bind_run _ _ wg true Hres).
            rewrite (bind_run _ _ ws tt) by reflexivity.
            exact Hrun. }
        split; [reflexivity|]. cbn [snd].
        destruct Et as [[evt [Tt Ft]] _ _ _ _ _ _ Lt].
        rewrite (events_since_app w wt (evs ++ evt)).
        2:{ rewrite Tt. subst wl. cbn. by rewrite T, app_assoc. }
        rewrite reports_delivered_app, A.
        rewrite (reports_delivered_quiet is_file_event evt)
          by (by intros [] || done).
        rewrite bool_decide_eq_true_2 by reflexivity.
        split; [by rewrite Lt|exact Gc].
      * rewrite (try_inr _ _ w wl tt).
        2:{ rewrite (bind_run _ _ w (Some r) Hgen).
            rewrite (bind_run _ _ wg true Hres).
            rewrite (bind_run _ _ ws tt) by reflexivity.
            reflexivity. }
        split; [reflexivity|]. cbn [snd].
        rewrite (events_since_app w wl evs) by (subst wl; cbn; exact T).
        rewrite A. rewrite bool_decide_eq_true_2 by reflexivity.
        split; [reflexivity|]. subst wl. cbn. by rewrite Gs.
    + rewrite (try_inr _ _ w ws tt).
      2:{ rewrite (bind_run _ _ w (Some r) Hgen).
          rewrite (bind_run _ _ wg false Hres). reflexivity. }
      split; [reflexivity|]. cbn [snd].
      rewrite (events_since_app w ws evs) by exact T.
      rewrite A. rewrite bool_decide_eq_false_2 by discriminate.
      split; [by rewrite L|by rewrite Gs].
Qed.

(** ** main.py: the alert of a probe cycle *)

Lemma send_alert_trace (self : ServiceReporter) (a : Alert) (w : World) :
  (∃ b, (send_alert self a w).1 = inr b)
  ∧ ∃ evs, w_trace (send_alert self a w).2
           = (w_trace w ++ EvSendAlert a :: evs)%list
           ∧ forallb not_send_alert evs = true.
Proof.
  unfold send_alert.
  set (rest := bind (_save_alert_backup self a)
                    (λ _, send_alert_email self a)).
  assert (Hrest : respects not_send_alert rest).
  { apply respects_bind; [|intros _].
    - apply respects_save_alert_backup. by intros [].
    - apply respects_send_alert_email; by intros []. }
  assert (Hret : returns rest).
  { apply returns_bind; [apply returns_save_alert_backup|intros _].
    apply returns_send_alert_email. }
  change (bind (emit (EvSendAlert a)) (λ _ : unit, rest) w)
    with (rest (emit (EvSendAlert a) w).2).
  set (w0 := (emit (EvSendAlert a) w).2).
  destruct (Hret w0) as [b Hb].
  destruct (Hrest w0) as [[evs [T F]] _ _ _ _ _ _ _].
  split; [by exists b|].
  exists evs. rewrite T. subst w0. simpl. by rewrite <- app_assoc.
Qed.

Lemma downtime_alert_trace (self : RenderServiceManager)
    (results : list ProbeResult) (w : World) :
  let c := _send_immediate_downtime_alert self results in
  let failed := List.filter result_is_down results in
  (c w).1 = inr tt
  ∧ ∃ evs,
      w_trace (c w).2
      = (w_trace w
         ++ EvSendAlert
              {| alert_type := "DOWNTIME";
                 alert_timestamp := w_clock w (w_nclock w);
                 alert_service_name := service_name self;
                 alert_service_url := base_url self;
                 alert_details :=
                   DowntimeDetails failed (Z.of_nat (length results))
                     (Z.of_nat (length failed)) |} :: evs)%list
      ∧ forallb not_send_alert evs = true.
Proof.
  cbv zeta.
  set (a := {| alert_type := "DOWNTIME";
               alert_timestamp := w_clock w (w_nclock w) |}).
  change (_send_immediate_downtime_alert self results w)
    with (try_except (bind (send_alert (reporter self) a) (λ _, ret tt))
                     (λ _, ret tt) (now w).2).
  destruct (send_alert_trace (reporter self) a (now w).2)
    as [[b Hb] (evs & T & F)].
  unfold try_except. rewrite (bind_run _ _ _ b Hb), ret_run. cbn [fst snd].
  split; [reflexivity|]. exists evs. by split.
Qed.

Lemma all_down_filter (results : list ProbeResult) :
  any_up results = false → Forall probe_result_ok results →
  List.filter result_is_down results = results.
Proof.
  unfold any_up. induction results as [|r rs IH]; [done|].
  cbn [existsb List.filter]. intros [Hr Hrs]%orb_false_iff Hok.
  apply Forall_cons in Hok as [[[Hup|Hdown] _] Hok].
  - rewrite Hup in Hr. discriminate.
  - unfold result_is_down at 1. rewrite Hdown. cbn [String.eqb Ascii.eqb Bool.eqb].
    f_equal. by apply IH.
Qed.

(** X21. The first unhealthy cycle sends one alert, and that alert names
    every probe of the cycle: when no downtime has been notified and no
    probe of the cycle is UP, [ping_service] calls [send_alert] exactly once,
    with a DOWNTIME alert for the manager's service name and URL whose failed
    endpoints are the whole result list, so that its failed count equals its
    total count. *)
Theorem first_down_cycle_alert (self : RenderServiceManager) (w : World)
    (results : list ProbeResult) :
  (ping_all_endpoints (keep_alive self) w).1 = inr results →
  any_up results = false →
  w_down_notified w = false →
  ∃ stamp,
    List.filter is_send_alert (events_since w (ping_service self w).2)
    = [EvSendAlert
         {| alert_type := "DOWNTIME";
            alert_timestamp := stamp;
            alert_service_name := service_name self;
            alert_service_url := base_url self;
            alert_details :=
              DowntimeDetails results (Z.of_nat (length results))
                (Z.of_nat (length results)) |}].
Proof.
  intros Hres Hdown Hflag.
  assert (Hok : Forall probe_result_ok results).
  { destruct (ping_endpoints_run (keep_alive self)
                (ka_endpoints (keep_alive self)) w) as (rs & Hrs & _ & _ & H).
    unfold ping_all_endpoints in Hres. rewrite Hrs in Hres.
    by injection Hres as <-. }
  assert (E1 : extends is_http_event w
                 (ping_all_endpoints (keep_alive self) w).2).
  { apply respects_ping_all_endpoints. by intros e He. }
  unfold ping_service. rewrite (bind_run _ _ _ _ Hres).
  set (w1 := (ping_all_endpoints (keep_alive self) w).2) in *.
  cbv zeta. rewrite (bind_run has_down_notified _ w1 (w_down_notified w1))
    by reflexivity.
  change (has_down_notified w1).2 with w1.
  rewrite (ext_down_notified _ _ _ E1), Hflag, Hdown. cbn [negb andb].
  destruct (downtime_alert_trace self results w1) as (Hr & evs & T & F).
  rewrite (all_down_filter results Hdown Hok) in T.
  rewrite (bind_run _ _ w1 tt).
  2:{ rewrite (bind_run _ _ w1 tt Hr). reflexivity. }
  rewrite (bind_run _ _ w1 tt Hr).
  set (w2 := (_send_immediate_downtime_alert self results w1).2) in *.
  set (w3 := (set_down_notified true w2).2).
  destruct (log_results_quiet (monitor self) results w3) as [Hl El].
  set (L := for_each results _) in *.
  rewrite (bind_run L _ w3 tt Hl), ret_run. cbn [fst snd].
  destruct E1 as [[e1 [T1 F1]] _ _ _ _ _ _ _].
  destruct El as [[e3 [T3 F3]] _ _ _ _ _ _ _].
  exists (w_clock w1 (w_nclock w1)).
  erewrite events_since_app.
  2:{ rewrite T3. subst w3. cbn [set_down_notified snd w_trace].
      rewrite T, T1, <- !app_assoc. reflexivity. }
  rewrite !List.filter_app. cbn [List.filter is_send_alert].
  rewrite (filter_excluded is_http_event is_send_alert e1)
    by (by intros [] || done).
  rewrite (filter_excluded not_send_alert is_send_alert evs)
    by (by intros [] || done).
  rewrite (filter_excluded not_send_alert is_send_alert e3)
    by (by intros [] || done).
  reflexivity.
Qed.

Lemma first_down_cycle_alert_witness :
  let w := fresh_world (λ k, Z.of_nat k * 1000) (λ _, Response 503)
             (λ _, true) (λ _, true) in
  ∃ results,
    (ping_all_endpoints (keep_alive sample_manager) w).1 = inr results
    ∧ any_up results = false
    ∧ w_down_notified w = false
    ∧ length
        (List.filter is_send_alert
           (events_since w (ping_service sample_manager w).2)) = 1%nat.
Proof.
  intros w.
  set (results :=
         match (ping_all_endpoints (keep_alive sample_manager) w).1 with
         | inr rs => rs
         | inl _ => []
         end).
  assert (Hres : (ping_all_endpoints (keep_alive sample_manager) w).1
                 = inr results) by (vm_compute; reflexivity).
  assert (Hdown : any_up results = false) by (vm_compute; reflexivity).
  exists results. split; [exact Hres|]. split; [exact Hdown|].
  split; [reflexivity|].
  destruct (first_down_cycle_alert sample_manager w results Hres Hdown
              eq_refl) as [stamp ->].
  reflexivity.
Defined.

(** ** reporting.py: the backup files *)

Lemma prefix_json_head (s : string) :
  String.prefix ".json" s = true → ∃ s', s = String "." (String "j" s').
Proof.
  destruct s as [|c1 [|c2 s']]; cbn [String.prefix]; try discriminate.
  - by destruct (ascii_dec "." c1).
  - destruct (ascii_dec "." c1) as [<-|]; [|discriminate].
    destruct (ascii_dec "j" c2) as [<-|]; [|discriminate]. eauto.
Qed.

Lemma replace_go_changes (fuel : nat) (s : string) :
  (String.length s < fuel)%nat →
  contains ".json" s = true →
  replace_go fuel ".json" ".html" s ≠ s.
Proof.
  revert fuel. induction s as [|c s IH]; intros fuel Hlen Hc.
  { discriminate. }
  destruct fuel as [|fuel]; [lia|]. cbn [replace_go].
  destruct (String.prefix ".json" (String c s)) eqn:Hp.
  - destruct (prefix_json_head _ Hp) as [s' ->]. discriminate.
  - cbn [contains] in Hc. rewrite Hp in Hc. cbn [orb] in Hc.
    intros [= H]. revert H. apply IH; [cbn in Hlen; lia|exact Hc].
Qed.

Lemma contains_after (needle a b : string) :
  contains needle b = true → contains needle (a +:+ b) = true.
Proof.
  intros H. induction a as [|c a IH]; [exact H|].
  change (String c a +:+ b) with (String c (a +:+ b)).
  simpl. rewrite IH. apply orb_true_r.
Qed.

Lemma report_backup_html_differs (stamp : Z) :
  replace ".json" ".html" (report_backup_file stamp)
  ≠ report_backup_file stamp.
Proof.
  apply replace_go_changes; [lia|]. unfold report_backup_file.
  do 4 apply contains_after. reflexivity.
Qed.

Lemma alert_backup_html_differs (a : Alert) (stamp : Z) :
  replace ".json" ".html" (alert_backup_file a stamp)
  ≠ alert_backup_file a stamp.
Proof.
  apply replace_go_changes; [lia|]. unfold alert_backup_file.
  do 6 apply contains_after. reflexivity.
Qed.

Lemma preserves_fs_send_alert_email (self : ServiceReporter) (a : Alert) :
  preserves w_fs (send_alert_email self a).
Proof. unfold send_alert_email, format_alert_email. keeps. Qed.

(** X22. The backup of an alert does not depend on the mail. For a DOWNTIME
    or RECOVERY alert and a working disk, after [send_alert] the JSON file
    named after the alert type and the time holds the alert, and the file of
    the same name ending in [.html], a different file, holds the rendered
    document; this holds whatever the SMTP configuration is and whatever the
    server answers. *)
Theorem alert_backup_persisted (self : ServiceReporter) (a : Alert)
    (w : World) :
  alert_type a = "DOWNTIME" ∨ alert_type a = "RECOVERY" →
  (∀ k, w_disk w k = true) →
  let w' := (send_alert self a w).2 in
  let json_file := alert_backup_file a (w_clock w (w_nclock w)) in
  let html_file := replace ".json" ".html" json_file in
  ∃ html,
    (format_alert_email self a w).1 = inr html
    ∧ html_file ≠ json_file
    ∧ w_fs w' !! json_file = Some (FJsonAlert a)
    ∧ w_fs w' !! html_file = Some (FHtml html).
Proof.
  intros Htype Hdisk. cbv zeta.
  assert (∃ html, format_alert_email self a = ret html) as [html Hfmt].
  { unfold format_alert_email.
    destruct Htype as [Ht|Ht]; rewrite Ht; cbn; eauto. }
  exists html. rewrite Hfmt. split; [reflexivity|].
  split; [apply alert_backup_html_differs|].
  unfold send_alert. rewrite (bind_run _ _ w tt) by reflexivity.
  set (w0 := (emit (EvSendAlert a) w).2).
  destruct (save_alert_backup_run self a html w0 Hfmt Hdisk)
    as (_ & Hh & _ & _ & Hj).
  destruct (returns_save_alert_backup self a w0) as [[] Hb].
  rewrite (bind_run _ _ w0 tt Hb).
  rewrite (preserves_fs_send_alert_email self a).
  split; [apply Hj, alert_backup_html_differs|exact Hh].
Qed.

Lemma alert_backup_persisted_witness :
  let self := {| smtp_server := None; smtp_port := 587;
                 smtp_username := None; smtp_password := None;
                 sender_email := None; recipient_emails := [];
                 rep_service_name := "Render Service";
                 rep_base_url := "Not configured" |} in
  let a := {| alert_type := "DOWNTIME"; alert_timestamp := 0;
              alert_service_name := "Render Service";
              alert_service_url := "https://example.onrender.com";
              alert_details := DowntimeDetails [] 0 0 |} in
  (alert_type a = "DOWNTIME" ∨ alert_type a = "RECOVERY")
  ∧ (∀ k, w_disk working_world k = true)
  ∧ w_fs (send_alert self a working_world).2
      !! alert_backup_file a 0 = Some (FJsonAlert a).
Proof.
  intros self a.
  assert (Ht : alert_type a = "DOWNTIME" ∨ alert_type a = "RECOVERY")
    by (by left).
  assert (Hd : ∀ k, w_disk working_world k = true) by reflexivity.
  split; [exact Ht|]. split; [exact Hd|].
  destruct (alert_backup_persisted self a working_world Ht Hd)
    as (html & _ & _ & Hj & _).
  exact Hj.
Defined.

Lemma format_report_email_run (self : ServiceReporter) (r : Report) :
  start_time r ≠ None → end_time r ≠ None →
  ∃ doc : Z → Html,
    ∀ w, format_report_email self r w
         = (inr (doc (w_clock w (w_nclock w))), (now w).2).
Proof.
  intros Hs He. unfold format_report_email.
  destruct (start_time r) as [s|]; [|done].
  destruct (end_time r) as [e|]; [|done].
  destruct (tier_of (uptime_percentage r)) as [tier colour].
  eexists (λ g, HtmlReport _ _ _ g _ _ _ _ _ _ _ _ _). reflexivity.
Qed.

Lemma save_report_backup_run (self : ServiceReporter) (r : Report)
    (w : World) :
  start_time r ≠ None → end_time r ≠ None →
  (∀ k, w_disk w k = true) →
  let w' := (_save_report_backup self r w).2 in
  let json_file := report_backup_file (w_clock w (w_nclock w)) in
  let html_file := replace ".json" ".html" json_file in
  w_fs w' !! json_file = Some (FJsonReport r)
  ∧ ∃ doc, w_fs w' !! html_file = Some (FHtml doc)
           ∧ w_trace w'
             = (w_trace w ++
                [EvOpenWrite json_file true;
                 EvWrite json_file (FJsonReport r);
                 EvOpenWrite html_file true;
                 EvWrite html_file (FHtml doc)])%list.
Proof.
  intros Hs He Hdisk. cbv zeta.
  destruct (format_report_email_run self r Hs He) as [doc Hdoc].
  eassert (Hrun : _save_report_backup self r w = (inr tt, _)).
  { unfold _save_report_backup, try_except.
    rewrite (bind_run disk_op _ w tt)
      by (unfold disk_op; rewrite Hdisk; reflexivity).
    rewrite (bind_run now _ _ (w_clock w (w_nclock w)))
      by (by rewrite disk_op_world).
    world_norm.
    rewrite (bind_run (open_w _) _ _ tt)
      by (rewrite open_w_ok; [reflexivity|apply Hdisk]).
    rewrite open_w_ok by apply Hdisk. world_norm.
    rewrite (bind_run (open_w _) _ _ tt)
      by (rewrite open_w_ok; [reflexivity|apply Hdisk]).
    rewrite open_w_ok by apply Hdisk. world_norm.
    unfold bind at 1. rewrite Hdoc. world_norm. reflexivity. }
  rewrite Hrun. world_norm. split.
  - rewrite !lookup_insert_ne by apply report_backup_html_differs.
    apply lookup_insert_eq.
  - eexists. split; [apply lookup_insert_eq|].
    rewrite <- !app_assoc. reflexivity.
Qed.

Lemma preserves_fs_send_report_loop (self : ServiceReporter) (r : Report)
    (n d : Z) (attempts : list Z) :
  preserves w_fs (send_report_loop self r n d attempts).
Proof.
  induction attempts as [|i l IH]; cbn [send_report_loop]; keeps;
    try exact IH.
  unfold send_report_email, format_report_email. keeps.
Qed.

(** X23. The backup of a report does not depend on the mail either. For a
    report that carries both bounds of its window and a working disk, after
    [send_report] the JSON file named after the time holds the report and the
    [.html] file beside it, a different file, holds a rendered document,
    for every retry count and delay and whatever the SMTP server answers,
    also when every attempt fails. *)
Theorem report_backup_persisted (self : ServiceReporter) (r : Report)
    (retry_count retry_delay : Z) (w : World) :
  start_time r ≠ None → end_time r ≠ None →
  (∀ k, w_disk w k = true) →
  let w' := (send_report self r retry_count retry_delay w).2 in
  let json_file := report_backup_file (w_clock w (w_nclock w)) in
  let html_file := replace ".json" ".html" json_file in
  html_file ≠ json_file
  ∧ w_fs w' !! json_file = Some (FJsonReport r)
  ∧ ∃ doc, w_fs w' !! html_file = Some (FHtml doc).
Proof.
  intros Hs He Hdisk. cbv zeta.
  split; [apply report_backup_html_differs|].
  unfold send_report. rewrite (bind_run _ _ w tt) by reflexivity.
  set (w0 := (emit (EvSendReport r) w).2).
  destruct (save_report_backup_run self r w0 Hs He Hdisk)
    as [Hj (doc & Hh & _)].
  destruct (returns_save_report_backup self r w0) as [[] Hb].
  rewrite (bind_run _ _ w0 tt Hb).
  split; [|exists doc]; rewrite (preserves_fs_send_report_loop self r);
    assumption.
Qed.

Lemma report_backup_persisted_witness :
  let r := {| report_date := 0; start_time := Some 0; end_time := Some 1;
              total_checks := 1; uptime_count := 1; downtime_count := 0;
              uptime_percentage := Qc_of_Z 100;
              average_response_time_ms := None;
              downtime_incidents := [] |} in
  let w := fresh_world (λ _, 0) (λ _, Response 200) (λ _, false)
             (λ _, true) in
  start_time r ≠ None ∧ end_time r ≠ None
  ∧ (∀ k, w_disk w k = true)
  ∧ w_fs (send_report sample_reporter r default_retry_count
            default_retry_delay w).2
      !! report_backup_file 0 = Some (FJsonReport r).
Proof.
  intros r w.
  assert (Hs : start_time r ≠ None) by discriminate.
  assert (He : end_time r ≠ None) by discriminate.
  assert (Hd : ∀ k, w_disk w k = true) by reflexivity.
  split; [exact Hs|]. split; [exact He|]. split; [exact Hd|].
  destruct (report_backup_persisted sample_reporter r default_retry_count
              default_retry_delay w Hs He Hd) as (_ & Hj & _).
  exact Hj.
Defined.



(** X24. The pace of the report loop. A pass never raises and always ends
    with one sleep: 120 seconds after a midnight pass, 30 seconds otherwise.
    Off midnight, or on a date already reported, the pass does nothing else:
    no report is built, no file or mail is touched, and the logs, the files
    and the recorded date stay as they were. *)
Theorem tick_ends_with_sleep (self : RenderServiceManager) (w : World) :
  let due := should_send_report (tick_time w) (w_last_report_date w) in
  let w' := (check_reporting_schedule_tick self w).2 in
  (check_reporting_schedule_tick self w).1 = inr tt
  ∧ ∃ evs,
      events_since w w' = (evs ++ [EvSleep (if due then 120 else 30)])%list
      ∧ (due = true
         ∨ evs = [] ∧ w_logs w' = w_logs w ∧ w_fs w' = w_fs w
           ∧ w_last_report_date w' = w_last_report_date w).
Proof.
  cbv zeta. unfold check_reporting_schedule_tick, tick_time.
  rewrite (bind_run now _ w (w_clock w (w_nclock w))) by reflexivity.
  set (t := w_clock w (w_nclock w)).
  set (w0 := (now w).2).
  rewrite (bind_run get_last_report_date _ w0 (w_last_report_date w))
    by reflexivity.
  change (get_last_report_date w0).2 with w0.
  destruct (should_send_report t (w_last_report_date w)) eqn:Hshould.
  - destruct (midnight_report_spec self t w0) as (Hres & evs & T & _).
    rewrite (bind_run _ _ w0 tt Hres).
    set (wm := (midnight_report self t w0).2) in *.
    split; [reflexivity|]. exists evs. split; [|by left].
    apply events_since_app. simpl. rewrite T. subst w0. simpl.
    by rewrite app_assoc.
  - split; [reflexivity|]. exists [].
    split; [by apply events_since_app|]. right. by repeat split.
Qed.
